(** * The task synchronization hook [useTasks] (src/hooks/useTasks.ts)

    A shallow embedding of the React hook that owns the task cache: the
    paginated fetch, the four mutations with optimistic application and
    rollback, and the three realtime notification handlers.

    Modelling conventions.
    - JavaScript numbers that the hook handles (ids, page, pageSize, counts)
      are integers, modelled in [Z].  [Math.ceil (a / b)] is modelled by
      [ceil_div], which is the exact ceiling of the quotient for a
      positive divisor (lemma [ceil_div_bounds]).
    - A string is the sequence of bytes of the UTF-8 encoding of the
      JavaScript string.  [trim] strips every white space and line
      terminator of the language, in that encoding, and [includes] is the
      search for a substring.  [String.prototype.toLowerCase] is a
      parameter of the development (class [Runtime]): its Unicode case
      mapping is left to the runtime, and every statement holds for any
      function.
    - React may invoke a state updater more than once (it does so under
      StrictMode); the number of further invocations is the other
      parameter of [Runtime], and it matters for the one updater of the hook
      that calls [setPagination] itself.
    - A nullable column ([T | null]) is an [option].
    - The hook state ([useState] cells) is threaded explicitly, together
      with the list of requests sent to the Data Service, by a small monad
      with exceptions.  Every operation runs to completion before the next
      one starts (one logical thread, no interleaving at an [await]). *)

From Stdlib Require Import ZArith List String Ascii Bool Lia Permutation Sorted.
Import ListNotations.
Local Open Scope string_scope.
Local Open Scope list_scope.
Local Open Scope Z_scope.

(** ** Strings *)

Module JsString.

(** The white space and line terminators that [String.prototype.trim]
    strips, in UTF-8.  One byte: TAB, LF, VT, FF, CR and SPACE. *)
Definition space1 (c : ascii) : bool :=
  let n := nat_of_ascii c in
  ((9 <=? n)%nat && (n <=? 13)%nat) || (n =? 32)%nat.

(** Two bytes: U+00A0 (C2 A0). *)
Definition space2 (c d : ascii) : bool :=
  (nat_of_ascii c =? 194)%nat && (nat_of_ascii d =? 160)%nat.

(** Three bytes: U+1680 (E1 9A 80), U+2000 to U+200A (E2 80 80 to E2 80 8A),
    U+2028 and U+2029 (E2 80 A8, E2 80 A9), U+202F (E2 80 AF),
    U+205F (E2 81 9F), U+3000 (E3 80 80) and U+FEFF (EF BB BF). *)
Definition space3 (c d e : ascii) : bool :=
  let x := nat_of_ascii c in
  let y := nat_of_ascii d in
  let z := nat_of_ascii e in
  ((x =? 225) && (y =? 154) && (z =? 128))%nat
  || ((x =? 226) && (y =? 128)
      && (((128 <=? z) && (z <=? 138)) || (z =? 168) || (z =? 169) || (z =? 175)))%nat
  || ((x =? 226) && (y =? 129) && (z =? 159))%nat
  || ((x =? 227) && (y =? 128) && (z =? 128))%nat
  || ((x =? 239) && (y =? 187) && (z =? 191))%nat.

(** Dropping the leading characters that [p1], [p2] or [p3] recognise. *)
Fixpoint strip_leading (p1 : ascii -> bool) (p2 : ascii -> ascii -> bool)
    (p3 : ascii -> ascii -> ascii -> bool) (s : string) : string :=
  match s with
  | EmptyString => EmptyString
  | String c s1 =>
      if p1 c then strip_leading p1 p2 p3 s1
      else
        match s1 with
        | EmptyString => s
        | String d s2 =>
            if p2 c d then strip_leading p1 p2 p3 s2
            else
              match s2 with
              | EmptyString => s
              | String e s3 =>
                  if p3 c d e then strip_leading p1 p2 p3 s3 else s
              end
        end
  end.

Definition trimStart (s : string) : string := strip_leading space1 space2 space3 s.

Fixpoint rev_append (s acc : string) : string :=
  match s with
  | EmptyString => acc
  | String c s' => rev_append s' (String c acc)
  end.

Definition rev (s : string) : string := rev_append s EmptyString.

(** The trailing white space, read backwards. *)
Definition trimEnd (s : string) : string :=
  rev (strip_leading space1 (fun d c => space2 c d) (fun e d c => space3 c d e)
                     (rev s)).

(** [s.trim()] *)
Definition trim (s : string) : string := trimEnd (trimStart s).

(** A string is truthy unless it is empty. *)
Definition truthy (s : string) : bool :=
  match s with EmptyString => false | String _ _ => true end.

(** [s.includes(pat)] *)
Fixpoint includes (s pat : string) : bool :=
  if String.prefix pat s then true
  else match s with
       | EmptyString => false
       | String _ s' => includes s' pat
       end.

End JsString.

(** ** The runtime *)

(** What the hook takes from its runtime and the sources do not define:
    [String.prototype.toLowerCase], and the number of times React invokes
    a state updater again after the call that computes the next state (0 in
    production, 1 under StrictMode). *)
Class Runtime : Type := mkRuntime {
  toLowerCase : string -> string;
  updater_reruns : nat
}.

(** A case mapping for the examples: it folds the letters of Basic Latin
    (A to Z) and of the Latin-1 Supplement (U+00C0 to U+00DE but U+00D7,
    encoded C3 80 to C3 9E), as [toLowerCase] does on such text. *)
Fixpoint sample_toLowerCase (s : string) : string :=
  match s with
  | EmptyString => EmptyString
  | String c s1 =>
      let n := nat_of_ascii c in
      if ((65 <=? n) && (n <=? 90))%nat
      then String (ascii_of_nat (n + 32)) (sample_toLowerCase s1)
      else
        match s1 with
        | String d s2 =>
            let m := nat_of_ascii d in
            if ((n =? 195) && (128 <=? m) && (m <=? 158) && negb (m =? 151))%nat
            then String c (String (ascii_of_nat (m + 32)) (sample_toLowerCase s2))
            else String c (sample_toLowerCase s1)
        | EmptyString => String c EmptyString
        end
  end.

(** The runtime of the examples: that case mapping, and no second
    invocation of the updaters. *)
Definition sample_runtime : Runtime :=
  {| toLowerCase := sample_toLowerCase; updater_reruns := 0 |}.

(** ** Numbers *)

(** [Math.ceil (a / b)] on integers, [b <> 0]. *)
Definition ceil_div (a b : Z) : Z := - ((- a) / b).

(** [x || 1] on a number: 0 is falsy. *)
Definition or_one (x : Z) : Z := if x =? 0 then 1 else x.

(** [Array.prototype.slice (start, end)] with integer arguments: a negative
    index counts from the end, and both ends are clamped to the array. *)
Definition slice {A : Type} (l : list A) (start end_ : Z) : list A :=
  let len := Z.of_nat (List.length l) in
  let k := if start <? 0 then Z.max (len + start) 0 else Z.min start len in
  let final := if end_ <? 0 then Z.max (len + end_) 0 else Z.min end_ len in
  firstn (Z.to_nat (final - k)) (skipn (Z.to_nat k) l).

(** ** Data model *)

(** Modelled from the spec: the generated [database.types] file is not part
    of the sources; the row of the [tasks_with_user] view has the Task
    attributes and the creator's identity, every column nullable as the
    hook's null checks ([task.id !== null], [title?.toLowerCase()],
    [isCompleted === true]) expect. *)
Record TaskWithUser : Type := mkTask {
  id : option Z;
  title : option string;
  description : option string;
  isCompleted : option bool;
  created_at : option string;
  createdBy : option string;
  creator_first_name : option string;
  creator_last_name : option string;
  creator_email : option string
}.

(** Modelled from the spec: [TaskUpdate], the partial Task sent by an update.
    The id and the creation time are server-assigned and immutable, so a
    patch carries the remaining attributes; [None] is an absent key. *)
Record TaskUpdate : Type := mkUpdate {
  upd_title : option string;
  upd_description : option string;
  upd_isCompleted : option bool;
  upd_createdBy : option string
}.

(** Modelled from the spec: [TaskInsert] without [createdBy], the payload
    of [addTask]. *)
Record TaskInsert : Type := mkInsert {
  ins_title : string;
  ins_description : string;
  ins_isCompleted : option bool
}.

Inductive SortOrder : Type := newest | oldest.
Inductive CompletionFilter : Type := all | active | completed.

Definition override {A : Type} (patch : option A) (old : option A) : option A :=
  match patch with
  | Some v => Some v
  | None => old
  end.

(** [{ ...task, ...updates }] *)
Definition spread (task : TaskWithUser) (updates : TaskUpdate) : TaskWithUser :=
  {| id := id task;
     title := override (upd_title updates) (title task);
     description := override (upd_description updates) (description task);
     isCompleted := override (upd_isCompleted updates) (isCompleted task);
     created_at := created_at task;
     createdBy := override (upd_createdBy updates) (createdBy task);
     creator_first_name := creator_first_name task;
     creator_last_name := creator_last_name task;
     creator_email := creator_email task |}.

(** [{ ...task, isCompleted: v }] *)
Definition with_isCompleted (task : TaskWithUser) (v : bool) : TaskWithUser :=
  {| id := id task;
     title := title task;
     description := description task;
     isCompleted := Some v;
     created_at := created_at task;
     createdBy := createdBy task;
     creator_first_name := creator_first_name task;
     creator_last_name := creator_last_name task;
     creator_email := creator_email task |}.

(** [a === b] on nullable numbers. *)
Definition id_eq (a b : option Z) : bool :=
  match a, b with
  | Some x, Some y => x =? y
  | None, None => true
  | _, _ => false
  end.

(** [task.id === n] for a number [n]. *)
Definition has_id (n : Z) (task : TaskWithUser) : bool := id_eq (id task) (Some n).

(** Truthiness of a nullable number: [null] and [0] are falsy. *)
Definition id_truthy (a : option Z) : bool :=
  match a with
  | Some x => negb (x =? 0)
  | None => false
  end.

(** [b === true] and [b === false] on a nullable boolean. *)
Definition is_true (b : option bool) : bool :=
  match b with Some true => true | _ => false end.
Definition is_false (b : option bool) : bool :=
  match b with Some false => true | _ => false end.

Module Options.
(** [UseTasksOptions], after the defaults of the hook's parameter list. *)
Record t : Type := mk {
  userId : option string;
  searchTerm : string;
  sortOrder : SortOrder;
  completionFilter : CompletionFilter;
  page : Z;
  pageSize : Z
}.

Definition default : t :=
  {| userId := None; searchTerm := ""; sortOrder := newest;
     completionFilter := all; page := 1; pageSize := 10 |}.
End Options.

Module PaginationInfo.
Record t : Type := mk {
  currentPage : Z;
  totalPages : Z;
  totalCount : Z;
  pageSize : Z;
  hasNextPage : bool;
  hasPrevPage : bool
}.
End PaginationInfo.

(** The four [useState] cells of the hook. *)
Record HookState : Type := mkState {
  tasks : list TaskWithUser;
  isLoading : bool;
  error : option string;
  pagination : PaginationInfo.t
}.

(** The state at mount. *)
Definition initial (o : Options.t) : HookState :=
  {| tasks := [];
     isLoading := true;
     error := None;
     pagination :=
       {| PaginationInfo.currentPage := Options.page o;
          PaginationInfo.totalPages := 1;
          PaginationInfo.totalCount := 0;
          PaginationInfo.pageSize := Options.pageSize o;
          PaginationInfo.hasNextPage := false;
          PaginationInfo.hasPrevPage := false |} |}.

(** ** The Data Service *)

(** A value found in the [error] field of a response, or thrown.
    [instanceof_Error] tells whether [err instanceof Error] holds for it. *)
Record JsError : Type := mkError {
  instanceof_Error : bool;
  message : string
}.

(** [new Error (msg)] *)
Definition new_Error (msg : string) : JsError :=
  {| instanceof_Error := true; message := msg |}.

(** [err instanceof Error ? err.message : fallback] *)
Definition errorMessage (err : JsError) (fallback : string) : string :=
  if instanceof_Error err then message err else fallback.

(** The requests the hook builds with the query builder. *)
Inductive Request : Type :=
| CountQuery (isCompleted_eq : option bool) (or_filter : option string)
| DataQuery (isCompleted_eq : option bool) (or_filter : option string)
            (ascending : bool) (range_from range_to : Z)
| SelectById (row_id : Z)
| InsertRow (newTask : TaskInsert) (created_by : option string)
| UpdateRow (row_id : Z) (updates : TaskUpdate)
| DeleteRow (row_id : Z).

Record CountResponse : Type := mkCountResponse {
  count : option Z;
  count_error : option JsError
}.

Record DataResponse : Type := mkDataResponse {
  data : option (list TaskWithUser);
  data_error : option JsError
}.

(** The service is a black box that answers each request: the head count,
    a page of rows, a single row ([data] or [null]) and, for a mutation,
    the [error] field. *)
Record DataService : Type := mkService {
  on_count : Request -> CountResponse;
  on_select : Request -> DataResponse;
  on_single : Request -> option TaskWithUser;
  on_mutation : Request -> option JsError
}.

(** ** The monad of the hook: state, sent requests, exceptions *)

Record World : Type := mkWorld {
  hook : HookState;
  sent : list Request
}.

Inductive Result (A : Type) : Type :=
| Returned (a : A)
| Thrown (e : JsError).
Arguments Returned {A} a.
Arguments Thrown {A} e.

Definition M (A : Type) : Type := World -> Result A * World.

Definition ret {A : Type} (a : A) : M A := fun w => (Returned a, w).

Definition bind {A B : Type} (c : M A) (k : A -> M B) : M B :=
  fun w =>
    match c w with
    | (Returned a, w') => k a w'
    | (Thrown e, w') => (Thrown e, w')
    end.

Definition throw {A : Type} (e : JsError) : M A := fun w => (Thrown e, w).

Definition try_catch {A : Type} (body : M A) (handler : JsError -> M A) : M A :=
  fun w =>
    match body w with
    | (Returned a, w') => (Returned a, w')
    | (Thrown e, w') => handler e w'
    end.

Definition try_finally {A : Type} (body : M A) (cleanup : M unit) : M A :=
  fun w =>
    match body w with
    | (r, w') =>
        match cleanup w' with
        | (Returned _, w'') => (r, w'')
        | (Thrown e, w'') => (Thrown e, w'')
        end
    end.

Declare Scope hook_scope.
Delimit Scope hook_scope with hook.
Notation "x <- c ;; k" := (bind c (fun x => k))
  (at level 61, c at next level, right associativity) : hook_scope.
Notation "c ;; k" := (bind c (fun _ => k))
  (at level 61, right associativity) : hook_scope.
Local Open Scope hook_scope.

Definition modify (f : HookState -> HookState) : M unit :=
  fun w => (Returned tt, {| hook := f (hook w); sent := sent w |}).

(** The state setters; each takes an updater, as [setTasks (prev => ...)]. *)
Definition setTasks (f : list TaskWithUser -> list TaskWithUser) : M unit :=
  modify (fun s => {| tasks := f (tasks s); isLoading := isLoading s;
                      error := error s; pagination := pagination s |}).

Definition setPagination (f : PaginationInfo.t -> PaginationInfo.t) : M unit :=
  modify (fun s => {| tasks := tasks s; isLoading := isLoading s;
                      error := error s; pagination := f (pagination s) |}).

Definition setError (e : option string) : M unit :=
  modify (fun s => {| tasks := tasks s; isLoading := isLoading s;
                      error := e; pagination := pagination s |}).

Definition setIsLoading (b : bool) : M unit :=
  modify (fun s => {| tasks := tasks s; isLoading := b;
                      error := error s; pagination := pagination s |}).

(** [await] of a request: it is recorded, and the service's answer returned. *)
Definition await {A : Type} (answer : Request -> A) (req : Request) : M A :=
  fun w => (Returned (answer req), {| hook := hook w; sent := sent w ++ [req] |}).

(** ** fetchTasks *)

(** The [.eq ("isCompleted", ...)] filter of both queries. *)
Definition completion_eq (f : CompletionFilter) : option bool :=
  match f with
  | active => Some false
  | completed => Some true
  | all => None
  end.

(** The [.or (...)] filter of both queries, present when the trimmed
    search term is not empty. *)
Definition search_or (searchTerm : string) : option string :=
  if JsString.truthy (JsString.trim searchTerm)
  then Some ("title.ilike.%" ++ searchTerm ++ "%,description.ilike.%" ++ searchTerm ++ "%")%string
  else None.

(** [totalCount || 0] *)
Definition or_zero (c : option Z) : Z :=
  match c with
  | Some n => n
  | None => 0
  end.

Definition fetch_totalPages (total pageSize : Z) : Z := or_one (ceil_div total pageSize).

Definition fetch_actualPage (page totalPages : Z) : Z :=
  let validPage := Z.min page totalPages in
  Z.max 1 validPage.

Definition is_oldest (s : SortOrder) : bool :=
  match s with oldest => true | newest => false end.

Definition fetchTasks (o : Options.t) (svc : DataService) : M unit :=
  try_finally
    (try_catch
       (setIsLoading true ;;
        setError None ;;
        r <- await (on_count svc)
               (CountQuery (completion_eq (Options.completionFilter o))
                           (search_or (Options.searchTerm o))) ;;
        match count_error r with
        | Some countError => throw countError
        | None =>
            let total := or_zero (count r) in
            let totalPages := fetch_totalPages total (Options.pageSize o) in
            let actualPage := fetch_actualPage (Options.page o) totalPages in
            let from := (actualPage - 1) * Options.pageSize o in
            let to := from + Options.pageSize o - 1 in
            d <- await (on_select svc)
                   (DataQuery (completion_eq (Options.completionFilter o))
                              (search_or (Options.searchTerm o))
                              (is_oldest (Options.sortOrder o)) from to) ;;
            match data_error d with
            | Some error => throw error
            | None =>
                match data d with
                | Some rows =>
                    setTasks (fun _ => rows) ;;
                    setPagination (fun _ =>
                      {| PaginationInfo.currentPage := actualPage;
                         PaginationInfo.totalPages := totalPages;
                         PaginationInfo.totalCount := total;
                         PaginationInfo.pageSize := Options.pageSize o;
                         PaginationInfo.hasNextPage := actualPage <? totalPages;
                         PaginationInfo.hasPrevPage := 1 <? actualPage |})
                | None => ret tt
                end
            end
        end)
       (fun err => setError (Some (errorMessage err "Failed to fetch tasks"))))
    (setIsLoading false).

(** ** The mutations *)

Definition addTask (o : Options.t) (svc : DataService) (newTask : TaskInsert) : M unit :=
  try_catch
    (setError None ;;
     error <- await (on_mutation svc) (InsertRow newTask (Options.userId o)) ;;
     match error with
     | Some e => throw e
     | None => ret tt
     end)
    (fun err =>
       setError (Some (errorMessage err "Failed to add task")) ;;
       throw err).

(** [tasks] is the array the callback closes over (its dependency list is
    [[tasks]]): the cache as of the last render. *)
Definition updateTask (svc : DataService) (tasks : list TaskWithUser)
    (id : Z) (updates : TaskUpdate) : M unit :=
  try_catch
    (setError None ;;
     match find (has_id id) tasks with
     | None => throw (new_Error "Task not found")
     | Some originalTask =>
         setTasks (fun prevTasks =>
           map (fun task => if has_id id task then spread task updates else task)
               prevTasks) ;;
         error <- await (on_mutation svc) (UpdateRow id updates) ;;
         match error with
         | Some e =>
             setTasks (fun prevTasks =>
               map (fun task => if has_id id task then originalTask else task)
                   prevTasks) ;;
             throw e
         | None => ret tt
         end
     end)
    (fun err =>
       setError (Some (errorMessage err "Failed to update task")) ;;
       throw err).

Definition deleteTask (svc : DataService) (tasks : list TaskWithUser)
    (id : Z) : M unit :=
  try_catch
    (setError None ;;
     match find (has_id id) tasks with
     | None => throw (new_Error "Task not found")
     | Some taskToDelete =>
         setTasks (fun prevTasks =>
           filter (fun task => negb (has_id id task)) prevTasks) ;;
         error <- await (on_mutation svc) (DeleteRow id) ;;
         match error with
         | Some e =>
             setTasks (fun prevTasks => prevTasks ++ [taskToDelete]) ;;
             throw e
         | None => ret tt
         end
     end)
    (fun err =>
       setError (Some (errorMessage err "Failed to delete task")) ;;
       throw err).

(** [{ isCompleted: v }] as a [TaskUpdate]. *)
Definition only_isCompleted (v : bool) : TaskUpdate :=
  {| upd_title := None; upd_description := None;
     upd_isCompleted := Some v; upd_createdBy := None |}.

Definition toggleTask (svc : DataService) (id : Z) (isCompleted : bool) : M unit :=
  try_catch
    (setError None ;;
     setTasks (fun prevTasks =>
       map (fun task =>
              if has_id id task then with_isCompleted task (negb isCompleted) else task)
           prevTasks) ;;
     error <- await (on_mutation svc) (UpdateRow id (only_isCompleted (negb isCompleted))) ;;
     match error with
     | Some e =>
         setTasks (fun prevTasks =>
           map (fun task =>
                  if has_id id task then with_isCompleted task isCompleted else task)
               prevTasks) ;;
         throw e
     | None => ret tt
     end)
    (fun err =>
       setError (Some (errorMessage err "Failed to toggle task")) ;;
       throw err).

Section Model.
Context {R : Runtime}.

(** ** The realtime notification handlers *)

(** [(row.title?.toLowerCase().includes(searchLower) || false) ||
     (row.description?.toLowerCase().includes(searchLower) || false)] *)
Definition field_includes (field : option string) (searchLower : string) : bool :=
  match field with
  | Some s => JsString.includes (toLowerCase s) searchLower
  | None => false
  end.

Definition matchesSearch (searchTerm : string) (row : TaskWithUser) : bool :=
  let searchLower := toLowerCase searchTerm in
  field_includes (title row) searchLower || field_includes (description row) searchLower.

Definition is_active (f : CompletionFilter) : bool :=
  match f with active => true | _ => false end.
Definition is_completed (f : CompletionFilter) : bool :=
  match f with completed => true | _ => false end.
Definition is_newest (s : SortOrder) : bool :=
  match s with newest => true | oldest => false end.

(** The updater passed to [setTasks] by the insert handler. *)
Definition insert_into (o : Options.t) (newTask : TaskWithUser)
    (prevTasks : list TaskWithUser) : list TaskWithUser :=
  if id_truthy (id newTask)
     && existsb (fun task => id_eq (id task) (id newTask)) prevTasks
  then prevTasks
  else
    let updatedTasks :=
      if is_newest (Options.sortOrder o)
      then newTask :: prevTasks
      else prevTasks ++ [newTask] in
    let from := (Options.page o - 1) * Options.pageSize o in
    let to := from + Options.pageSize o in
    slice updatedTasks from to.

Definition count_up (prev : PaginationInfo.t) : PaginationInfo.t :=
  {| PaginationInfo.currentPage := PaginationInfo.currentPage prev;
     PaginationInfo.totalPages :=
       ceil_div (PaginationInfo.totalCount prev + 1) (PaginationInfo.pageSize prev);
     PaginationInfo.totalCount := PaginationInfo.totalCount prev + 1;
     PaginationInfo.pageSize := PaginationInfo.pageSize prev;
     PaginationInfo.hasNextPage := PaginationInfo.hasNextPage prev;
     PaginationInfo.hasPrevPage := PaginationInfo.hasPrevPage prev |}.

Definition count_down (prev : PaginationInfo.t) : PaginationInfo.t :=
  {| PaginationInfo.currentPage := PaginationInfo.currentPage prev;
     PaginationInfo.totalPages :=
       ceil_div (Z.max 0 (PaginationInfo.totalCount prev - 1))
                (PaginationInfo.pageSize prev);
     PaginationInfo.totalCount := Z.max 0 (PaginationInfo.totalCount prev - 1);
     PaginationInfo.pageSize := PaginationInfo.pageSize prev;
     PaginationInfo.hasNextPage := PaginationInfo.hasNextPage prev;
     PaginationInfo.hasPrevPage := PaginationInfo.hasPrevPage prev |}.

(** [payload_new_id] is [payload.new.id]. *)
Definition handleRealtimeInsert (o : Options.t) (svc : DataService)
    (payload_new_id : Z) : M unit :=
  taskWithUser <- await (on_single svc) (SelectById payload_new_id) ;;
  match taskWithUser with
  | None => ret tt
  | Some newTask =>
      if is_active (Options.completionFilter o) && is_true (isCompleted newTask)
      then ret tt
      else if is_completed (Options.completionFilter o)
              && negb (is_true (isCompleted newTask))
      then ret tt
      else if JsString.truthy (JsString.trim (Options.searchTerm o))
              && negb (matchesSearch (Options.searchTerm o) newTask)
      then ret tt
      else
        setTasks (insert_into o newTask) ;;
        setPagination count_up
  end.

(** [setTasks (prev => { ...; setPagination (f); ...; return next })]: an
    updater that calls [setPagination] itself.  It returns the next list
    and the pagination update it queues, if any.  React takes the next list
    from one invocation of the updater; each invocation, the first and the
    [updater_reruns] further ones, queues the update again. *)
Definition setTasks_calling
    (updater : list TaskWithUser
               -> list TaskWithUser * option (PaginationInfo.t -> PaginationInfo.t))
    : M unit :=
  modify (fun s =>
    {| tasks := fst (updater (tasks s));
       isLoading := isLoading s;
       error := error s;
       pagination :=
         match snd (updater (tasks s)) with
         | Some f => Nat.iter (S updater_reruns) f (pagination s)
         | None => pagination s
         end |}).

(** The value of [shouldRemove] when the updater is built: the completion
    test first, then the search test if the row was not already to be
    removed. *)
Definition shouldRemove (o : Options.t) (updatedTask : TaskWithUser) : bool :=
  let shouldRemove :=
    (is_active (Options.completionFilter o) && is_true (isCompleted updatedTask))
    || (is_completed (Options.completionFilter o)
        && is_false (isCompleted updatedTask)) in
  if negb shouldRemove && JsString.truthy (JsString.trim (Options.searchTerm o))
  then negb (matchesSearch (Options.searchTerm o) updatedTask)
  else shouldRemove.

Definition handleRealtimeUpdate (o : Options.t) (svc : DataService)
    (payload_new_id : Z) : M unit :=
  let taskId := payload_new_id in
  taskWithUser <- await (on_single svc) (SelectById taskId) ;;
  match taskWithUser with
  | None => ret tt
  | Some updatedTask =>
      setTasks_calling (fun prevTasks =>
        if shouldRemove o updatedTask
        then (filter (fun task => negb (has_id taskId task)) prevTasks,
              Some count_down)
        else (map (fun task => if has_id taskId task then updatedTask else task)
                  prevTasks,
              None))
  end.

(** [payload_old_id] is [payload.old.id]. *)
Definition handleRealtimeDelete (payload_old_id : Z) : M unit :=
  let deletedTaskId := payload_old_id in
  setTasks (fun prevTasks =>
    filter (fun task => negb (has_id deletedTaskId task)) prevTasks) ;;
  setPagination count_down.

(** Running an operation from a world. *)
Definition outcome {A : Type} (c : M A) (w : World) : Result A := fst (c w).
Definition after {A : Type} (c : M A) (w : World) : HookState := hook (snd (c w)).
Definition requests {A : Type} (c : M A) (w : World) : list Request := sent (snd (c w)).

(** The two queries of a fetch. *)
Definition count_query (o : Options.t) : Request :=
  CountQuery (completion_eq (Options.completionFilter o))
             (search_or (Options.searchTerm o)).

Definition data_query (o : Options.t) (served : Z) : Request :=
  DataQuery (completion_eq (Options.completionFilter o))
            (search_or (Options.searchTerm o))
            (is_oldest (Options.sortOrder o))
            ((served - 1) * Options.pageSize o)
            (served * Options.pageSize o - 1).

(** The page a fetch serves, from the count the service reported. *)
Definition served_page (o : Options.t) (svc : DataService) : Z :=
  fetch_actualPage (Options.page o)
    (fetch_totalPages (or_zero (count (on_count svc (count_query o))))
                      (Options.pageSize o)).

(** ** Sample data for the scenarios *)

Definition sample_task (n : Z) (name : string) (done : bool) : TaskWithUser :=
  {| id := Some n; title := Some name; description := Some "details";
     isCompleted := Some done; created_at := None; createdBy := Some "u1";
     creator_first_name := Some "Ada"; creator_last_name := None;
     creator_email := None |}.

Definition T3 : TaskWithUser := sample_task 3 "Write tests" false.
Definition T4 : TaskWithUser := sample_task 4 "Fix login bug" false.
Definition T5 : TaskWithUser := sample_task 5 "Deploy" false.
Definition T6 : TaskWithUser := sample_task 6 "Release notes" false.

(** Page 1 of 2, three tasks a page, five tasks in all, newest first. *)
Definition sample_pagination : PaginationInfo.t :=
  {| PaginationInfo.currentPage := 1; PaginationInfo.totalPages := 2;
     PaginationInfo.totalCount := 5; PaginationInfo.pageSize := 3;
     PaginationInfo.hasNextPage := true; PaginationInfo.hasPrevPage := false |}.

Definition sample_state : HookState :=
  {| tasks := [T5; T4; T3]; isLoading := false; error := None;
     pagination := sample_pagination |}.

Definition sample_world : World := {| hook := sample_state; sent := [] |}.

Definition sample_options (term : string) (requested : Z) : Options.t :=
  {| Options.userId := Some "u1"; Options.searchTerm := term;
     Options.sortOrder := newest; Options.completionFilter := all;
     Options.page := requested; Options.pageSize := 3 |}.

(** A service that counts five rows, serves [rows], finds [row] by id and
    answers every mutation with [failure]. *)
Definition sample_service (rows : list TaskWithUser) (row : option TaskWithUser)
    (failure : option JsError) : DataService :=
  {| on_count := fun _ => {| count := Some 5; count_error := None |};
     on_select := fun _ => {| data := Some rows; data_error := None |};
     on_single := fun _ => row;
     on_mutation := fun _ => failure |}.

(** A service whose queries fail with [e]. *)
Definition failing_service (e : JsError) : DataService :=
  {| on_count := fun _ => {| count := None; count_error := Some e |};
     on_select := fun _ => {| data := None; data_error := Some e |};
     on_single := fun _ => None;
     on_mutation := fun _ => Some e |}.

(** What the service returns for a rejected request: a plain object. *)
Definition plain_failure : JsError :=
  {| instanceof_Error := false; message := "permission denied" |}.

(** ** Predicates used by the statements *)

(** An operation is rejected locally: it throws [Error ("Task not found")],
    surfaces that message, sends nothing and leaves the cache alone. *)
Definition rejected_locally (run : M unit) (w : World) : Prop :=
  outcome run w = Thrown (new_Error "Task not found")
  /\ error (after run w) = Some "Task not found"
  /\ requests run w = sent w
  /\ tasks (after run w) = tasks (hook w).

(** Number of entries of a list that carry the id [i]. *)
Definition occurrences (i : option Z) (l : list TaskWithUser) : nat :=
  List.length (filter (fun t => id_eq (id t) i) l).

(** The active filters in the words of the specification: the completion
    filter ([active]: isCompleted is false; [completed]: isCompleted is
    true; [all]: no condition) and, when the trimmed search term is not
    empty, the case-insensitive substring match on the title or the
    description. *)
Definition satisfies_completion (f : CompletionFilter) (row : TaskWithUser) : bool :=
  match f with
  | all => true
  | active => is_false (isCompleted row)
  | completed => is_true (isCompleted row)
  end.

(** The search of the specification, said without the functions of the
    code: a field contains the term, case ignored, when the lower-cased
    field can be cut around the lower-cased term; a row is hit when its
    title or its description contains the term. *)
Definition contains_ignoring_case (field term : string) : Prop :=
  exists pre post, toLowerCase field = (pre ++ toLowerCase term ++ post)%string.

Definition search_hit (term : string) (row : TaskWithUser) : Prop :=
  (exists s, title row = Some s /\ contains_ignoring_case s term)
  \/ (exists s, description row = Some s /\ contains_ignoring_case s term).

(** The filters of the specification as propositions.  The completion
    filter: "active" asks for [isCompleted = false], "completed" for
    [isCompleted = true], "all" for nothing.  The search filter is active
    when the trimmed term is not empty, as in the fetch. *)
Definition completion_holds (f : CompletionFilter) (row : TaskWithUser) : Prop :=
  match f with
  | all => True
  | active => isCompleted row = Some false
  | completed => isCompleted row = Some true
  end.

Definition search_holds (term : string) (row : TaskWithUser) : Prop :=
  JsString.trim term = "" \/ search_hit term row.

Definition filters_hold (o : Options.t) (row : TaskWithUser) : Prop :=
  completion_holds (Options.completionFilter o) row
  /\ search_holds (Options.searchTerm o) row.

Definition satisfies_search (term : string) (row : TaskWithUser) : bool :=
  if JsString.truthy (JsString.trim term) then matchesSearch term row else true.

Definition passes_filters (o : Options.t) (row : TaskWithUser) : bool :=
  satisfies_completion (Options.completionFilter o) row
  && satisfies_search (Options.searchTerm o) row.

(** The list the insert handler slices: the new task at the head for
    newest-first, at the tail for oldest-first. *)
Definition extended (o : Options.t) (newTask : TaskWithUser)
    (prevTasks : list TaskWithUser) : list TaskWithUser :=
  match Options.sortOrder o with
  | newest => newTask :: prevTasks
  | oldest => prevTasks ++ [newTask]
  end.

(** The pagination invariant of the cache. *)
Definition pages_invariant (s : HookState) : Prop :=
  PaginationInfo.totalPages (pagination s)
  = Z.max 1 (ceil_div (PaginationInfo.totalCount (pagination s))
                      (PaginationInfo.pageSize (pagination s))).

Definition window_bound (s : HookState) : Prop :=
  Z.of_nat (List.length (tasks s)) <= PaginationInfo.pageSize (pagination s).

(** A task whose id is 0, alone in the cache. *)
Definition T0 : TaskWithUser := sample_task 0 "Inbox" false.

Definition zero_world : World :=
  {| hook := {| tasks := [T0]; isLoading := false; error := None;
                pagination :=
                  {| PaginationInfo.currentPage := 1; PaginationInfo.totalPages := 1;
                     PaginationInfo.totalCount := 1; PaginationInfo.pageSize := 3;
                     PaginationInfo.hasNextPage := false;
                     PaginationInfo.hasPrevPage := false |} |};
     sent := [] |}.

(** A row whose [isCompleted] column is null, and the first page of the
    active tasks, newest first. *)
Definition N6 : TaskWithUser :=
  {| id := Some 6; title := Some "Release notes"; description := Some "details";
     isCompleted := None; created_at := None; createdBy := Some "u1";
     creator_first_name := Some "Ada"; creator_last_name := None;
     creator_email := None |}.

Definition active_options : Options.t :=
  {| Options.userId := Some "u1"; Options.searchTerm := "";
     Options.sortOrder := newest; Options.completionFilter := active;
     Options.page := 1; Options.pageSize := 3 |}.

(** The last counted task, alone on its page. *)
Definition last_task_world : World :=
  {| hook := {| tasks := [T3]; isLoading := false; error := None;
                pagination :=
                  {| PaginationInfo.currentPage := 1; PaginationInfo.totalPages := 1;
                     PaginationInfo.totalCount := 1; PaginationInfo.pageSize := 3;
                     PaginationInfo.hasNextPage := false;
                     PaginationInfo.hasPrevPage := false |} |};
     sent := [] |}.

(** A service whose data query answers without rows and without error. *)
Definition null_data_service : DataService :=
  {| on_count := fun _ => {| count := Some 5; count_error := None |};
     on_select := fun _ => {| data := None; data_error := None |};
     on_single := fun _ => None;
     on_mutation := fun _ => None |}.

(** The first page, three tasks a page, oldest first. *)
Definition oldest_options : Options.t :=
  {| Options.userId := Some "u1"; Options.searchTerm := "";
     Options.sortOrder := oldest; Options.completionFilter := all;
     Options.page := 1; Options.pageSize := 3 |}.


End Model.

(** ** The Pagination component (components/ui/Pagination.tsx)

    The component that renders the hook's pagination record: the
    "Showing a to b of n" line and the list of page buttons. *)

Module Pagination.

(** An element of [rangeWithDots]: a page number or the string ['...']. *)
Inductive PageItem : Type :=
| Page (n : Z)
| Dots.

(** [totalCount === 0 ? 0 : (currentPage - 1) * pageSize + 1] *)
Definition startItem (currentPage totalCount pageSize : Z) : Z :=
  if totalCount =? 0 then 0 else (currentPage - 1) * pageSize + 1.

(** [Math.min (currentPage * pageSize, totalCount)] *)
Definition endItem (currentPage totalCount pageSize : Z) : Z :=
  Z.min (currentPage * pageSize) totalCount.

Definition delta : Z := 2.

(** The test of the first loop of [getPageNumbers]. *)
Definition kept (currentPage totalPages i : Z) : bool :=
  (i =? 1) || (i =? totalPages)
  || ((currentPage - delta <=? i) && (i <=? currentPage + delta)).

(** [for (let i = 1; i <= totalPages; i++) if (...) range.push (i)] *)
Definition range (currentPage totalPages : Z) : list Z :=
  filter (kept currentPage totalPages)
         (map Z.of_nat (seq 1 (Z.to_nat totalPages))).

(** Truthiness of [l]: [undefined] and [0] are falsy. *)
Definition truthy (l : option Z) : bool :=
  match l with
  | Some x => negb (x =? 0)
  | None => false
  end.

(** What one step of [range.forEach] pushes before [i], given [l]. *)
Definition filler (l : option Z) (i : Z) : list PageItem :=
  match l with
  | Some l' =>
      if truthy l
      then if i - l' =? 2 then [Page (l' + 1)]
           else if negb (i - l' =? 1) then [Dots]
           else []
      else []
  | None => []
  end.

(** [range.forEach ((i) => { ...; rangeWithDots.push (i); l = i; })],
    started with [l]. *)
Fixpoint rangeWithDots (l : option Z) (range : list Z) : list PageItem :=
  match range with
  | [] => []
  | i :: rest => filler l i ++ Page i :: rangeWithDots (Some i) rest
  end.

Definition getPageNumbers (currentPage totalPages : Z) : list PageItem :=
  rangeWithDots None (range currentPage totalPages).

(** A list of page buttons is well spaced when two neighbouring numbers
    are consecutive pages and dots stand between two numbers that leave out
    at least two pages. *)
Inductive spaced : list PageItem -> Prop :=
| spaced_nil : spaced []
| spaced_one (a : Z) : spaced [Page a]
| spaced_next (a b : Z) (rest : list PageItem) :
    b = a + 1 -> spaced (Page b :: rest) -> spaced (Page a :: Page b :: rest)
| spaced_dots (a b : Z) (rest : list PageItem) :
    a + 3 <= b -> spaced (Page b :: rest) -> spaced (Page a :: Dots :: Page b :: rest).

End Pagination.

(** ** The callers of the mutations

    The form that adds a task (components/tasks/TaskForm.tsx) and the
    list item that edits, toggles and deletes one
    (components/tasks/TaskItem.tsx).  Each component has [useState] cells
    of its own, threaded next to the hook's world. *)

(** [!s.trim ()] *)
Definition blank (s : string) : bool := negb (JsString.truthy (JsString.trim s)).

(** [!s?.trim ()] for an optional string *)
Definition blank_opt (s : option string) : bool :=
  match s with
  | Some s' => blank s'
  | None => true
  end.

Module TaskForm.

Record Errors : Type := mkErrors {
  title_error : option string;
  description_error : option string
}.

Record State : Type := mkState {
  task : TaskInsert;
  isLoading : bool;
  errors : Errors
}.

(** [{ title: "", description: "", isCompleted: false }] *)
Definition empty_task : TaskInsert :=
  {| ins_title := ""; ins_description := ""; ins_isCompleted := Some false |}.

Definition initial : State :=
  {| task := empty_task; isLoading := false;
     errors := {| title_error := None; description_error := None |} |}.

(** The [newErrors] object of [validateForm]. *)
Definition newErrors (t : TaskInsert) : Errors :=
  {| title_error := if blank (ins_title t) then Some "Title is required" else None;
     description_error :=
       if blank (ins_description t) then Some "Description is required" else None |}.

(** [Object.keys (newErrors).length === 0] *)
Definition no_error (e : Errors) : bool :=
  match title_error e, description_error e with
  | None, None => true
  | _, _ => false
  end.

(** [handleSubmit], with the [onSubmit] callback the form was given. *)
Definition handleSubmit (onSubmit : TaskInsert -> M unit) (s : State) (w : World)
    : State * World :=
  let checked := {| task := task s; isLoading := isLoading s;
                    errors := newErrors (task s) |} in
  if negb (no_error (newErrors (task s))) then (checked, w)
  else
    match onSubmit (task s) w with
    | (Returned _, w') =>
        ({| task := empty_task; isLoading := false;
            errors := {| title_error := None; description_error := None |} |}, w')
    | (Thrown _, w') =>
        ({| task := task s; isLoading := false; errors := newErrors (task s) |}, w')
    end.

End TaskForm.

Module TaskItem.

Record State : Type := mkState {
  isEditing : bool;
  editForm : TaskUpdate;
  isLoading : bool;
  isDeleting : bool
}.

(** [{ title: task.title || "", description: task.description || "" }] *)
Definition form_of (task : TaskWithUser) : TaskUpdate :=
  {| upd_title := Some (match title task with Some s => s | None => "" end);
     upd_description := Some (match description task with Some s => s | None => "" end);
     upd_isCompleted := None;
     upd_createdBy := None |}.

Definition initial (task : TaskWithUser) : State :=
  {| isEditing := false; editForm := form_of task;
     isLoading := false; isDeleting := false |}.

(** [handleSave], with the [onEdit] callback the item was given. *)
Definition handleSave (onEdit : Z -> TaskUpdate -> M unit) (task : TaskWithUser)
    (s : State) (w : World) : State * World :=
  if blank_opt (upd_title (editForm s)) || blank_opt (upd_description (editForm s))
  then (s, w)
  else
    match id task with
    | Some n =>
        match onEdit n (editForm s) w with
        | (Returned _, w') =>
            ({| isEditing := false; editForm := editForm s;
                isLoading := false; isDeleting := isDeleting s |}, w')
        | (Thrown _, w') =>
            ({| isEditing := isEditing s; editForm := editForm s;
                isLoading := false; isDeleting := isDeleting s |}, w')
        end
    | None =>
        ({| isEditing := false; editForm := editForm s;
            isLoading := false; isDeleting := isDeleting s |}, w)
    end.

(** [handleCancel] *)
Definition handleCancel (task : TaskWithUser) (s : State) : State :=
  {| isEditing := false; editForm := form_of task;
     isLoading := isLoading s; isDeleting := isDeleting s |}.

(** [handleDelete]; [confirmed] is the answer of [window.confirm]. *)
Definition handleDelete (onDelete : Z -> M unit) (task : TaskWithUser)
    (confirmed : bool) (s : State) (w : World) : State * World :=
  if negb confirmed then (s, w)
  else
    let deleting := {| isEditing := isEditing s; editForm := editForm s;
                       isLoading := isLoading s; isDeleting := true |} in
    match id task with
    | Some n =>
        match onDelete n w with
        | (Returned _, w') => (deleting, w')
        | (Thrown _, w') =>
            ({| isEditing := isEditing s; editForm := editForm s;
                isLoading := isLoading s; isDeleting := false |}, w')
        end
    | None => (deleting, w)
    end.

(** The click on the check box:
    [task.id !== null && onToggle (task.id, task.isCompleted === true)]. *)
Definition clickToggle (onToggle : Z -> bool -> M unit) (task : TaskWithUser)
    (w : World) : World :=
  match id task with
  | Some n => snd (onToggle n (is_true (isCompleted task)) w)
  | None => w
  end.

End TaskItem.

(** * Properties *)

(** ** Running the monad *)

Ltac run_hook :=
  unfold after, outcome, requests, try_finally, try_catch, bind, ret, throw,
    await, setTasks, setPagination, setError, setIsLoading, modify; simpl.

Section Properties.
Context {R : Runtime}.

(** ** Strings *)

Lemma prefix_spec (p s : string) :
  String.prefix p s = true <-> exists post, s = (p ++ post)%string.
Proof.
  revert s. induction p as [| c p IH]; intros s.
  - split; [intros _; exists s; reflexivity | intros _; destruct s; reflexivity].
  - destruct s as [| d s]; simpl.
    + split; [discriminate | intros (post & H); discriminate].
    + destruct (ascii_dec c d) as [Heq | Hne].
      * subst d. rewrite IH. split; intros (post & H); exists post.
        -- rewrite H; reflexivity.
        -- injection H as H; exact H.
      * split; [discriminate |].
        intros (post & H). injection H as H1 _. congruence.
Qed.

Lemma includes_unfold (s pat : string) :
  JsString.includes s pat
  = if String.prefix pat s then true
    else match s with
         | EmptyString => false
         | String _ s' => JsString.includes s' pat
         end.
Proof. destruct s; reflexivity. Qed.

(** [includes] finds exactly the substrings. *)
Lemma includes_spec (s pat : string) :
  JsString.includes s pat = true
  <-> exists pre post, s = (pre ++ pat ++ post)%string.
Proof.
  induction s as [| c s IH]; rewrite includes_unfold.
  - destruct (String.prefix pat "") eqn:E.
    + split; [intros _ | reflexivity].
      apply prefix_spec in E. destruct E as (post & E).
      exists "", post. exact E.
    + split; [discriminate |].
      intros (pre & post & H). exfalso.
      assert (Hp : String.prefix pat "" = true).
      { apply prefix_spec. destruct pre; [| discriminate]. exists post. exact H. }
      congruence.
  - destruct (String.prefix pat (String c s)) eqn:E.
    + split; [intros _ | reflexivity].
      apply prefix_spec in E. destruct E as (post & E).
      exists "", post. exact E.
    + rewrite IH. split.
      * intros (pre & post & H). exists (String c pre), post. simpl. rewrite H. reflexivity.
      * intros (pre & post & H). destruct pre as [| d pre].
        -- exfalso. assert (Hp : String.prefix pat (String c s) = true)
             by (apply prefix_spec; exists post; exact H).
           congruence.
        -- simpl in H. injection H as _ H. exists pre, post. exact H.
Qed.

Lemma truthy_not_empty (s : string) : JsString.truthy s = true <-> s <> "".
Proof. destruct s; simpl; split; congruence. Qed.

(** The code's search test decides the search of the specification. *)
Lemma field_includes_spec (field : option string) (term : string) :
  field_includes field (toLowerCase term) = true
  <-> exists s, field = Some s /\ contains_ignoring_case s term.
Proof.
  unfold field_includes, contains_ignoring_case. destruct field as [s |].
  - rewrite includes_spec. split.
    + intros H. exists s. split; [reflexivity | exact H].
    + intros (s' & [= <-] & H). exact H.
  - split; [discriminate | intros (s' & Hs & _); discriminate].
Qed.

Lemma matchesSearch_spec (term : string) (row : TaskWithUser) :
  matchesSearch term row = true <-> search_hit term row.
Proof.
  unfold matchesSearch, search_hit.
  rewrite orb_true_iff, !field_includes_spec. reflexivity.
Qed.

(** The search filter as the handlers compute it decides the search filter
    of the specification. *)
Lemma search_holds_spec (term : string) (row : TaskWithUser) :
  satisfies_search term row = true <-> search_holds term row.
Proof.
  unfold satisfies_search, search_holds. rewrite <- matchesSearch_spec.
  destruct (JsString.truthy (JsString.trim term)) eqn:E.
  - split; [intros H; right; exact H |].
    intros [He | H]; [rewrite He in E; discriminate | exact H].
  - split; [intros _; left | reflexivity].
    destruct (JsString.trim term); [reflexivity | discriminate].
Qed.

(** ** Arithmetic of the pagination calculator *)

(** [ceil_div] is the ceiling of the quotient: the least [q] with
    [a <= b * q]. *)
Lemma ceil_div_bounds (a b : Z) :
  0 < b -> b * (ceil_div a b - 1) < a <= b * ceil_div a b.
Proof.
  intros Hb. unfold ceil_div.
  pose proof (Z.div_mod (- a) b) as Hdm.
  pose proof (Z.mod_pos_bound (- a) b Hb) as Hm.
  nia.
Qed.

Lemma ceil_div_nonneg (a b : Z) : 0 < b -> 0 <= a -> 0 <= ceil_div a b.
Proof.
  intros Hb Ha. pose proof (ceil_div_bounds a b Hb). nia.
Qed.

Lemma ceil_div_pos (a b : Z) : 0 < b -> 0 < a -> 1 <= ceil_div a b.
Proof.
  intros Hb Ha. pose proof (ceil_div_bounds a b Hb). nia.
Qed.

Lemma ceil_div_zero (b : Z) : ceil_div 0 b = 0.
Proof. reflexivity. Qed.

(** With a positive page size and a count that is not negative, the
    [|| 1] of the fetch is the floor at one page. *)
Lemma fetch_totalPages_max (total pageSize : Z) :
  0 < pageSize -> 0 <= total ->
  fetch_totalPages total pageSize = Z.max 1 (ceil_div total pageSize).
Proof.
  intros Hp Ht. unfold fetch_totalPages, or_one.
  pose proof (ceil_div_nonneg total pageSize Hp Ht).
  destruct (ceil_div total pageSize =? 0) eqn:E.
  - apply Z.eqb_eq in E. rewrite E. reflexivity.
  - apply Z.eqb_neq in E. lia.
Qed.



Lemma fetchTasks_after_count (o : Options.t) (svc : DataService) (w : World) :
  count_error (on_count svc (count_query o)) = None ->
  requests (fetchTasks o svc) w
  = sent w ++ [count_query o; data_query o (served_page o svc)].
Proof.
  intros Hc. unfold fetchTasks, served_page, data_query.
  fold (count_query o). run_hook. rewrite Hc. simpl.
  set (sp := fetch_actualPage _ _).
  replace (sp * Options.pageSize o - 1)
    with ((sp - 1) * Options.pageSize o + Options.pageSize o - 1) by ring.
  set (q := DataQuery _ _ _ _ _).
  destruct (data_error (on_select svc q)); simpl.
  - rewrite <- app_assoc. reflexivity.
  - destruct (data (on_select svc q)); simpl; rewrite <- app_assoc; reflexivity.
Qed.


(** ** Failure of a fetch *)

(** C6. When the count query or the data query of a fetch fails with [e],
    the fetch stops there: the task list and the pagination record keep
    their values from before the fetch, the error cell holds the failure's
    message ("Failed to fetch tasks" unless [e] is an [Error]), loading is
    over and nothing is thrown to the caller. *)
Theorem fetch_failure_keeps_cache (o : Options.t) (svc : DataService)
    (w : World) (e : JsError) :
  count_error (on_count svc (count_query o)) = Some e
  \/ (count_error (on_count svc (count_query o)) = None
      /\ data_error (on_select svc (data_query o (served_page o svc))) = Some e) ->
  tasks (after (fetchTasks o svc) w) = tasks (hook w)
  /\ pagination (after (fetchTasks o svc) w) = pagination (hook w)
  /\ error (after (fetchTasks o svc) w) = Some (errorMessage e "Failed to fetch tasks")
  /\ isLoading (after (fetchTasks o svc) w) = false
  /\ outcome (fetchTasks o svc) w = Returned tt.
Proof.
  intros [Hc | [Hc Hd]].
  - unfold fetchTasks. fold (count_query o). run_hook. rewrite Hc. simpl.
    repeat split.
  - unfold served_page, data_query in Hd.
    unfold fetchTasks. fold (count_query o). run_hook. rewrite Hc. simpl.
    set (sp := fetch_actualPage _ _) in *.
    replace ((sp - 1) * Options.pageSize o + Options.pageSize o - 1)
      with (sp * Options.pageSize o - 1) by ring.
    rewrite Hd. simpl. repeat split.
Qed.

(** ** Entries and their ids *)

Lemma has_id_true (n : Z) (t : TaskWithUser) : has_id n t = true <-> id t = Some n.
Proof.
  unfold has_id, id_eq. destruct (id t) as [m |].
  - rewrite Z.eqb_eq. split; [intros -> | intros [= ->]]; reflexivity.
  - split; discriminate.
Qed.

Lemma has_id_false (n : Z) (t : TaskWithUser) : has_id n t = false <-> id t <> Some n.
Proof.
  rewrite <- has_id_true. destruct (has_id n t); split; congruence.
Qed.

Lemma has_id_spread (n : Z) (t : TaskWithUser) (u : TaskUpdate) :
  has_id n (spread t u) = has_id n t.
Proof. reflexivity. Qed.

Lemma has_id_with_isCompleted (n : Z) (t : TaskWithUser) (b : bool) :
  has_id n (with_isCompleted t b) = has_id n t.
Proof. reflexivity. Qed.

Lemma find_has_id (n : Z) (l : list TaskWithUser) (t : TaskWithUser) :
  find (has_id n) l = Some t -> In t l /\ id t = Some n.
Proof.
  intros H. apply find_some in H. rewrite has_id_true in H. exact H.
Qed.

Lemma find_has_id_none (n : Z) (l : list TaskWithUser) :
  find (has_id n) l = None <-> forall t, In t l -> id t <> Some n.
Proof.
  split.
  - intros H t Ht. apply has_id_false. exact (find_none _ _ H t Ht).
  - induction l as [| a l IH]; intros H; simpl.
    + reflexivity.
    + assert (Ha : has_id n a = false) by (apply has_id_false, H; left; reflexivity).
      rewrite Ha. apply IH. intros t Ht. apply H. right. exact Ht.
Qed.

(** Replacing the entries of an id that does not occur changes nothing. *)
Lemma map_absent_id (n : Z) (f : TaskWithUser -> TaskWithUser) (l : list TaskWithUser) :
  find (has_id n) l = None ->
  map (fun t => if has_id n t then f t else t) l = l.
Proof.
  induction l as [| a l IH]; simpl; intros H.
  - reflexivity.
  - destruct (has_id n a); [discriminate |]. rewrite IH by assumption. reflexivity.
Qed.

(** The rollback of an update, after its optimistic patch, puts the
    snapshot at every position that holds the id. *)
Lemma rollback_after_patch (n : Z) (u : TaskUpdate) (orig : TaskWithUser)
    (l : list TaskWithUser) :
  map (fun t => if has_id n t then orig else t)
      (map (fun t => if has_id n t then spread t u else t) l)
  = map (fun t => if has_id n t then orig else t) l.
Proof.
  rewrite map_map. apply map_ext. intros t.
  destruct (has_id n t) eqn:E.
  - rewrite has_id_spread, E. reflexivity.
  - rewrite E. reflexivity.
Qed.

(** With distinct ids, the first entry of an id is its only entry. *)
Lemma restore_unique (n : Z) (orig : TaskWithUser) (l : list TaskWithUser) :
  NoDup (map id l) ->
  find (has_id n) l = Some orig ->
  map (fun t => if has_id n t then orig else t) l = l.
Proof.
  induction l as [| a l IH]; simpl; intros Hnd Hf.
  - reflexivity.
  - inversion Hnd as [| x xs Hnotin Hnd']; subst.
    destruct (has_id n a) eqn:E.
    + injection Hf as <-. f_equal.
      apply map_absent_id. apply find_has_id_none. intros t Ht Hid.
      apply Hnotin. apply has_id_true in E. rewrite E, <- Hid.
      apply in_map. exact Ht.
    + f_equal. apply IH; assumption.
Qed.

Lemma find_restored (n : Z) (orig : TaskWithUser) (l : list TaskWithUser) :
  id orig = Some n ->
  find (has_id n) l <> None ->
  find (has_id n) (map (fun t => if has_id n t then orig else t) l) = Some orig.
Proof.
  intros Ho. induction l as [| a l IH]; simpl; intros H.
  - congruence.
  - destruct (has_id n a) eqn:E.
    + apply has_id_true in Ho. rewrite Ho. reflexivity.
    + rewrite E. apply IH. exact H.
Qed.

(** ** Rollback of a failed update *)

(** C4. When [updateTask n updates] is called for an id present in the
    cache and the Data Service answers with an error, the rollback leaves,
    at every position that holds the id, exactly the snapshot taken before
    the optimistic patch: looking the id up gives the snapshot, whatever
    [updates] contained; the other entries and the length are untouched;
    and a cache with distinct ids is restored as a whole.  The error is
    surfaced and thrown again to the caller. *)
Theorem update_rollback_restores_snapshot (svc : DataService) (w : World)
    (n : Z) (updates : TaskUpdate) (orig : TaskWithUser) (e : JsError) :
  find (has_id n) (tasks (hook w)) = Some orig ->
  on_mutation svc (UpdateRow n updates) = Some e ->
  let run := updateTask svc (tasks (hook w)) n updates in
  outcome run w = Thrown e
  /\ error (after run w) = Some (errorMessage e "Failed to update task")
  /\ find (has_id n) (tasks (after run w)) = Some orig
  /\ (forall t, In t (tasks (after run w)) -> id t = Some n -> t = orig)
  /\ tasks (after run w)
     = map (fun t => if has_id n t then orig else t) (tasks (hook w))
  /\ (NoDup (map id (tasks (hook w))) -> tasks (after run w) = tasks (hook w)).
Proof.
  intros Hfind Hfail run.
  assert (Hafter : tasks (after run w)
                   = map (fun t => if has_id n t then orig else t) (tasks (hook w))).
  { unfold run, updateTask. run_hook. rewrite Hfind. simpl. rewrite Hfail. simpl.
    apply rollback_after_patch. }
  destruct (find_has_id _ _ _ Hfind) as [Hin Hid].
  split; [| split; [| split; [| split; [| split]]]].
  - unfold run, updateTask. run_hook. rewrite Hfind. simpl. rewrite Hfail. reflexivity.
  - unfold run, updateTask. run_hook. rewrite Hfind. simpl. rewrite Hfail. reflexivity.
  - rewrite Hafter. apply find_restored; [exact Hid | congruence].
  - intros t Ht Htid. rewrite Hafter in Ht. apply in_map_iff in Ht.
    destruct Ht as (t0 & Heq & _). destruct (has_id n t0) eqn:E.
    + symmetry. exact Heq.
    + subst t0. apply has_id_false in E. contradiction.
  - exact Hafter.
  - intros Hnd. rewrite Hafter. apply restore_unique; assumption.
Qed.

(** ** Operations on an id that is not in the cache *)

(** C5 (as amended). For an id absent from the cache, [updateTask] and
    [deleteTask] fail locally with "Task not found" and send no request;
    [toggleTask] makes no presence check: it leaves the cache as it is,
    sends the update request to the Data Service, and fails or succeeds as
    the service answers. *)
Theorem absent_id_update_delete_rejected (svc : DataService) (w : World)
    (n : Z) (updates : TaskUpdate) (c : bool) :
  find (has_id n) (tasks (hook w)) = None ->
  rejected_locally (updateTask svc (tasks (hook w)) n updates) w
  /\ rejected_locally (deleteTask svc (tasks (hook w)) n) w
  /\ requests (toggleTask svc n c) w
     = sent w ++ [UpdateRow n (only_isCompleted (negb c))]
  /\ tasks (after (toggleTask svc n c) w) = tasks (hook w)
  /\ (on_mutation svc (UpdateRow n (only_isCompleted (negb c))) = None ->
      outcome (toggleTask svc n c) w = Returned tt
      /\ error (after (toggleTask svc n c) w) = None).
Proof.
  intros Habs.
  split; [| split; [| split; [| split]]].
  - unfold rejected_locally, updateTask. run_hook. rewrite Habs. simpl. repeat split.
  - unfold rejected_locally, deleteTask. run_hook. rewrite Habs. simpl. repeat split.
  - unfold toggleTask. run_hook.
    destruct (on_mutation svc _); reflexivity.
  - unfold toggleTask. run_hook.
    destruct (on_mutation svc _); simpl.
    + rewrite (map_absent_id n _ _ Habs). apply map_absent_id. exact Habs.
    + apply map_absent_id. exact Habs.
  - intros Hok. unfold toggleTask. run_hook. rewrite Hok. simpl. split; reflexivity.
Qed.

(** ** Rollback of a failed delete *)

(** C7 (as amended). When [deleteTask n] is called for an id present in the
    cache and the Data Service answers with an error [e], the removed task
    is appended again at the tail of the cache, the pagination record (and
    so [totalCount]) is unchanged, the error is thrown again, and the
    surfaced message is [e]'s own message when [e] is an [Error] and
    "Failed to delete task" otherwise. *)
Theorem delete_rollback_reinserts (svc : DataService) (w : World)
    (n : Z) (victim : TaskWithUser) (e : JsError) :
  find (has_id n) (tasks (hook w)) = Some victim ->
  on_mutation svc (DeleteRow n) = Some e ->
  let run := deleteTask svc (tasks (hook w)) n in
  tasks (after run w)
  = filter (fun t => negb (has_id n t)) (tasks (hook w)) ++ [victim]
  /\ In victim (tasks (after run w))
  /\ pagination (after run w) = pagination (hook w)
  /\ error (after run w) = Some (errorMessage e "Failed to delete task")
  /\ (instanceof_Error e = false -> error (after run w) = Some "Failed to delete task")
  /\ (instanceof_Error e = true -> error (after run w) = Some (message e))
  /\ outcome run w = Thrown e.
Proof.
  intros Hfind Hfail run.
  assert (Hafter : tasks (after run w)
                   = filter (fun t => negb (has_id n t)) (tasks (hook w)) ++ [victim]).
  { unfold run, deleteTask. run_hook. rewrite Hfind. simpl. rewrite Hfail. reflexivity. }
  assert (Herr : error (after run w) = Some (errorMessage e "Failed to delete task")).
  { unfold run, deleteTask. run_hook. rewrite Hfind. simpl. rewrite Hfail. reflexivity. }
  split; [exact Hafter |].
  split; [rewrite Hafter; apply in_or_app; right; left; reflexivity |].
  split; [unfold run, deleteTask; run_hook; rewrite Hfind; simpl; rewrite Hfail;
          reflexivity |].
  split; [exact Herr |].
  split; [intros Hplain; rewrite Herr; unfold errorMessage; rewrite Hplain; reflexivity |].
  split; [intros Hinst; rewrite Herr; unfold errorMessage; rewrite Hinst; reflexivity |].
  unfold run, deleteTask. run_hook. rewrite Hfind. simpl. rewrite Hfail. reflexivity.
Qed.

(** ** Toggle *)

Lemma toggle_back_after_flip (n : Z) (c : bool) (l : list TaskWithUser) :
  map (fun t => if has_id n t then with_isCompleted t c else t)
      (map (fun t => if has_id n t then with_isCompleted t (negb c) else t) l)
  = map (fun t => if has_id n t then with_isCompleted t c else t) l.
Proof.
  rewrite map_map. apply map_ext. intros t.
  destruct (has_id n t) eqn:E.
  - rewrite has_id_with_isCompleted, E. reflexivity.
  - rewrite E. reflexivity.
Qed.

Lemma set_isCompleted_spec (n : Z) (v : bool) (l : list TaskWithUser) (t : TaskWithUser) :
  In t (map (fun t => if has_id n t then with_isCompleted t v else t) l) ->
  id t = Some n -> isCompleted t = Some v.
Proof.
  intros Hin Hid. apply in_map_iff in Hin. destruct Hin as (t0 & Heq & _).
  destruct (has_id n t0) eqn:E.
  - subst t. reflexivity.
  - subst t0. apply has_id_false in E. contradiction.
Qed.

(** C9. [toggleTask n c] sends the update [{isCompleted: !c}] for the id.
    Its optimistic update, which stands when the service accepts the
    request, sets [isCompleted] of the entries with that id to the negation
    of the [c] passed in; when the service answers with an error, the
    rollback, applied on top of the optimistic state, sets it to [c]
    itself, whatever value the cache held before the call. *)
Theorem toggle_flips_and_rolls_back (svc : DataService) (w : World) (n : Z) (c : bool) :
  let req := UpdateRow n (only_isCompleted (negb c)) in
  let run := toggleTask svc n c in
  requests run w = sent w ++ [req]
  /\ (on_mutation svc req = None ->
      tasks (after run w)
      = map (fun t => if has_id n t then with_isCompleted t (negb c) else t)
            (tasks (hook w))
      /\ (forall t, In t (tasks (after run w)) -> id t = Some n ->
                    isCompleted t = Some (negb c))
      /\ outcome run w = Returned tt)
  /\ (forall e, on_mutation svc req = Some e ->
      tasks (after run w)
      = map (fun t => if has_id n t then with_isCompleted t c else t)
            (map (fun t => if has_id n t then with_isCompleted t (negb c) else t)
                 (tasks (hook w)))
      /\ tasks (after run w)
         = map (fun t => if has_id n t then with_isCompleted t c else t) (tasks (hook w))
      /\ (forall t, In t (tasks (after run w)) -> id t = Some n ->
                    isCompleted t = Some c)
      /\ error (after run w) = Some (errorMessage e "Failed to toggle task")
      /\ outcome run w = Thrown e).
Proof.
  intros req run. split; [| split].
  - unfold run, toggleTask. run_hook. fold req.
    destruct (on_mutation svc req); reflexivity.
  - intros Hok.
    assert (Hafter : tasks (after run w)
              = map (fun t => if has_id n t then with_isCompleted t (negb c) else t)
                    (tasks (hook w))).
    { unfold run, toggleTask. run_hook. fold req. rewrite Hok. reflexivity. }
    split; [exact Hafter | split].
    + intros t Ht Hid. rewrite Hafter in Ht. exact (set_isCompleted_spec _ _ _ _ Ht Hid).
    + unfold run, toggleTask. run_hook. fold req. rewrite Hok. reflexivity.
  - intros e Hfail.
    assert (Hafter : tasks (after run w)
              = map (fun t => if has_id n t then with_isCompleted t c else t)
                    (tasks (hook w))).
    { unfold run, toggleTask. run_hook. fold req. rewrite Hfail. simpl.
      apply toggle_back_after_flip. }
    split; [| split; [exact Hafter | split; [| split]]].
    + unfold run, toggleTask. run_hook. fold req. rewrite Hfail. reflexivity.
    + intros t Ht Hid. rewrite Hafter in Ht. exact (set_isCompleted_spec _ _ _ _ Ht Hid).
    + unfold run, toggleTask. run_hook. fold req. rewrite Hfail. reflexivity.
    + unfold run, toggleTask. run_hook. fold req. rewrite Hfail. reflexivity.
Qed.

(** ** The insert notification *)

Lemma id_eq_true (a b : option Z) : id_eq a b = true <-> a = b.
Proof.
  destruct a as [x |], b as [y |]; simpl.
  - rewrite Z.eqb_eq. split; [intros -> | intros [= ->]]; reflexivity.
  - split; discriminate.
  - split; discriminate.
  - split; reflexivity.
Qed.

Lemma existsb_same_id (i : option Z) (l : list TaskWithUser) :
  existsb (fun task => id_eq (id task) i) l = true <-> In i (map id l).
Proof.
  rewrite existsb_exists, in_map_iff. split.
  - intros (t & Ht & He). exists t. apply id_eq_true in He. split; assumption.
  - intros (t & He & Ht). exists t. split; [exact Ht | apply id_eq_true; exact He].
Qed.

Lemma existsb_same_id_false (i : option Z) (l : list TaskWithUser) :
  existsb (fun task => id_eq (id task) i) l = false <-> ~ In i (map id l).
Proof.
  rewrite <- existsb_same_id.
  destruct (existsb _ l); split; congruence.
Qed.

(** The chain of early returns of the insert handler is the filter of the
    specification, for a row whose [isCompleted] is a boolean. *)
Lemma handleRealtimeInsert_unfold (o : Options.t) (svc : DataService) (w : World)
    (pid : Z) (newTask : TaskWithUser) :
  on_single svc (SelectById pid) = Some newTask ->
  isCompleted newTask <> None ->
  handleRealtimeInsert o svc pid w
  = if passes_filters o newTask
    then (setTasks (insert_into o newTask) ;; setPagination count_up)
           {| hook := hook w; sent := sent w ++ [SelectById pid] |}
    else (Returned tt, {| hook := hook w; sent := sent w ++ [SelectById pid] |}).
Proof.
  intros Hrow Hbool.
  unfold handleRealtimeInsert, passes_filters, satisfies_completion, satisfies_search.
  unfold bind at 1. unfold await. rewrite Hrow.
  destruct (isCompleted newTask) as [[|] |]; [| | congruence];
    destruct (Options.completionFilter o); simpl;
    destruct (JsString.truthy (JsString.trim (Options.searchTerm o))); simpl;
    try reflexivity;
    destruct (matchesSearch (Options.searchTerm o) newTask); reflexivity.
Qed.

Lemma insert_into_fresh (o : Options.t) (newTask : TaskWithUser)
    (prevTasks : list TaskWithUser) :
  ~ In (id newTask) (map id prevTasks) ->
  insert_into o newTask prevTasks
  = slice (extended o newTask prevTasks)
          ((Options.page o - 1) * Options.pageSize o)
          (Options.page o * Options.pageSize o).
Proof.
  intros Hfresh. apply existsb_same_id_false in Hfresh.
  unfold insert_into, extended. rewrite Hfresh, andb_false_r.
  replace ((Options.page o - 1) * Options.pageSize o + Options.pageSize o)
    with (Options.page o * Options.pageSize o) by ring.
  destruct (Options.sortOrder o); reflexivity.
Qed.

Lemma insert_into_present (o : Options.t) (newTask : TaskWithUser)
    (prevTasks : list TaskWithUser) :
  id_truthy (id newTask) = true ->
  In (id newTask) (map id prevTasks) ->
  insert_into o newTask prevTasks = prevTasks.
Proof.
  intros Htruthy Hin. apply existsb_same_id in Hin.
  unfold insert_into. rewrite Htruthy, Hin. reflexivity.
Qed.

(** A row whose id is falsy (0, or null) skips the presence test of the
    updater: it is inserted whatever the cache holds. *)
Lemma insert_into_falsy_id (o : Options.t) (newTask : TaskWithUser)
    (prevTasks : list TaskWithUser) :
  id_truthy (id newTask) = false ->
  insert_into o newTask prevTasks
  = slice (extended o newTask prevTasks)
          ((Options.page o - 1) * Options.pageSize o)
          (Options.page o * Options.pageSize o).
Proof.
  intros Hfalsy. unfold insert_into, extended. rewrite Hfalsy. simpl.
  replace ((Options.page o - 1) * Options.pageSize o + Options.pageSize o)
    with (Options.page o * Options.pageSize o) by ring.
  destruct (Options.sortOrder o); reflexivity.
Qed.

(** A list that fits the window is its own first page. *)
Lemma slice_whole (A : Type) (l : list A) (end_ : Z) :
  Z.of_nat (List.length l) <= end_ -> slice l 0 end_ = l.
Proof.
  intros Hlen. unfold slice.
  replace (0 <? 0) with false by reflexivity.
  replace (end_ <? 0) with false by (symmetry; apply Z.ltb_ge; lia).
  replace (Z.min 0 (Z.of_nat (List.length l))) with 0 by lia.
  replace (Z.min end_ (Z.of_nat (List.length l))) with (Z.of_nat (List.length l)) by lia.
  rewrite Z.sub_0_r, Nat2Z.id. simpl. apply firstn_all.
Qed.

(** The early returns of the insert handler, for any row. *)
Lemma handleRealtimeInsert_run (o : Options.t) (svc : DataService) (w : World)
    (pid : Z) (newTask : TaskWithUser) :
  on_single svc (SelectById pid) = Some newTask ->
  handleRealtimeInsert o svc pid w
  = if (is_active (Options.completionFilter o) && is_true (isCompleted newTask))
       || (is_completed (Options.completionFilter o)
           && negb (is_true (isCompleted newTask)))
       || negb (satisfies_search (Options.searchTerm o) newTask)
    then (Returned tt, {| hook := hook w; sent := sent w ++ [SelectById pid] |})
    else (setTasks (insert_into o newTask) ;; setPagination count_up)
           {| hook := hook w; sent := sent w ++ [SelectById pid] |}.
Proof.
  intros Hrow. unfold handleRealtimeInsert, satisfies_search.
  unfold bind at 1. unfold await. rewrite Hrow.
  destruct (is_active (Options.completionFilter o) && is_true (isCompleted newTask));
    [reflexivity |].
  destruct (is_completed (Options.completionFilter o)
            && negb (is_true (isCompleted newTask))); [reflexivity |].
  destruct (JsString.truthy (JsString.trim (Options.searchTerm o))); [| reflexivity].
  destruct (matchesSearch (Options.searchTerm o) newTask); reflexivity.
Qed.

(** A row that satisfies the filters of the specification is kept. *)
Lemma filters_hold_kept (o : Options.t) (row : TaskWithUser) :
  filters_hold o row ->
  (is_active (Options.completionFilter o) && is_true (isCompleted row))
  || (is_completed (Options.completionFilter o) && negb (is_true (isCompleted row)))
  || negb (satisfies_search (Options.searchTerm o) row) = false.
Proof.
  unfold filters_hold, completion_holds. rewrite <- search_holds_spec.
  intros [Hc ->].
  destruct (Options.completionFilter o); [reflexivity | |]; rewrite Hc; reflexivity.
Qed.

(** A row that does not satisfy them is discarded, unless it is a row
    without [isCompleted] under the "active" filter. *)
Lemma filters_fail_discarded (o : Options.t) (row : TaskWithUser) :
  ~ filters_hold o row ->
  ~ (Options.completionFilter o = active /\ isCompleted row = None) ->
  (is_active (Options.completionFilter o) && is_true (isCompleted row))
  || (is_completed (Options.completionFilter o) && negb (is_true (isCompleted row)))
  || negb (satisfies_search (Options.searchTerm o) row) = true.
Proof.
  unfold filters_hold, completion_holds. rewrite <- search_holds_spec.
  destruct (Options.completionFilter o);
    destruct (isCompleted row) as [[|] |];
    destruct (satisfies_search (Options.searchTerm o) row);
    simpl; intros Hfail Hnull; try reflexivity; exfalso;
    solve [apply Hfail; split; reflexivity | apply Hnull; split; reflexivity].
Qed.

(** The insert notification on a row that was fetched.  When the row fails
    the filters of the specification (the completion filter, or the search:
    neither the title nor the description contains the term, case ignored),
    the state, cache and [totalCount] included, is unchanged, except for a
    row without [isCompleted] under "active".  When the row satisfies them
    and its id is not in the cache, the cache becomes the slice
    [(page-1)*pageSize, page*pageSize) of the list extended at the head
    (newest) or at the tail (oldest), [totalCount] grows by one and
    [totalPages] is recomputed from it. *)
Lemma insert_notification_merges (o : Options.t) (svc : DataService) (w : World)
    (pid : Z) (newTask : TaskWithUser) :
  on_single svc (SelectById pid) = Some newTask ->
  let run := handleRealtimeInsert o svc pid in
  (~ filters_hold o newTask ->
   ~ (Options.completionFilter o = active /\ isCompleted newTask = None) ->
   after run w = hook w)
  /\ (filters_hold o newTask ->
      ~ In (id newTask) (map id (tasks (hook w))) ->
      0 < PaginationInfo.pageSize (pagination (hook w)) ->
      tasks (after run w)
      = slice (extended o newTask (tasks (hook w)))
              ((Options.page o - 1) * Options.pageSize o)
              (Options.page o * Options.pageSize o)
      /\ PaginationInfo.totalCount (pagination (after run w))
         = PaginationInfo.totalCount (pagination (hook w)) + 1
      /\ PaginationInfo.totalPages (pagination (after run w))
         = ceil_div (PaginationInfo.totalCount (pagination (hook w)) + 1)
                    (PaginationInfo.pageSize (pagination (hook w)))).
Proof.
  intros Hrow run. split.
  - intros Hfail Hnull. unfold run, after.
    rewrite (handleRealtimeInsert_run o svc w pid newTask Hrow),
      (filters_fail_discarded o newTask Hfail Hnull).
    reflexivity.
  - intros Hpass Hfresh _. unfold run, after.
    rewrite (handleRealtimeInsert_run o svc w pid newTask Hrow),
      (filters_hold_kept o newTask Hpass).
    run_hook. rewrite (insert_into_fresh o newTask _ Hfresh). repeat split.
Qed.


(** ** A notification for an id that is already in the cache *)

Lemma occurrences_NoDup (i : option Z) (l : list TaskWithUser) :
  NoDup (map id l) -> In i (map id l) -> occurrences i l = 1%nat.
Proof.
  unfold occurrences. induction l as [| a l IH]; simpl; intros Hnd Hin.
  - contradiction.
  - inversion Hnd as [| x xs Hnotin Hnd']; subst.
    destruct (id_eq (id a) i) eqn:E.
    + apply id_eq_true in E. subst i. simpl. f_equal.
      assert (Hnone : forall t, In t l -> id_eq (id t) (id a) = false).
      { intros t Ht. destruct (id_eq (id t) (id a)) eqn:E'; [| reflexivity].
        apply id_eq_true in E'. exfalso. apply Hnotin. rewrite <- E'.
        apply in_map. exact Ht. }
      clear - Hnone. induction l as [| b l IHl]; simpl.
      * reflexivity.
      * rewrite (Hnone b) by (left; reflexivity).
        apply IHl. intros t Ht. apply Hnone. right. exact Ht.
    + apply IH; [exact Hnd' |].
      destruct Hin as [Heq | Hin]; [| exact Hin].
      exfalso. rewrite <- Heq in E. rewrite (proj2 (id_eq_true _ _) eq_refl) in E.
      discriminate.
Qed.

(** When the row a notification fetched has a truthy id that already occurs
    in the cache, the handler keeps the task list as it is. *)
Lemma insert_present_keeps_tasks (o : Options.t) (svc : DataService) (w : World)
    (pid : Z) (newTask : TaskWithUser) :
  on_single svc (SelectById pid) = Some newTask ->
  id_truthy (id newTask) = true ->
  In (id newTask) (map id (tasks (hook w))) ->
  tasks (after (handleRealtimeInsert o svc pid) w) = tasks (hook w).
Proof.
  intros Hrow Htruthy Hin.
  unfold handleRealtimeInsert, after. unfold bind at 1. unfold await. rewrite Hrow.
  repeat match goal with
         | |- context [if ?b then _ else _] => destruct b; try reflexivity
         end.
  run_hook. apply insert_into_present; assumption.
Qed.

(** For a row whose non-null, non-zero id already occurs in the task list,
    the list after the handler is the list before it: no entry is added,
    the id occurs as often as before, exactly once when the ids of the
    cache are distinct. *)
Lemma insert_present_id_not_duplicated (o : Options.t) (svc : DataService)
    (w : World) (pid : Z) (newTask : TaskWithUser) :
  on_single svc (SelectById pid) = Some newTask ->
  id_truthy (id newTask) = true ->
  In (id newTask) (map id (tasks (hook w))) ->
  let run := handleRealtimeInsert o svc pid in
  tasks (after run w) = tasks (hook w)
  /\ occurrences (id newTask) (tasks (after run w))
     = occurrences (id newTask) (tasks (hook w))
  /\ (NoDup (map id (tasks (hook w))) ->
      occurrences (id newTask) (tasks (after run w)) = 1%nat).
Proof.
  intros Hrow Htruthy Hin run.
  assert (Hkeep : tasks (after run w) = tasks (hook w))
    by (apply (insert_present_keeps_tasks o svc w pid newTask); assumption).
  split; [exact Hkeep |]. rewrite Hkeep.
  split; [reflexivity |].
  intros Hnd. apply occurrences_NoDup; assumption.
Qed.

(** For such a row that satisfies the filters, the list is unchanged and
    [totalCount] is incremented all the same, [totalPages] with it. *)
Lemma insert_duplicate_inflates_count (o : Options.t) (svc : DataService)
    (w : World) (pid : Z) (newTask : TaskWithUser) :
  on_single svc (SelectById pid) = Some newTask ->
  filters_hold o newTask ->
  id_truthy (id newTask) = true ->
  In (id newTask) (map id (tasks (hook w))) ->
  0 < PaginationInfo.pageSize (pagination (hook w)) ->
  let run := handleRealtimeInsert o svc pid in
  tasks (after run w) = tasks (hook w)
  /\ PaginationInfo.totalCount (pagination (after run w))
     = PaginationInfo.totalCount (pagination (hook w)) + 1
  /\ PaginationInfo.totalPages (pagination (after run w))
     = ceil_div (PaginationInfo.totalCount (pagination (hook w)) + 1)
                (PaginationInfo.pageSize (pagination (hook w))).
Proof.
  intros Hrow Hpass Htruthy Hin _ run.
  split.
  - apply (insert_present_keeps_tasks o svc w pid newTask); assumption.
  - unfold run, after.
    rewrite (handleRealtimeInsert_run o svc w pid newTask Hrow),
      (filters_hold_kept o newTask Hpass).
    run_hook. split; reflexivity.
Qed.

(** ** A notification for the id 0 *)

Lemma occurrences_extended (o : Options.t) (newTask : TaskWithUser)
    (l : list TaskWithUser) :
  occurrences (id newTask) (extended o newTask l)
  = S (occurrences (id newTask) l).
Proof.
  assert (Hself : id_eq (id newTask) (id newTask) = true)
    by (apply id_eq_true; reflexivity).
  unfold occurrences, extended. destruct (Options.sortOrder o).
  - simpl. rewrite Hself. reflexivity.
  - rewrite filter_app, length_app. simpl. rewrite Hself. simpl.
    apply Nat.add_1_r.
Qed.

Lemma occurrences_present (i : option Z) (l : list TaskWithUser) :
  In i (map id l) -> (1 <= occurrences i l)%nat.
Proof.
  unfold occurrences. induction l as [| a l IH]; simpl; intros Hin.
  - contradiction.
  - destruct (id_eq (id a) i) eqn:E; simpl; [lia |].
    apply IH. destruct Hin as [Heq | Hin]; [| exact Hin].
    exfalso. rewrite Heq, (proj2 (id_eq_true i i) eq_refl) in E. discriminate.
Qed.

Lemma extended_length (o : Options.t) (newTask : TaskWithUser)
    (l : list TaskWithUser) :
  List.length (extended o newTask l) = S (List.length l).
Proof.
  unfold extended. destruct (Options.sortOrder o); simpl; [reflexivity |].
  rewrite length_app. simpl. apply Nat.add_1_r.
Qed.

(** On the first page, with room left, a kept row whose id is falsy
    extends the task list. *)
Lemma insert_falsy_id_extends (o : Options.t) (svc : DataService) (w : World)
    (pid : Z) (newTask : TaskWithUser) :
  on_single svc (SelectById pid) = Some newTask ->
  id_truthy (id newTask) = false ->
  filters_hold o newTask ->
  Options.page o = 1 ->
  Z.of_nat (List.length (tasks (hook w))) < Options.pageSize o ->
  tasks (after (handleRealtimeInsert o svc pid) w)
  = extended o newTask (tasks (hook w)).
Proof.
  intros Hrow Hfalsy Hpass Hpage Hroom. unfold after.
  rewrite (handleRealtimeInsert_run o svc w pid newTask Hrow),
    (filters_hold_kept o newTask Hpass).
  run_hook. rewrite (insert_into_falsy_id o newTask _ Hfalsy), Hpage.
  replace ((1 - 1) * Options.pageSize o) with 0 by ring.
  rewrite Z.mul_1_l. apply slice_whole.
  rewrite extended_length. lia.
Qed.

(** C8. The presence test of the insert handler is guarded by the
    truthiness of the id ([newTask.id && ...]), so it is skipped for the
    id 0 (and for a null id): a notification for a row that satisfies the
    filters and whose id 0 is already in the task list adds the row again.
    On the first page with room left, the list becomes the extended list,
    the id occurs once more than before, hence at least twice. *)
Theorem insert_falsy_id_adds_duplicate (o : Options.t) (svc : DataService)
    (w : World) (pid : Z) (newTask : TaskWithUser) :
  on_single svc (SelectById pid) = Some newTask ->
  id_truthy (id newTask) = false ->
  filters_hold o newTask ->
  In (id newTask) (map id (tasks (hook w))) ->
  Options.page o = 1 ->
  Z.of_nat (List.length (tasks (hook w))) < Options.pageSize o ->
  let run := handleRealtimeInsert o svc pid in
  tasks (after run w) = extended o newTask (tasks (hook w))
  /\ occurrences (id newTask) (tasks (after run w))
     = S (occurrences (id newTask) (tasks (hook w)))
  /\ (2 <= occurrences (id newTask) (tasks (after run w)))%nat.
Proof.
  intros Hrow Hfalsy Hpass Hin Hpage Hroom run.
  assert (Hext : tasks (after run w) = extended o newTask (tasks (hook w)))
    by (apply insert_falsy_id_extends; assumption).
  split; [exact Hext |]. rewrite Hext, occurrences_extended.
  split; [reflexivity |].
  pose proof (occurrences_present _ _ Hin). lia.
Qed.

(** C10. For the id 0 (and for a null id) the duplicate delivery does not
    leave the task list unchanged: the presence test is skipped, so on the
    first page with room left a row that satisfies the filters and whose id
    is already in the list is added once more, the list grows by one
    entry, and [totalCount] and [totalPages] are incremented as well. *)
Theorem insert_falsy_id_changes_list (o : Options.t) (svc : DataService)
    (w : World) (pid : Z) (newTask : TaskWithUser) :
  on_single svc (SelectById pid) = Some newTask ->
  id_truthy (id newTask) = false ->
  filters_hold o newTask ->
  In (id newTask) (map id (tasks (hook w))) ->
  Options.page o = 1 ->
  Z.of_nat (List.length (tasks (hook w))) < Options.pageSize o ->
  0 < PaginationInfo.pageSize (pagination (hook w)) ->
  let run := handleRealtimeInsert o svc pid in
  tasks (after run w) <> tasks (hook w)
  /\ List.length (tasks (after run w)) = S (List.length (tasks (hook w)))
  /\ PaginationInfo.totalCount (pagination (after run w))
     = PaginationInfo.totalCount (pagination (hook w)) + 1
  /\ PaginationInfo.totalPages (pagination (after run w))
     = ceil_div (PaginationInfo.totalCount (pagination (hook w)) + 1)
                (PaginationInfo.pageSize (pagination (hook w))).
Proof.
  intros Hrow Hfalsy Hpass Hin Hpage Hroom _ run.
  assert (Hlen : List.length (tasks (after run w)) = S (List.length (tasks (hook w)))).
  { unfold run. rewrite (insert_falsy_id_extends o svc w pid newTask) by assumption.
    apply extended_length. }
  split; [intros Heq; rewrite Heq in Hlen; lia |].
  split; [exact Hlen |].
  unfold run, after.
  rewrite (handleRealtimeInsert_run o svc w pid newTask Hrow),
    (filters_hold_kept o newTask Hpass).
  run_hook. split; reflexivity.
Qed.

(** ** The pagination invariant *)

Lemma slice_length (A : Type) (l : list A) (start end_ : Z) :
  start <= end_ -> Z.of_nat (List.length (slice l start end_)) <= end_ - start.
Proof.
  intros Hle. unfold slice.
  rewrite List.length_firstn, List.length_skipn.
  destruct (start <? 0) eqn:Es; destruct (end_ <? 0) eqn:Ee;
    try apply Z.ltb_lt in Es; try apply Z.ltb_ge in Es;
    try apply Z.ltb_lt in Ee; try apply Z.ltb_ge in Ee; lia.
Qed.

(** The state at mount satisfies the invariant: no task, one page. *)
Lemma initial_invariant (o : Options.t) : pages_invariant (initial o).
Proof. reflexivity. Qed.

(** A successful fetch installs the invariant, provided the service
    reports a count that is not negative; the cache is within the page
    size when the service returns no more rows than the window holds. *)
Lemma fetch_establishes_invariant (o : Options.t) (svc : DataService) (w : World)
    (rows : list TaskWithUser) :
  0 < Options.pageSize o ->
  count_error (on_count svc (count_query o)) = None ->
  0 <= or_zero (count (on_count svc (count_query o))) ->
  data_error (on_select svc (data_query o (served_page o svc))) = None ->
  data (on_select svc (data_query o (served_page o svc))) = Some rows ->
  pages_invariant (after (fetchTasks o svc) w)
  /\ (Z.of_nat (List.length rows) <= Options.pageSize o ->
      window_bound (after (fetchTasks o svc) w)).
Proof.
  intros Hps Hc Hnn He Hd.
  assert (Hrun : after (fetchTasks o svc) w
    = {| tasks := rows; isLoading := false; error := None;
         pagination :=
           {| PaginationInfo.currentPage := served_page o svc;
              PaginationInfo.totalPages :=
                fetch_totalPages (or_zero (count (on_count svc (count_query o))))
                                 (Options.pageSize o);
              PaginationInfo.totalCount := or_zero (count (on_count svc (count_query o)));
              PaginationInfo.pageSize := Options.pageSize o;
              PaginationInfo.hasNextPage :=
                served_page o svc
                <? fetch_totalPages (or_zero (count (on_count svc (count_query o))))
                                    (Options.pageSize o);
              PaginationInfo.hasPrevPage := 1 <? served_page o svc |} |}).
  { unfold data_query in He, Hd.
    unfold fetchTasks. fold (count_query o). run_hook. rewrite Hc. simpl.
    fold (served_page o svc).
    replace ((served_page o svc - 1) * Options.pageSize o + Options.pageSize o - 1)
      with (served_page o svc * Options.pageSize o - 1) by ring.
    rewrite He. simpl. rewrite Hd. reflexivity. }
  rewrite Hrun. unfold pages_invariant, window_bound. simpl.
  split; [apply fetch_totalPages_max; assumption | intros H; exact H].
Qed.

(** An insert notification keeps the invariant: the incremented count is
    positive, so the ceiling is at least one page; and the slice holds at
    most [pageSize] entries. *)
Lemma count_up_invariant (p : PaginationInfo.t) :
  0 < PaginationInfo.pageSize p -> 0 <= PaginationInfo.totalCount p ->
  PaginationInfo.totalPages (count_up p)
  = Z.max 1 (ceil_div (PaginationInfo.totalCount (count_up p))
                      (PaginationInfo.pageSize (count_up p))).
Proof.
  intros Hps Hc. simpl.
  pose proof (ceil_div_pos (PaginationInfo.totalCount p + 1)
                (PaginationInfo.pageSize p) Hps ltac:(lia)).
  lia.
Qed.

Lemma insert_into_length (o : Options.t) (newTask : TaskWithUser)
    (prevTasks : list TaskWithUser) :
  0 <= Options.pageSize o ->
  Z.of_nat (List.length prevTasks) <= Options.pageSize o ->
  Z.of_nat (List.length (insert_into o newTask prevTasks)) <= Options.pageSize o.
Proof.
  intros Hps Hprev. unfold insert_into.
  destruct (id_truthy (id newTask) && existsb _ prevTasks); [exact Hprev |].
  set (from := (Options.page o - 1) * Options.pageSize o).
  pose proof (slice_length _
                (if is_newest (Options.sortOrder o)
                 then newTask :: prevTasks else prevTasks ++ [newTask])
                from (from + Options.pageSize o) ltac:(lia)).
  lia.
Qed.

(** A delete notification keeps the invariant as long as at least one task
    remains counted. *)
Lemma count_down_invariant (p : PaginationInfo.t) :
  0 < PaginationInfo.pageSize p -> 2 <= PaginationInfo.totalCount p ->
  PaginationInfo.totalPages (count_down p)
  = Z.max 1 (ceil_div (PaginationInfo.totalCount (count_down p))
                      (PaginationInfo.pageSize (count_down p))).
Proof.
  intros Hps Hc. simpl.
  pose proof (ceil_div_pos (Z.max 0 (PaginationInfo.totalCount p - 1))
                (PaginationInfo.pageSize p) Hps ltac:(lia)).
  lia.
Qed.

(** The decrement of the count, queued [S k] times. *)
Lemma count_down_iter (k : nat) (p : PaginationInfo.t) :
  PaginationInfo.totalCount (Nat.iter (S k) count_down p)
  = Z.max 0 (PaginationInfo.totalCount p - Z.of_nat (S k))
  /\ PaginationInfo.totalPages (Nat.iter (S k) count_down p)
     = ceil_div (Z.max 0 (PaginationInfo.totalCount p - Z.of_nat (S k)))
                (PaginationInfo.pageSize p)
  /\ PaginationInfo.pageSize (Nat.iter (S k) count_down p) = PaginationInfo.pageSize p
  /\ PaginationInfo.currentPage (Nat.iter (S k) count_down p)
     = PaginationInfo.currentPage p
  /\ PaginationInfo.hasNextPage (Nat.iter (S k) count_down p)
     = PaginationInfo.hasNextPage p
  /\ PaginationInfo.hasPrevPage (Nat.iter (S k) count_down p)
     = PaginationInfo.hasPrevPage p.
Proof.
  induction k as [| k IH].
  - simpl. repeat split.
  - destruct IH as (Hc & Hp & Hs & Hcp & Hn & Hv).
    change (Nat.iter (S (S k)) count_down p)
      with (count_down (Nat.iter (S k) count_down p)).
    remember (Nat.iter (S k) count_down p) as q eqn:Hq.
    unfold count_down. simpl. rewrite Hc, Hs.
    replace (Z.max 0 (Z.max 0 (PaginationInfo.totalCount p - Z.of_nat (S k)) - 1))
      with (Z.max 0 (PaginationInfo.totalCount p - Z.of_nat (S (S k)))) by lia.
    repeat split; assumption.
Qed.

(** The run of the update handler on a fetched row. *)
Lemma handleRealtimeUpdate_run (o : Options.t) (svc : DataService) (w : World)
    (n : Z) (row : TaskWithUser) :
  on_single svc (SelectById n) = Some row ->
  handleRealtimeUpdate o svc n w
  = (Returned tt,
     {| hook :=
          {| tasks :=
               if shouldRemove o row
               then filter (fun task => negb (has_id n task)) (tasks (hook w))
               else map (fun task => if has_id n task then row else task)
                        (tasks (hook w));
             isLoading := isLoading (hook w);
             error := error (hook w);
             pagination :=
               if shouldRemove o row
               then Nat.iter (S updater_reruns) count_down (pagination (hook w))
               else pagination (hook w) |};
        sent := sent w ++ [SelectById n] |}).
Proof.
  intros Hrow. unfold handleRealtimeUpdate, bind, await, setTasks_calling, modify.
  rewrite Hrow. destruct (shouldRemove o row); reflexivity.
Qed.

Lemma filter_length_le (n : Z) (l : list TaskWithUser) :
  (List.length (filter (fun t => negb (has_id n t)) l) <= List.length l)%nat.
Proof.
  induction l as [| a l IH]; simpl.
  - apply Nat.le_refl.
  - destruct (negb (has_id n a)); simpl; lia.
Qed.

(** C3. The delete notification handler recomputes [totalPages] as the
    bare ceiling of the decremented count: when the count was 1 (or less)
    the count reaches 0 and [totalPages] becomes 0, not 1, so the
    invariant [totalPages = max 1 (ceil (totalCount / pageSize))], which
    the fetch and the initial state establish, does not hold after the
    handler.  The cache bound itself is kept. *)
Theorem delete_notification_zero_pages (w : World) (n : Z) :
  0 < PaginationInfo.pageSize (pagination (hook w)) ->
  PaginationInfo.totalCount (pagination (hook w)) <= 1 ->
  let s' := after (handleRealtimeDelete n) w in
  PaginationInfo.totalCount (pagination s') = 0
  /\ PaginationInfo.totalPages (pagination s') = 0
  /\ ~ pages_invariant s'
  /\ (List.length (tasks s') <= List.length (tasks (hook w)))%nat.
Proof.
  intros Hps Hc s'.
  assert (Hcount : PaginationInfo.totalCount (pagination s') = 0).
  { unfold s', handleRealtimeDelete. run_hook. lia. }
  assert (Hpages : PaginationInfo.totalPages (pagination s') = 0).
  { unfold s', handleRealtimeDelete. run_hook.
    replace (Z.max 0 (PaginationInfo.totalCount (pagination (hook w)) - 1)) with 0 by lia.
    apply ceil_div_zero. }
  split; [exact Hcount | split; [exact Hpages | split]].
  - unfold pages_invariant. rewrite Hpages. lia.
  - unfold s', handleRealtimeDelete. run_hook. apply filter_length_le.
Qed.

(** The update notification handler shares the computation when the
    updated row no longer passes the filters. *)
Lemma update_notification_zero_pages (o : Options.t) (svc : DataService) (w : World)
    (n : Z) (row : TaskWithUser) :
  on_single svc (SelectById n) = Some row ->
  Options.completionFilter o = active ->
  isCompleted row = Some true ->
  0 < PaginationInfo.pageSize (pagination (hook w)) ->
  PaginationInfo.totalCount (pagination (hook w)) <= 1 ->
  PaginationInfo.totalPages (pagination (after (handleRealtimeUpdate o svc n) w)) = 0.
Proof.
  intros Hrow Hf Hdone _ Hc.
  unfold after. rewrite (handleRealtimeUpdate_run o svc w n row Hrow).
  assert (Hrem : shouldRemove o row = true)
    by (unfold shouldRemove; rewrite Hf, Hdone; reflexivity).
  rewrite Hrem. cbn [snd hook pagination].
  destruct (count_down_iter updater_reruns (pagination (hook w))) as (_ & Hp & _).
  rewrite Hp.
  replace (Z.max 0 (PaginationInfo.totalCount (pagination (hook w))
                    - Z.of_nat (S updater_reruns))) with 0 by lia.
  apply ceil_div_zero.
Qed.

(** * Further properties of the hook *)

(** ** The fetch *)

(** The state a fetch leaves when both queries succeed with rows. *)
Lemma fetchTasks_success_state (o : Options.t) (svc : DataService) (w : World)
    (rows : list TaskWithUser) :
  count_error (on_count svc (count_query o)) = None ->
  data_error (on_select svc (data_query o (served_page o svc))) = None ->
  data (on_select svc (data_query o (served_page o svc))) = Some rows ->
  after (fetchTasks o svc) w
  = {| tasks := rows; isLoading := false; error := None;
       pagination :=
         {| PaginationInfo.currentPage := served_page o svc;
            PaginationInfo.totalPages :=
              fetch_totalPages (or_zero (count (on_count svc (count_query o))))
                               (Options.pageSize o);
            PaginationInfo.totalCount := or_zero (count (on_count svc (count_query o)));
            PaginationInfo.pageSize := Options.pageSize o;
            PaginationInfo.hasNextPage :=
              served_page o svc
              <? fetch_totalPages (or_zero (count (on_count svc (count_query o))))
                                  (Options.pageSize o);
            PaginationInfo.hasPrevPage := 1 <? served_page o svc |} |}.
Proof.
  intros Hc He Hd. unfold data_query in He, Hd.
  unfold fetchTasks. fold (count_query o). run_hook. rewrite Hc. simpl.
  fold (served_page o svc).
  replace ((served_page o svc - 1) * Options.pageSize o + Options.pageSize o - 1)
    with (served_page o svc * Options.pageSize o - 1) by ring.
  rewrite He. simpl. rewrite Hd. reflexivity.
Qed.

(** X1. After a successful fetch (positive page size, a count that is not
    negative) the page recorded as current lies between 1 and [totalPages],
    it is never beyond the page that was requested when that one is at
    least 1, and the two flags say exactly whether a previous and a next
    page exist; the error cell is cleared and loading is over. *)
Theorem fetch_success_page_in_range (o : Options.t) (svc : DataService) (w : World)
    (rows : list TaskWithUser) :
  0 < Options.pageSize o ->
  count_error (on_count svc (count_query o)) = None ->
  0 <= or_zero (count (on_count svc (count_query o))) ->
  data_error (on_select svc (data_query o (served_page o svc))) = None ->
  data (on_select svc (data_query o (served_page o svc))) = Some rows ->
  let p := pagination (after (fetchTasks o svc) w) in
  1 <= PaginationInfo.currentPage p <= PaginationInfo.totalPages p
  /\ (1 <= Options.page o -> PaginationInfo.currentPage p <= Options.page o)
  /\ (PaginationInfo.hasPrevPage p = true <-> 1 < PaginationInfo.currentPage p)
  /\ (PaginationInfo.hasNextPage p = true
      <-> PaginationInfo.currentPage p < PaginationInfo.totalPages p)
  /\ error (after (fetchTasks o svc) w) = None
  /\ isLoading (after (fetchTasks o svc) w) = false.
Proof.
  intros Hps Hc Hnn He Hd p. unfold p.
  rewrite (fetchTasks_success_state o svc w rows Hc He Hd). simpl.
  pose proof (fetch_totalPages_max _ _ Hps Hnn) as Htp.
  unfold served_page, fetch_actualPage. rewrite Htp.
  repeat split; lia.
Qed.

(** X2. When the count query succeeds with at least one row, the data
    query that the fetch sends has a window that starts inside the counted
    rows: its first index is not negative and smaller than the count,
    whatever page was requested.  With a count of 0 the window is that of
    page 1. *)
Theorem fetch_window_starts_inside (o : Options.t) (svc : DataService) (w : World) :
  0 < Options.pageSize o ->
  count_error (on_count svc (count_query o)) = None ->
  0 <= or_zero (count (on_count svc (count_query o))) ->
  let total := or_zero (count (on_count svc (count_query o))) in
  let from := (served_page o svc - 1) * Options.pageSize o in
  requests (fetchTasks o svc) w
  = sent w ++ [count_query o;
               DataQuery (completion_eq (Options.completionFilter o))
                         (search_or (Options.searchTerm o))
                         (is_oldest (Options.sortOrder o))
                         from (from + Options.pageSize o - 1)]
  /\ (0 < total -> 0 <= from < total)
  /\ (total = 0 -> from = 0).
Proof.
  intros Hps Hc Hnn total from. split.
  { rewrite (fetchTasks_after_count o svc w Hc). unfold data_query, from.
    replace ((served_page o svc - 1) * Options.pageSize o + Options.pageSize o - 1)
      with (served_page o svc * Options.pageSize o - 1) by ring.
    reflexivity. }
  unfold from, served_page. fold total.
  pose proof (fetch_totalPages_max total (Options.pageSize o) Hps Hnn) as Htp.
  pose proof (ceil_div_bounds total (Options.pageSize o) Hps) as Hb.
  unfold fetch_actualPage. rewrite Htp. split.
  - intros Hpos.
    pose proof (ceil_div_pos total (Options.pageSize o) Hps Hpos) as Hc1.
    split; [nia |].
    assert (Hle : Z.max 1 (Z.min (Options.page o)
                             (Z.max 1 (ceil_div total (Options.pageSize o)))) - 1
                  <= ceil_div total (Options.pageSize o) - 1) by lia.
    nia.
  - intros Hz. rewrite Hz. rewrite ceil_div_zero. lia.
Qed.

(** X3. A fetch never throws to its caller and always ends with the
    loading flag down, whatever the service answers.  It sends the count
    query first; when that one fails no data query is sent, and otherwise
    exactly one data query follows. *)
Theorem fetch_never_throws (o : Options.t) (svc : DataService) (w : World) :
  outcome (fetchTasks o svc) w = Returned tt
  /\ isLoading (after (fetchTasks o svc) w) = false
  /\ (count_error (on_count svc (count_query o)) <> None ->
      requests (fetchTasks o svc) w = sent w ++ [count_query o])
  /\ (count_error (on_count svc (count_query o)) = None ->
      requests (fetchTasks o svc) w
      = sent w ++ [count_query o; data_query o (served_page o svc)]).
Proof.
  destruct (count_error (on_count svc (count_query o))) as [e |] eqn:Hc.
  - unfold fetchTasks. fold (count_query o). run_hook. rewrite Hc. simpl.
    split; [reflexivity |]. split; [reflexivity |].
    split; [intros _; reflexivity | discriminate].
  - split; [| split; [| split]].
    + unfold fetchTasks. fold (count_query o). run_hook. rewrite Hc. simpl.
      destruct (data_error _); simpl; [reflexivity |].
      destruct (data _); reflexivity.
    + unfold fetchTasks. fold (count_query o). run_hook. rewrite Hc. simpl.
      destruct (data_error _); simpl; [reflexivity |].
      destruct (data _); reflexivity.
    + intros H. contradiction H. reflexivity.
    + intros _. apply fetchTasks_after_count. exact Hc.
Qed.

(** X4. When both queries succeed but the data query carries no rows
    ([data] is [null]), the fetch replaces nothing: the task list and the
    pagination record are those from before the fetch, and no error is
    surfaced. *)
Theorem fetch_null_data_keeps_cache (o : Options.t) (svc : DataService) (w : World) :
  count_error (on_count svc (count_query o)) = None ->
  data_error (on_select svc (data_query o (served_page o svc))) = None ->
  data (on_select svc (data_query o (served_page o svc))) = None ->
  tasks (after (fetchTasks o svc) w) = tasks (hook w)
  /\ pagination (after (fetchTasks o svc) w) = pagination (hook w)
  /\ error (after (fetchTasks o svc) w) = None.
Proof.
  intros Hc He Hd. unfold data_query in He, Hd.
  unfold fetchTasks. fold (count_query o). run_hook. rewrite Hc. simpl.
  fold (served_page o svc).
  replace ((served_page o svc - 1) * Options.pageSize o + Options.pageSize o - 1)
    with (served_page o svc * Options.pageSize o - 1) by ring.
  rewrite He. simpl. rewrite Hd. repeat split.
Qed.

(** ** The mutations *)

(** X5. [addTask] never inserts into the cache: the task list, the
    pagination record and the loading flag are untouched whatever the
    service answers.  It sends exactly one insert request, attributed to
    the hook's [userId]; on success nothing is thrown and the error cell is
    cleared, on failure the error is surfaced and thrown again. *)
Theorem addTask_leaves_cache (o : Options.t) (svc : DataService) (w : World)
    (newTask : TaskInsert) :
  let run := addTask o svc newTask in
  tasks (after run w) = tasks (hook w)
  /\ pagination (after run w) = pagination (hook w)
  /\ isLoading (after run w) = isLoading (hook w)
  /\ requests run w = sent w ++ [InsertRow newTask (Options.userId o)]
  /\ (on_mutation svc (InsertRow newTask (Options.userId o)) = None ->
      outcome run w = Returned tt /\ error (after run w) = None)
  /\ (forall e, on_mutation svc (InsertRow newTask (Options.userId o)) = Some e ->
      outcome run w = Thrown e
      /\ error (after run w) = Some (errorMessage e "Failed to add task")).
Proof.
  intros run. unfold run, addTask. run_hook.
  destruct (on_mutation svc (InsertRow newTask (Options.userId o))) as [e |]; simpl.
  - split; [reflexivity |]. split; [reflexivity |]. split; [reflexivity |].
    split; [reflexivity |]. split; [discriminate |].
    intros e' [= <-]. split; reflexivity.
  - split; [reflexivity |]. split; [reflexivity |]. split; [reflexivity |].
    split; [reflexivity |]. split; [intros _; split; reflexivity |].
    discriminate.
Qed.

Lemma spread_keeps_id (t : TaskWithUser) (u : TaskUpdate) : id (spread t u) = id t.
Proof. reflexivity. Qed.

Lemma map_id_replace (n : Z) (f : TaskWithUser -> TaskWithUser) (l : list TaskWithUser) :
  (forall t, In t l -> has_id n t = true -> id (f t) = id t) ->
  map id (map (fun t => if has_id n t then f t else t) l) = map id l.
Proof.
  intros Hf. rewrite map_map. apply map_ext_in. intros t Ht.
  destruct (has_id n t) eqn:E; [apply Hf; assumption | reflexivity].
Qed.

(** X6. [updateTask] and [toggleTask] never add, remove or reorder
    entries: whether the id is absent, the request succeeds or it fails and
    is rolled back, the sequence of ids of the cache after the call is the
    sequence before it, and the pagination record is untouched. *)
Theorem update_and_toggle_keep_ids (svc : DataService) (w : World) (n : Z)
    (updates : TaskUpdate) (c : bool) :
  map id (tasks (after (updateTask svc (tasks (hook w)) n updates) w))
  = map id (tasks (hook w))
  /\ pagination (after (updateTask svc (tasks (hook w)) n updates) w)
     = pagination (hook w)
  /\ map id (tasks (after (toggleTask svc n c) w)) = map id (tasks (hook w))
  /\ pagination (after (toggleTask svc n c) w) = pagination (hook w).
Proof.
  split; [| split; [| split]].
  - unfold updateTask. run_hook.
    destruct (find (has_id n) (tasks (hook w))) as [orig |] eqn:Hfind; simpl.
    + destruct (find_has_id _ _ _ Hfind) as [_ Hid].
      destruct (on_mutation svc (UpdateRow n updates)); simpl.
      * rewrite rollback_after_patch. apply map_id_replace.
        intros t _ Ht. apply has_id_true in Ht. congruence.
      * apply map_id_replace. intros t _ _. reflexivity.
    + reflexivity.
  - unfold updateTask. run_hook.
    destruct (find (has_id n) (tasks (hook w))); simpl; [| reflexivity].
    destruct (on_mutation svc (UpdateRow n updates)); reflexivity.
  - unfold toggleTask. run_hook.
    destruct (on_mutation svc _); simpl.
    + rewrite toggle_back_after_flip. apply map_id_replace. intros t _ _. reflexivity.
    + apply map_id_replace. intros t _ _. reflexivity.
  - unfold toggleTask. run_hook.
    destruct (on_mutation svc _); reflexivity.
Qed.

Lemma spread_nothing (t : TaskWithUser) :
  spread t {| upd_title := None; upd_description := None;
              upd_isCompleted := None; upd_createdBy := None |} = t.
Proof. destruct t. reflexivity. Qed.

Lemma find_patched (n : Z) (f : TaskWithUser -> TaskWithUser) (l : list TaskWithUser)
    (orig : TaskWithUser) :
  (forall t, has_id n (f t) = has_id n t) ->
  find (has_id n) l = Some orig ->
  find (has_id n) (map (fun t => if has_id n t then f t else t) l) = Some (f orig).
Proof.
  intros Hf. induction l as [| a l IH]; simpl; intros H.
  - discriminate.
  - destruct (has_id n a) eqn:E.
    + injection H as <-. rewrite Hf, E. reflexivity.
    + rewrite E. apply IH. exact H.
Qed.

(** X7. When the service accepts an update, the optimistic patch stays:
    looking the id up gives the former entry with the keys of [updates]
    written over it (a key that [updates] lacks keeps its value, the id and
    the creator columns are never changed), every entry with another id is
    as it was, the error cell is empty and nothing is thrown.  A patch
    without keys leaves the cache as it is. *)
Theorem update_success_applies_patch (svc : DataService) (w : World) (n : Z)
    (updates : TaskUpdate) (orig : TaskWithUser) :
  find (has_id n) (tasks (hook w)) = Some orig ->
  on_mutation svc (UpdateRow n updates) = None ->
  let run := updateTask svc (tasks (hook w)) n updates in
  outcome run w = Returned tt
  /\ error (after run w) = None
  /\ find (has_id n) (tasks (after run w)) = Some (spread orig updates)
  /\ (upd_title updates = None -> title (spread orig updates) = title orig)
  /\ (forall s, upd_title updates = Some s -> title (spread orig updates) = Some s)
  /\ creator_email (spread orig updates) = creator_email orig
  /\ (forall t, id t <> Some n -> In t (tasks (hook w)) -> In t (tasks (after run w)))
  /\ (updates = {| upd_title := None; upd_description := None;
                   upd_isCompleted := None; upd_createdBy := None |} ->
      tasks (after run w) = tasks (hook w)).
Proof.
  intros Hfind Hok run.
  assert (Hafter : tasks (after run w)
            = map (fun t => if has_id n t then spread t updates else t) (tasks (hook w))).
  { unfold run, updateTask. run_hook. rewrite Hfind. simpl. rewrite Hok. reflexivity. }
  split; [unfold run, updateTask; run_hook; rewrite Hfind; simpl; rewrite Hok;
          reflexivity |].
  split; [unfold run, updateTask; run_hook; rewrite Hfind; simpl; rewrite Hok;
          reflexivity |].
  split; [rewrite Hafter;
          apply (find_patched n (fun t => spread t updates));
          [intros t; apply has_id_spread | exact Hfind] |].
  split; [intros Hnone; simpl; rewrite Hnone; reflexivity |].
  split; [intros s Hs; simpl; rewrite Hs; reflexivity |].
  split; [reflexivity |].
  split.
  - intros t Hid Hin. rewrite Hafter. apply in_map_iff. exists t.
    apply has_id_false in Hid. rewrite Hid. split; [reflexivity | exact Hin].
  - intros Hempty. rewrite Hafter, Hempty.
    rewrite <- (map_id (tasks (hook w))) at 2. apply map_ext. intros t.
    destruct (has_id n t); [apply spread_nothing | reflexivity].
Qed.

Lemma filter_out_id_spec (n : Z) (l : list TaskWithUser) (t : TaskWithUser) :
  In t (filter (fun t => negb (has_id n t)) l) <-> In t l /\ id t <> Some n.
Proof.
  rewrite filter_In, negb_true_iff, has_id_false. reflexivity.
Qed.

Lemma filter_out_id_twice (n : Z) (l : list TaskWithUser) :
  filter (fun t => negb (has_id n t)) (filter (fun t => negb (has_id n t)) l)
  = filter (fun t => negb (has_id n t)) l.
Proof.
  induction l as [| a l IH]; simpl.
  - reflexivity.
  - destruct (negb (has_id n a)) eqn:E; simpl; [rewrite E, IH |]; auto.
Qed.

(** X8. When the service accepts a delete, no entry of the cache holds
    the id any more and the other entries stay, in their order; the hook
    itself does not touch the pagination record.  The delete notification
    that follows finds nothing left to remove: the task list is the same,
    and it is then that [totalCount] goes down by one (not below 0). *)
Theorem delete_success_then_notification (svc : DataService) (w : World)
    (n : Z) (victim : TaskWithUser) :
  find (has_id n) (tasks (hook w)) = Some victim ->
  on_mutation svc (DeleteRow n) = None ->
  let run := deleteTask svc (tasks (hook w)) n in
  let both := (run ;; handleRealtimeDelete n) in
  outcome run w = Returned tt
  /\ tasks (after run w) = filter (fun t => negb (has_id n t)) (tasks (hook w))
  /\ (forall t, In t (tasks (after run w)) <-> In t (tasks (hook w)) /\ id t <> Some n)
  /\ pagination (after run w) = pagination (hook w)
  /\ tasks (after both w) = tasks (after run w)
  /\ PaginationInfo.totalCount (pagination (after both w))
     = Z.max 0 (PaginationInfo.totalCount (pagination (hook w)) - 1).
Proof.
  intros Hfind Hok run both.
  assert (Hafter : tasks (after run w)
                   = filter (fun t => negb (has_id n t)) (tasks (hook w))).
  { unfold run, deleteTask. run_hook. rewrite Hfind. simpl. rewrite Hok. reflexivity. }
  split; [unfold run, deleteTask; run_hook; rewrite Hfind; simpl; rewrite Hok;
          reflexivity |].
  split; [exact Hafter |].
  split; [intros t; rewrite Hafter; apply filter_out_id_spec |].
  split; [unfold run, deleteTask; run_hook; rewrite Hfind; simpl; rewrite Hok;
          reflexivity |].
  split.
  - rewrite Hafter. unfold both, run, deleteTask, handleRealtimeDelete. run_hook.
    rewrite Hfind. simpl. rewrite Hok. simpl. apply filter_out_id_twice.
  - unfold both, run, deleteTask, handleRealtimeDelete. run_hook.
    rewrite Hfind. simpl. rewrite Hok. reflexivity.
Qed.

Lemma filter_out_unique (n : Z) (victim : TaskWithUser) (l : list TaskWithUser) :
  NoDup (map id l) ->
  find (has_id n) l = Some victim ->
  exists l1 l2,
    l = l1 ++ victim :: l2
    /\ filter (fun t => negb (has_id n t)) l = l1 ++ l2.
Proof.
  induction l as [| a l IH]; simpl; intros Hnd Hf.
  - discriminate.
  - inversion Hnd as [| x xs Hnotin Hnd']; subst.
    destruct (has_id n a) eqn:E.
    + injection Hf as <-. exists [], l. simpl. split; [reflexivity |].
      assert (Hrest : forall t, In t l -> negb (has_id n t) = true).
      { intros t Ht. apply negb_true_iff, has_id_false. intros Hid.
        apply Hnotin. apply has_id_true in E. rewrite E, <- Hid. apply in_map. exact Ht. }
      clear - Hrest. induction l as [| b l IHl]; simpl.
      * reflexivity.
      * rewrite (Hrest b) by (left; reflexivity). f_equal.
        apply IHl. intros t Ht. apply Hrest. right. exact Ht.
    + destruct (IH Hnd' Hf) as (l1 & l2 & Hl & Hfl).
      exists (a :: l1), l2. simpl. rewrite Hl at 1. rewrite Hfl. split; reflexivity.
Qed.

(** X9. When a delete fails on a cache with distinct ids, the rollback
    gives back the same tasks: the cache after it is the cache before with
    the deleted task moved to the tail, a permutation of the cache before
    (the same list when the task was the last entry). *)
Theorem delete_rollback_permutes (svc : DataService) (w : World)
    (n : Z) (victim : TaskWithUser) (e : JsError) :
  NoDup (map id (tasks (hook w))) ->
  find (has_id n) (tasks (hook w)) = Some victim ->
  on_mutation svc (DeleteRow n) = Some e ->
  let run := deleteTask svc (tasks (hook w)) n in
  (exists l1 l2, tasks (hook w) = l1 ++ victim :: l2
                 /\ tasks (after run w) = l1 ++ l2 ++ [victim])
  /\ Permutation (tasks (hook w)) (tasks (after run w))
  /\ List.length (tasks (after run w)) = List.length (tasks (hook w)).
Proof.
  intros Hnd Hfind Hfail run.
  assert (Hafter : tasks (after run w)
                   = filter (fun t => negb (has_id n t)) (tasks (hook w)) ++ [victim]).
  { unfold run, deleteTask. run_hook. rewrite Hfind. simpl. rewrite Hfail. reflexivity. }
  destruct (filter_out_unique n victim (tasks (hook w)) Hnd Hfind)
    as (l1 & l2 & Hl & Hfl).
  assert (Hshape : tasks (after run w) = l1 ++ l2 ++ [victim])
    by (rewrite Hafter, Hfl, <- app_assoc; reflexivity).
  assert (Hperm : Permutation (tasks (hook w)) (tasks (after run w))).
  { rewrite Hl, Hshape. apply Permutation_app_head.
    change (victim :: l2) with ([victim] ++ l2). apply Permutation_app_comm. }
  split; [exists l1, l2; split; assumption |].
  split; [exact Hperm |].
  symmetry. apply Permutation_length. exact Hperm.
Qed.

Lemma restore_isCompleted (n : Z) (c : bool) (l : list TaskWithUser) :
  (forall t, In t l -> id t = Some n -> isCompleted t = Some c) ->
  map (fun t => if has_id n t then with_isCompleted t c else t) l = l.
Proof.
  intros H. rewrite <- (map_id l) at 2. apply map_ext_in. intros t Ht.
  destruct (has_id n t) eqn:E; [| reflexivity].
  apply has_id_true in E. specialize (H t Ht E).
  destruct t. simpl in *. subst. reflexivity.
Qed.

(** X10. When the value passed to [toggleTask] is the one the cache holds
    for the id, a failed toggle leaves the cache exactly as it was, and two
    accepted toggles in a row (the second called with the flipped value)
    bring the cache back to where it started, each having sent its own
    request. *)
Theorem toggle_round_trips (svc : DataService) (w : World) (n : Z) (c : bool) :
  (forall t, In t (tasks (hook w)) -> id t = Some n -> isCompleted t = Some c) ->
  (forall e, on_mutation svc (UpdateRow n (only_isCompleted (negb c))) = Some e ->
             tasks (after (toggleTask svc n c) w) = tasks (hook w))
  /\ (on_mutation svc (UpdateRow n (only_isCompleted (negb c))) = None ->
      on_mutation svc (UpdateRow n (only_isCompleted c)) = None ->
      tasks (after (toggleTask svc n c ;; toggleTask svc n (negb c)) w) = tasks (hook w)
      /\ requests (toggleTask svc n c ;; toggleTask svc n (negb c)) w
         = sent w ++ [UpdateRow n (only_isCompleted (negb c));
                      UpdateRow n (only_isCompleted c)]).
Proof.
  intros Hcur. split.
  - intros e Hfail. unfold toggleTask. run_hook. rewrite Hfail. simpl.
    rewrite toggle_back_after_flip. apply restore_isCompleted. exact Hcur.
  - intros Hok1 Hok2. unfold toggleTask. run_hook. rewrite Hok1. simpl.
    rewrite negb_involutive, Hok2. simpl. split.
    + rewrite toggle_back_after_flip. apply restore_isCompleted. exact Hcur.
    + rewrite <- app_assoc. reflexivity.
Qed.

(** ** The notification handlers *)

Lemma filter_absent_id (n : Z) (l : list TaskWithUser) :
  find (has_id n) l = None ->
  filter (fun t => negb (has_id n t)) l = l.
Proof.
  induction l as [| a l IH]; simpl; intros H.
  - reflexivity.
  - destruct (has_id n a); [discriminate |]. simpl. rewrite IH by assumption.
    reflexivity.
Qed.

(** The removal test of the update handler is the negation of the filter
    of the specification, for a row whose [isCompleted] is a boolean. *)
Lemma shouldRemove_passes (o : Options.t) (row : TaskWithUser) :
  isCompleted row <> None ->
  shouldRemove o row = negb (passes_filters o row).
Proof.
  intros Hbool.
  unfold shouldRemove, passes_filters, satisfies_completion, satisfies_search.
  destruct (isCompleted row) as [[|] |]; [| | congruence];
    destruct (Options.completionFilter o); simpl;
    destruct (JsString.truthy (JsString.trim (Options.searchTerm o))); simpl;
    try reflexivity;
    destruct (matchesSearch (Options.searchTerm o) row); reflexivity.
Qed.

(** X11. An update notification whose row still passes the filters
    replaces the entry in place: the cache keeps its length and its other
    entries, every position that held the id holds the fetched row, and the
    pagination record is untouched.  When the id is not displayed (the task
    is on another page) the cache is unchanged. *)
Theorem update_notification_replaces_in_place (o : Options.t) (svc : DataService)
    (w : World) (n : Z) (row : TaskWithUser) :
  on_single svc (SelectById n) = Some row ->
  isCompleted row <> None ->
  passes_filters o row = true ->
  let run := handleRealtimeUpdate o svc n in
  tasks (after run w)
  = map (fun task => if has_id n task then row else task) (tasks (hook w))
  /\ List.length (tasks (after run w)) = List.length (tasks (hook w))
  /\ (forall t, In t (tasks (after run w)) -> t = row \/ (In t (tasks (hook w)) /\ id t <> Some n))
  /\ (forall t, In t (tasks (hook w)) -> id t <> Some n -> In t (tasks (after run w)))
  /\ pagination (after run w) = pagination (hook w)
  /\ (find (has_id n) (tasks (hook w)) = None -> tasks (after run w) = tasks (hook w)).
Proof.
  intros Hrow Hbool Hpass run.
  assert (Hafter : tasks (after run w)
            = map (fun task => if has_id n task then row else task) (tasks (hook w))).
  { unfold run, after.
    rewrite (handleRealtimeUpdate_run o svc w n row Hrow),
      (shouldRemove_passes o row Hbool), Hpass.
    reflexivity. }
  split; [exact Hafter |].
  split; [rewrite Hafter; apply length_map |].
  split.
  { intros t Ht. rewrite Hafter in Ht. apply in_map_iff in Ht.
    destruct Ht as (t0 & Heq & Hin). destruct (has_id n t0) eqn:E.
    - left. symmetry. exact Heq.
    - right. subst t0. split; [exact Hin | apply has_id_false; exact E]. }
  split.
  { intros t Hin Hid. rewrite Hafter. apply in_map_iff. exists t.
    apply has_id_false in Hid. rewrite Hid. split; [reflexivity | exact Hin]. }
  split.
  { unfold run, after.
    rewrite (handleRealtimeUpdate_run o svc w n row Hrow),
      (shouldRemove_passes o row Hbool), Hpass.
    reflexivity. }
  intros Habs. rewrite Hafter. apply map_absent_id. exact Habs.
Qed.

(** When the update handler removes: a completed row under "active", a
    row whose [isCompleted] is [false] under "completed", or a row that the
    active search term misses. *)
Lemma shouldRemove_spec (o : Options.t) (row : TaskWithUser) :
  shouldRemove o row = true
  <-> (Options.completionFilter o = active /\ isCompleted row = Some true)
      \/ (Options.completionFilter o = completed /\ isCompleted row = Some false)
      \/ (JsString.trim (Options.searchTerm o) <> ""
          /\ ~ search_hit (Options.searchTerm o) row).
Proof.
  rewrite <- truthy_not_empty, <- matchesSearch_spec. unfold shouldRemove.
  destruct (Options.completionFilter o);
    destruct (isCompleted row) as [[|] |]; simpl;
    destruct (JsString.truthy (JsString.trim (Options.searchTerm o))); simpl;
    destruct (matchesSearch (Options.searchTerm o) row); simpl;
    split; try tauto; try discriminate;
    intuition (try discriminate; try congruence).
Qed.

(** X12. An update notification removes the task when the fetched row is
    completed under the "active" filter, has [isCompleted] false under the
    "completed" filter, or is missed by the active search term (neither its
    title nor its description contains the term, case ignored).  It then
    removes every entry of that id and keeps the others, and [totalCount]
    is decremented once for each invocation of the updater by React, never
    below 0: by one when the updater runs once, and by at least one always.
    The decrement does not depend on the cache: when the id is not
    displayed the task list is unchanged and the count goes down all the
    same. *)
Theorem update_notification_removes_filtered_out (o : Options.t) (svc : DataService)
    (w : World) (n : Z) (row : TaskWithUser) :
  on_single svc (SelectById n) = Some row ->
  (Options.completionFilter o = active /\ isCompleted row = Some true)
  \/ (Options.completionFilter o = completed /\ isCompleted row = Some false)
  \/ (JsString.trim (Options.searchTerm o) <> ""
      /\ ~ search_hit (Options.searchTerm o) row) ->
  let run := handleRealtimeUpdate o svc n in
  tasks (after run w) = filter (fun t => negb (has_id n t)) (tasks (hook w))
  /\ (forall t, In t (tasks (after run w)) <-> In t (tasks (hook w)) /\ id t <> Some n)
  /\ PaginationInfo.totalCount (pagination (after run w))
     = Z.max 0 (PaginationInfo.totalCount (pagination (hook w))
                - Z.of_nat (S updater_reruns))
  /\ (updater_reruns = 0%nat ->
      PaginationInfo.totalCount (pagination (after run w))
      = Z.max 0 (PaginationInfo.totalCount (pagination (hook w)) - 1))
  /\ PaginationInfo.totalCount (pagination (after run w))
     <= Z.max 0 (PaginationInfo.totalCount (pagination (hook w)) - 1)
  /\ (find (has_id n) (tasks (hook w)) = None -> tasks (after run w) = tasks (hook w)).
Proof.
  intros Hrow Hwhy run.
  apply shouldRemove_spec in Hwhy.
  assert (Hafter : tasks (after run w)
                   = filter (fun t => negb (has_id n t)) (tasks (hook w))).
  { unfold run, after. rewrite (handleRealtimeUpdate_run o svc w n row Hrow), Hwhy.
    reflexivity. }
  assert (Hcount : PaginationInfo.totalCount (pagination (after run w))
            = Z.max 0 (PaginationInfo.totalCount (pagination (hook w))
                       - Z.of_nat (S updater_reruns))).
  { unfold run, after. rewrite (handleRealtimeUpdate_run o svc w n row Hrow), Hwhy.
    cbn [snd hook pagination].
    apply (count_down_iter updater_reruns (pagination (hook w))). }
  split; [exact Hafter |].
  split; [intros t; rewrite Hafter; apply filter_out_id_spec |].
  split; [exact Hcount |].
  split; [intros H0; rewrite Hcount, H0; reflexivity |].
  split; [rewrite Hcount; lia |].
  intros Habs. rewrite Hafter. apply filter_absent_id. exact Habs.
Qed.

(** X13. When the row of a notification cannot be fetched ([data] is
    [null]), the insert and the update handler drop the event: the whole
    hook state is as before, nothing is thrown, and the lookup is the only
    request sent. *)
Theorem notification_without_row_is_dropped (o : Options.t) (svc : DataService)
    (w : World) (n : Z) :
  on_single svc (SelectById n) = None ->
  after (handleRealtimeInsert o svc n) w = hook w
  /\ after (handleRealtimeUpdate o svc n) w = hook w
  /\ outcome (handleRealtimeInsert o svc n) w = Returned tt
  /\ outcome (handleRealtimeUpdate o svc n) w = Returned tt
  /\ requests (handleRealtimeInsert o svc n) w = sent w ++ [SelectById n]
  /\ requests (handleRealtimeUpdate o svc n) w = sent w ++ [SelectById n].
Proof.
  intros Hnone.
  unfold handleRealtimeInsert, handleRealtimeUpdate. run_hook. rewrite Hnone.
  repeat split.
Qed.

(** After the insert handler the task list is either the one before or
    the result of the handler's updater on a fetched row. *)
Lemma handleRealtimeInsert_tasks (o : Options.t) (svc : DataService) (w : World)
    (n : Z) :
  tasks (after (handleRealtimeInsert o svc n) w) = tasks (hook w)
  \/ exists row, on_single svc (SelectById n) = Some row
                 /\ tasks (after (handleRealtimeInsert o svc n) w)
                    = insert_into o row (tasks (hook w)).
Proof.
  unfold handleRealtimeInsert. run_hook.
  destruct (on_single svc (SelectById n)) as [row |]; [| left; reflexivity].
  destruct (is_active (Options.completionFilter o) && is_true (isCompleted row));
    [left; reflexivity |].
  destruct (is_completed (Options.completionFilter o)
            && negb (is_true (isCompleted row))); [left; reflexivity |].
  destruct (JsString.truthy (JsString.trim (Options.searchTerm o))
            && negb (matchesSearch (Options.searchTerm o) row)); [left; reflexivity |].
  right. exists row. split; reflexivity.
Qed.

(** X14. The insert handler never lets the cache outgrow the page: when
    the task list held at most [pageSize] entries before a notification, it
    holds at most [pageSize] entries after it, whatever row the service
    returned and whatever page is displayed. *)
Theorem insert_notification_keeps_page_bound (o : Options.t) (svc : DataService)
    (w : World) (n : Z) :
  0 <= Options.pageSize o ->
  Z.of_nat (List.length (tasks (hook w))) <= Options.pageSize o ->
  Z.of_nat (List.length (tasks (after (handleRealtimeInsert o svc n) w)))
  <= Options.pageSize o.
Proof.
  intros Hps Hbound.
  destruct (handleRealtimeInsert_tasks o svc w n) as [-> | (row & _ & ->)].
  - exact Hbound.
  - apply insert_into_length; assumption.
Qed.

(** *** Where an inserted task lands *)

Lemma firstn_In (A : Type) (k : nat) (l : list A) (x : A) :
  In x (firstn k l) -> In x l.
Proof.
  intros H. rewrite <- (firstn_skipn k l). apply in_or_app. left. exact H.
Qed.

Lemma skipn_In (A : Type) (k : nat) (l : list A) (x : A) :
  In x (skipn k l) -> In x l.
Proof.
  intros H. rewrite <- (firstn_skipn k l). apply in_or_app. right. exact H.
Qed.

Lemma firstn_min_length (A : Type) (k : nat) (l : list A) :
  firstn (Nat.min k (List.length l)) l = firstn k l.
Proof.
  destruct (Nat.le_ge_cases k (List.length l)) as [H | H].
  - rewrite Nat.min_l by exact H. reflexivity.
  - rewrite Nat.min_r by exact H. rewrite firstn_all, firstn_all2 by exact H.
    reflexivity.
Qed.

(** On the first page the slice is a prefix. *)
Lemma slice_first_page (A : Type) (l : list A) (pageSize : Z) :
  0 <= pageSize -> slice l 0 pageSize = firstn (Z.to_nat pageSize) l.
Proof.
  intros Hps. unfold slice.
  replace (0 <? 0) with false by reflexivity.
  replace (pageSize <? 0) with false by (symmetry; apply Z.ltb_ge; exact Hps).
  replace (Z.min 0 (Z.of_nat (List.length l))) with 0 by lia.
  simpl skipn. rewrite Z.sub_0_r.
  replace (Z.to_nat (Z.min pageSize (Z.of_nat (List.length l))))
    with (Nat.min (Z.to_nat pageSize) (List.length l)) by lia.
  apply firstn_min_length.
Qed.

(** The run of the insert handler on a row that passes the filters. *)
Lemma handleRealtimeInsert_pass_run (o : Options.t) (svc : DataService) (w : World)
    (pid : Z) (newTask : TaskWithUser) :
  on_single svc (SelectById pid) = Some newTask ->
  isCompleted newTask <> None ->
  passes_filters o newTask = true ->
  handleRealtimeInsert o svc pid w
  = (Returned tt,
     {| hook := {| tasks := insert_into o newTask (tasks (hook w));
                   isLoading := isLoading (hook w);
                   error := error (hook w);
                   pagination := count_up (pagination (hook w)) |};
        sent := sent w ++ [SelectById pid] |}).
Proof.
  intros Hrow Hbool Hpass.
  rewrite (handleRealtimeInsert_unfold o svc w pid newTask Hrow Hbool), Hpass.
  reflexivity.
Qed.

(** X15. On the first page with newest-first order, a matching insert
    notification for a task that is not yet displayed puts the new task at
    the head and keeps the first [pageSize - 1] of the former entries: the
    last entry of a full page is pushed off. *)
Theorem insert_newest_first_page (o : Options.t) (svc : DataService) (w : World)
    (pid : Z) (newTask : TaskWithUser) :
  on_single svc (SelectById pid) = Some newTask ->
  isCompleted newTask <> None ->
  passes_filters o newTask = true ->
  ~ In (id newTask) (map id (tasks (hook w))) ->
  Options.sortOrder o = newest ->
  Options.page o = 1 ->
  1 <= Options.pageSize o ->
  tasks (after (handleRealtimeInsert o svc pid) w)
  = newTask :: firstn (Z.to_nat (Options.pageSize o - 1)) (tasks (hook w))
  /\ (Z.of_nat (List.length (tasks (hook w))) < Options.pageSize o ->
      tasks (after (handleRealtimeInsert o svc pid) w) = newTask :: tasks (hook w)).
Proof.
  intros Hrow Hbool Hpass Hfresh Hsort Hpage Hps.
  assert (Hafter : tasks (after (handleRealtimeInsert o svc pid) w)
            = newTask :: firstn (Z.to_nat (Options.pageSize o - 1)) (tasks (hook w))).
  { unfold after.
    rewrite (handleRealtimeInsert_pass_run o svc w pid newTask Hrow Hbool Hpass). simpl.
    rewrite (insert_into_fresh o newTask _ Hfresh). unfold extended.
    rewrite Hsort, Hpage. simpl Z.sub. rewrite Z.mul_0_l, Z.mul_1_l.
    rewrite slice_first_page by lia.
    replace (Z.to_nat (Options.pageSize o))
      with (S (Z.to_nat (Options.pageSize o - 1))) by lia.
    reflexivity. }
  split; [exact Hafter |].
  intros Hroom. rewrite Hafter. f_equal. apply firstn_all2. lia.
Qed.

(** X16. On the first page with oldest-first order, a matching insert
    notification appends the new task only while the page has room; when
    the page already holds [pageSize] entries the task list is unchanged
    (the new task belongs to a later page), and [totalCount] is incremented
    in both cases. *)
Theorem insert_oldest_first_page (o : Options.t) (svc : DataService) (w : World)
    (pid : Z) (newTask : TaskWithUser) :
  on_single svc (SelectById pid) = Some newTask ->
  isCompleted newTask <> None ->
  passes_filters o newTask = true ->
  ~ In (id newTask) (map id (tasks (hook w))) ->
  Options.sortOrder o = oldest ->
  Options.page o = 1 ->
  0 <= Options.pageSize o ->
  (Z.of_nat (List.length (tasks (hook w))) < Options.pageSize o ->
   tasks (after (handleRealtimeInsert o svc pid) w) = tasks (hook w) ++ [newTask])
  /\ (Z.of_nat (List.length (tasks (hook w))) = Options.pageSize o ->
      tasks (after (handleRealtimeInsert o svc pid) w) = tasks (hook w))
  /\ PaginationInfo.totalCount (pagination (after (handleRealtimeInsert o svc pid) w))
     = PaginationInfo.totalCount (pagination (hook w)) + 1.
Proof.
  intros Hrow Hbool Hpass Hfresh Hsort Hpage Hps.
  assert (Hafter : tasks (after (handleRealtimeInsert o svc pid) w)
            = firstn (Z.to_nat (Options.pageSize o)) (tasks (hook w) ++ [newTask])).
  { unfold after.
    rewrite (handleRealtimeInsert_pass_run o svc w pid newTask Hrow Hbool Hpass). simpl.
    rewrite (insert_into_fresh o newTask _ Hfresh). unfold extended.
    rewrite Hsort, Hpage. simpl Z.sub. rewrite Z.mul_0_l, Z.mul_1_l.
    apply slice_first_page. exact Hps. }
  split; [| split].
  - intros Hroom. rewrite Hafter. apply firstn_all2.
    rewrite length_app. simpl. lia.
  - intros Hfull. rewrite Hafter.
    replace (Z.to_nat (Options.pageSize o)) with (List.length (tasks (hook w)) + 0)%nat
      by lia.
    rewrite firstn_app_2. simpl. apply app_nil_r.
  - unfold after.
    rewrite (handleRealtimeInsert_pass_run o svc w pid newTask Hrow Hbool Hpass).
    reflexivity.
Qed.

(** X17. On any page after the first, a matching insert notification
    for a task that is not displayed empties the cache down to at most one
    entry: the slice [(page-1)*pageSize, page*pageSize) is taken from a
    list that holds only the current page and the new task.  With
    newest-first order the new task itself is never kept. *)
Theorem insert_off_first_page_collapses (o : Options.t) (svc : DataService)
    (w : World) (pid : Z) (newTask : TaskWithUser) :
  on_single svc (SelectById pid) = Some newTask ->
  isCompleted newTask <> None ->
  passes_filters o newTask = true ->
  ~ In (id newTask) (map id (tasks (hook w))) ->
  2 <= Options.page o ->
  0 < Options.pageSize o ->
  Z.of_nat (List.length (tasks (hook w))) <= Options.pageSize o ->
  (List.length (tasks (after (handleRealtimeInsert o svc pid) w)) <= 1)%nat
  /\ (Options.sortOrder o = newest ->
      ~ In newTask (tasks (after (handleRealtimeInsert o svc pid) w))).
Proof.
  intros Hrow Hbool Hpass Hfresh Hpage Hps Hlen.
  assert (Hafter : tasks (after (handleRealtimeInsert o svc pid) w)
            = slice (extended o newTask (tasks (hook w)))
                    ((Options.page o - 1) * Options.pageSize o)
                    (Options.page o * Options.pageSize o)).
  { unfold after.
    rewrite (handleRealtimeInsert_pass_run o svc w pid newTask Hrow Hbool Hpass). simpl.
    apply insert_into_fresh. exact Hfresh. }
  assert (Hfrom : Options.pageSize o <= (Options.page o - 1) * Options.pageSize o) by nia.
  assert (Hext : List.length (extended o newTask (tasks (hook w)))
                 = S (List.length (tasks (hook w)))).
  { unfold extended. destruct (Options.sortOrder o); simpl; [reflexivity |].
    rewrite length_app. simpl. lia. }
  rewrite Hafter. unfold slice.
  replace ((Options.page o - 1) * Options.pageSize o <? 0) with false
    by (symmetry; apply Z.ltb_ge; lia).
  replace (Options.page o * Options.pageSize o <? 0) with false
    by (symmetry; apply Z.ltb_ge; nia).
  set (k := Z.to_nat (Z.min ((Options.page o - 1) * Options.pageSize o)
                            (Z.of_nat (List.length
                                         (extended o newTask (tasks (hook w))))))).
  assert (Hk : (List.length (tasks (hook w)) <= k)%nat) by (unfold k; lia).
  split.
  - rewrite length_firstn, length_skipn. lia.
  - intros Hsort Hin. apply firstn_In in Hin. unfold extended in Hin. rewrite Hsort in Hin.
    assert (Hk1 : (1 <= k)%nat) by (unfold k; lia).
    destruct k as [| k']; [lia |]. simpl in Hin. apply skipn_In in Hin.
    apply Hfresh. apply in_map. exact Hin.
Qed.

(** *** Notifications in sequence *)





(** X20. A delete notification removes every entry of the id and keeps
    the others; [totalCount] goes down by one and never below 0.  The
    decrement does not look at the cache: for an id that is not displayed
    the task list is unchanged and the count goes down all the same, and a
    notification delivered twice decrements twice. *)
Theorem delete_notification_removes_id (w : World) (n : Z) :
  let once := handleRealtimeDelete n in
  (forall t, In t (tasks (after once w)) <-> In t (tasks (hook w)) /\ id t <> Some n)
  /\ PaginationInfo.totalCount (pagination (after once w))
     = Z.max 0 (PaginationInfo.totalCount (pagination (hook w)) - 1)
  /\ 0 <= PaginationInfo.totalCount (pagination (after once w))
  /\ (find (has_id n) (tasks (hook w)) = None ->
      tasks (after once w) = tasks (hook w))
  /\ tasks (after (once ;; once) w) = tasks (after once w)
  /\ PaginationInfo.totalCount (pagination (after (once ;; once) w))
     = Z.max 0 (PaginationInfo.totalCount (pagination (hook w)) - 2).
Proof.
  intros once. unfold once, handleRealtimeDelete. run_hook.
  split; [intros t; apply filter_out_id_spec |].
  split; [reflexivity |].
  split; [lia |].
  split; [apply filter_absent_id |].
  split; [apply filter_out_id_twice | lia].
Qed.

(** The navigation fields of a pagination record. *)
Lemma count_up_navigation (p : PaginationInfo.t) :
  PaginationInfo.currentPage (count_up p) = PaginationInfo.currentPage p
  /\ PaginationInfo.pageSize (count_up p) = PaginationInfo.pageSize p
  /\ PaginationInfo.hasNextPage (count_up p) = PaginationInfo.hasNextPage p
  /\ PaginationInfo.hasPrevPage (count_up p) = PaginationInfo.hasPrevPage p.
Proof. repeat split. Qed.

Lemma count_down_navigation (p : PaginationInfo.t) :
  PaginationInfo.currentPage (count_down p) = PaginationInfo.currentPage p
  /\ PaginationInfo.pageSize (count_down p) = PaginationInfo.pageSize p
  /\ PaginationInfo.hasNextPage (count_down p) = PaginationInfo.hasNextPage p
  /\ PaginationInfo.hasPrevPage (count_down p) = PaginationInfo.hasPrevPage p.
Proof. repeat split. Qed.

(** X21. No notification handler recomputes the navigation state: after
    an insert, update or delete notification, whatever the service returns,
    [currentPage], [pageSize], [hasNextPage] and [hasPrevPage] are those of
    the last fetch; only [totalCount] and [totalPages] move. *)
Theorem notifications_keep_navigation (o : Options.t) (svc : DataService)
    (w : World) (n : Z) :
  let same (s : HookState) :=
    PaginationInfo.currentPage (pagination s)
      = PaginationInfo.currentPage (pagination (hook w))
    /\ PaginationInfo.pageSize (pagination s)
       = PaginationInfo.pageSize (pagination (hook w))
    /\ PaginationInfo.hasNextPage (pagination s)
       = PaginationInfo.hasNextPage (pagination (hook w))
    /\ PaginationInfo.hasPrevPage (pagination s)
       = PaginationInfo.hasPrevPage (pagination (hook w)) in
  same (after (handleRealtimeInsert o svc n) w)
  /\ same (after (handleRealtimeUpdate o svc n) w)
  /\ same (after (handleRealtimeDelete n) w).
Proof.
  intros same. unfold same. split; [| split].
  - unfold handleRealtimeInsert. run_hook.
    destruct (on_single svc (SelectById n)) as [row |]; [| repeat split].
    destruct (is_active (Options.completionFilter o) && is_true (isCompleted row));
      [repeat split |].
    destruct (is_completed (Options.completionFilter o)
              && negb (is_true (isCompleted row))); [repeat split |].
    destruct (JsString.truthy (JsString.trim (Options.searchTerm o))
              && negb (matchesSearch (Options.searchTerm o) row)); [repeat split |].
    apply count_up_navigation.
  - destruct (on_single svc (SelectById n)) as [row |] eqn:Hrow.
    + unfold after. rewrite (handleRealtimeUpdate_run o svc w n row Hrow).
      cbn [snd hook pagination].
      destruct (shouldRemove o row); [| repeat split].
      destruct (count_down_iter updater_reruns (pagination (hook w)))
        as (_ & _ & Hs & Hcp & Hn & Hv).
      repeat split; assumption.
    + unfold after, handleRealtimeUpdate, bind, await. rewrite Hrow. repeat split.
  - unfold handleRealtimeDelete. run_hook. apply count_down_navigation.
Qed.

(** * The Pagination component *)

(** X22. On a page that exists (between 1 and the number of pages of a
    list that is not empty), the line "Showing a to b of n" is well
    formed: the first item is at least 1, not after the last one, the last
    one is within the count, and at most [pageSize] items are announced;
    exactly [pageSize] on every page before the last. *)
Theorem showing_range_within_count (currentPage totalCount pageSize : Z) :
  0 < pageSize ->
  0 < totalCount ->
  1 <= currentPage <= ceil_div totalCount pageSize ->
  let a := Pagination.startItem currentPage totalCount pageSize in
  let b := Pagination.endItem currentPage totalCount pageSize in
  1 <= a <= b
  /\ b <= totalCount
  /\ b - a + 1 <= pageSize
  /\ (currentPage < ceil_div totalCount pageSize -> b - a + 1 = pageSize).
Proof.
  intros Hps Htc Hcp a b. unfold a, b, Pagination.startItem, Pagination.endItem.
  pose proof (ceil_div_bounds totalCount pageSize Hps) as Hb.
  replace (totalCount =? 0) with false by (symmetry; apply Z.eqb_neq; lia).
  assert (H1 : (currentPage - 1) * pageSize < totalCount) by nia.
  assert (H2 : 0 <= (currentPage - 1) * pageSize) by nia.
  assert (H3 : currentPage * pageSize = (currentPage - 1) * pageSize + pageSize) by ring.
  repeat split; try lia.
  intros Hlt. assert (currentPage * pageSize <= totalCount) by nia. lia.
Qed.

(** The pages the first loop keeps. *)
Lemma range_spec (currentPage totalPages i : Z) :
  In i (Pagination.range currentPage totalPages)
  <-> 1 <= i <= totalPages
      /\ (i = 1 \/ i = totalPages \/ currentPage - 2 <= i <= currentPage + 2).
Proof.
  unfold Pagination.range, Pagination.kept, Pagination.delta.
  rewrite filter_In, in_map_iff. split.
  - intros ((k & <- & Hk) & Hkept). apply in_seq in Hk. split; [lia |]. lia.
  - intros (Hi & Hc). split.
    + exists (Z.to_nat i). split; [lia | apply in_seq; lia].
    + lia.
Qed.

Lemma seq_sorted (a n : nat) : StronglySorted Z.lt (map Z.of_nat (seq a n)).
Proof.
  revert a. induction n as [| n IH]; intros a; simpl.
  - constructor.
  - constructor; [apply IH |].
    apply Forall_forall. intros x Hx. apply in_map_iff in Hx.
    destruct Hx as (k & <- & Hk). apply in_seq in Hk. lia.
Qed.

Lemma filter_sorted (f : Z -> bool) (l : list Z) :
  StronglySorted Z.lt l -> StronglySorted Z.lt (filter f l).
Proof.
  induction 1 as [| a l Hs IH Ha]; simpl.
  - constructor.
  - destruct (f a); [| exact IH].
    constructor; [exact IH |].
    apply Forall_forall. intros x Hx. apply filter_In in Hx.
    rewrite Forall_forall in Ha. apply Ha. apply Hx.
Qed.

Lemma range_sorted (currentPage totalPages : Z) :
  StronglySorted Z.lt (Pagination.range currentPage totalPages).
Proof. apply filter_sorted, seq_sorted. Qed.

(** The second pass, started after a page [l] below the rest. *)
Lemma rangeWithDots_spaced (rng : list Z) (l : Z) :
  1 <= l -> StronglySorted Z.lt (l :: rng) ->
  Pagination.spaced (Pagination.Page l :: Pagination.rangeWithDots (Some l) rng).
Proof.
  revert l. induction rng as [| i rest IH]; intros l Hl Hs; simpl.
  - constructor.
  - inversion Hs as [| x xs Hs' Hall]; subst.
    assert (Hli : l < i) by (rewrite Forall_forall in Hall; apply Hall; left; reflexivity).
    assert (IHi : Pagination.spaced
                    (Pagination.Page i :: Pagination.rangeWithDots (Some i) rest))
      by (apply IH; [lia | exact Hs']).
    unfold Pagination.filler, Pagination.truthy.
    replace (l =? 0) with false by (symmetry; apply Z.eqb_neq; lia). simpl.
    destruct (i - l =? 2) eqn:E2.
    + apply Z.eqb_eq in E2. simpl.
      apply Pagination.spaced_next; [reflexivity |].
      apply Pagination.spaced_next; [lia | exact IHi].
    + apply Z.eqb_neq in E2. destruct (i - l =? 1) eqn:E1; simpl.
      * apply Z.eqb_eq in E1. apply Pagination.spaced_next; [lia | exact IHi].
      * apply Z.eqb_neq in E1. apply Pagination.spaced_dots; [lia | exact IHi].
Qed.

(** X23. The page buttons are always well spaced, for every current page
    and every page count: two neighbouring numbers are consecutive pages, a
    gap of exactly one page is filled with its number, and dots stand only
    between two numbers that leave out at least two pages, never first,
    last or twice in a row. *)
Theorem page_numbers_well_spaced (currentPage totalPages : Z) :
  Pagination.spaced (Pagination.getPageNumbers currentPage totalPages).
Proof.
  unfold Pagination.getPageNumbers.
  pose proof (range_sorted currentPage totalPages) as Hs.
  assert (Hge : forall i, In i (Pagination.range currentPage totalPages) -> 1 <= i)
    by (intros i Hi; apply range_spec in Hi; lia).
  destruct (Pagination.range currentPage totalPages) as [| i rest]; simpl.
  - constructor.
  - apply rangeWithDots_spaced; [apply Hge; left; reflexivity | exact Hs].
Qed.

Lemma rangeWithDots_In (rng : list Z) (l : option Z) (i : Z) :
  In i rng -> In (Pagination.Page i) (Pagination.rangeWithDots l rng).
Proof.
  revert l. induction rng as [| a rest IH]; intros l Hin; simpl.
  - contradiction.
  - apply in_or_app. right. destruct Hin as [-> | Hin].
    + left. reflexivity.
    + right. apply IH. exact Hin.
Qed.

Lemma rangeWithDots_pages (rng : list Z) (l : option Z) (i : Z) :
  In (Pagination.Page i) (Pagination.rangeWithDots l rng) ->
  In i rng
  \/ exists a, (l = Some a \/ In a rng) /\ In (a + 2) rng /\ i = a + 1.
Proof.
  revert l. induction rng as [| b rest IH]; intros l Hin; simpl in Hin.
  - contradiction.
  - apply in_app_or in Hin. destruct Hin as [Hfill | [Heq | Hrest]].
    + right. unfold Pagination.filler in Hfill.
      destruct l as [a |]; [| contradiction].
      destruct (Pagination.truthy (Some a)); [| contradiction].
      destruct (b - a =? 2) eqn:E2.
      * apply Z.eqb_eq in E2. destruct Hfill as [[= <-] | []].
        exists a. split; [left; reflexivity |]. split; [| reflexivity].
        left. lia.
      * destruct (negb (b - a =? 1)); simpl in Hfill.
        -- destruct Hfill as [Hd | []]. discriminate Hd.
        -- contradiction.
    + injection Heq as <-. left. left. reflexivity.
    + destruct (IH (Some b) Hrest) as [Hin | (a & Ha & Ha2 & ->)].
      * left. right. exact Hin.
      * right. exists a. split; [| split; [right; exact Ha2 | reflexivity]].
        destruct Ha as [[= <-] | Ha]; right; [left; reflexivity | right; exact Ha].
Qed.

Lemma rangeWithDots_last (rng : list Z) (l : option Z) (x : Z) :
  exists pre, Pagination.rangeWithDots l (rng ++ [x]) = pre ++ [Pagination.Page x].
Proof.
  revert l. induction rng as [| a rest IH]; intros l; simpl.
  - exists (Pagination.filler l x). reflexivity.
  - destruct (IH (Some a)) as (pre & ->).
    exists (Pagination.filler l a ++ Pagination.Page a :: pre).
    rewrite <- app_assoc. reflexivity.
Qed.

Lemma range_ends (currentPage totalPages : Z) :
  1 <= totalPages ->
  (exists rest, Pagination.range currentPage totalPages = 1 :: rest)
  /\ (exists front, Pagination.range currentPage totalPages = front ++ [totalPages]).
Proof.
  intros Htp. unfold Pagination.range.
  destruct (Z.to_nat totalPages) as [| m] eqn:Em; [lia |]. split.
  - simpl. unfold Pagination.kept at 1. simpl. eexists. reflexivity.
  - assert (Hk : Pagination.kept currentPage totalPages totalPages = true)
      by (unfold Pagination.kept; rewrite Z.eqb_refl, orb_true_r; reflexivity).
    rewrite seq_S, map_app, filter_app.
    change (map Z.of_nat [(1 + m)%nat]) with [Z.of_nat (1 + m)].
    replace (Z.of_nat (1 + m)) with totalPages by lia.
    cbn [filter]. rewrite Hk. eexists. reflexivity.
Qed.

(** X24. With at least one page, the page buttons start with page 1 and
    end with the last page; every existing page within two of the current
    page has its button (the current page itself when it exists), and every
    number shown is an existing page.  With no page at all (a page count of
    0 or less) there is no button. *)
Theorem page_numbers_cover (currentPage totalPages : Z) :
  let buttons := Pagination.getPageNumbers currentPage totalPages in
  (1 <= totalPages ->
   (exists rest, buttons = Pagination.Page 1 :: rest)
   /\ (exists front, buttons = front ++ [Pagination.Page totalPages])
   /\ (forall i, 1 <= i <= totalPages -> currentPage - 2 <= i <= currentPage + 2 ->
                 In (Pagination.Page i) buttons))
  /\ (forall i, In (Pagination.Page i) buttons -> 1 <= i <= totalPages)
  /\ (totalPages <= 0 -> buttons = []).
Proof.
  intros buttons. unfold buttons, Pagination.getPageNumbers.
  split; [| split].
  - intros Htp. destruct (range_ends currentPage totalPages Htp)
      as ((rest & Hhead) & (front & Hlast)).
    split; [| split].
    + rewrite Hhead. simpl. eexists. reflexivity.
    + rewrite Hlast. apply rangeWithDots_last.
    + intros i Hi Hnear. apply rangeWithDots_In. apply range_spec.
      split; [exact Hi | right; right; exact Hnear].
  - intros i Hin. apply rangeWithDots_pages in Hin.
    destruct Hin as [Hin | (a & Ha & Ha2 & ->)].
    + apply range_spec in Hin. lia.
    + apply range_spec in Ha2. destruct Ha as [Hnone | Ha]; [discriminate |].
      apply range_spec in Ha. lia.
  - intros Htp. unfold Pagination.range.
    replace (Z.to_nat totalPages) with 0%nat by lia. reflexivity.
Qed.

(** X25. After a successful fetch of a list that is not empty, the
    Pagination component, given the hook's pagination record, announces a
    well-formed item range (first item at least 1, not after the last,
    last within the count) and shows the button of the current page. *)
Theorem fetch_then_pagination_line (o : Options.t) (svc : DataService) (w : World)
    (rows : list TaskWithUser) :
  0 < Options.pageSize o ->
  count_error (on_count svc (count_query o)) = None ->
  0 < or_zero (count (on_count svc (count_query o))) ->
  data_error (on_select svc (data_query o (served_page o svc))) = None ->
  data (on_select svc (data_query o (served_page o svc))) = Some rows ->
  let p := pagination (after (fetchTasks o svc) w) in
  let a := Pagination.startItem (PaginationInfo.currentPage p)
             (PaginationInfo.totalCount p) (PaginationInfo.pageSize p) in
  let b := Pagination.endItem (PaginationInfo.currentPage p)
             (PaginationInfo.totalCount p) (PaginationInfo.pageSize p) in
  1 <= a <= b
  /\ b <= PaginationInfo.totalCount p
  /\ In (Pagination.Page (PaginationInfo.currentPage p))
        (Pagination.getPageNumbers (PaginationInfo.currentPage p)
                                   (PaginationInfo.totalPages p)).
Proof.
  intros Hps Hc Hpos He Hd p a b. unfold a, b, p.
  rewrite (fetchTasks_success_state o svc w rows Hc He Hd). simpl.
  set (total := or_zero (count (on_count svc (count_query o)))) in *.
  pose proof (fetch_totalPages_max total (Options.pageSize o) Hps ltac:(lia)) as Htp.
  pose proof (ceil_div_bounds total (Options.pageSize o) Hps) as Hb.
  pose proof (ceil_div_pos total (Options.pageSize o) Hps Hpos) as Hc1.
  assert (Hs : 1 <= served_page o svc <= ceil_div total (Options.pageSize o)).
  { unfold served_page. fold total. unfold fetch_actualPage. rewrite Htp. lia. }
  unfold Pagination.startItem, Pagination.endItem.
  replace (total =? 0) with false by (symmetry; apply Z.eqb_neq; lia).
  assert (H1 : (served_page o svc - 1) * Options.pageSize o < total) by nia.
  assert (H2 : 0 <= (served_page o svc - 1) * Options.pageSize o) by nia.
  assert (H3 : served_page o svc * Options.pageSize o
               = (served_page o svc - 1) * Options.pageSize o + Options.pageSize o)
    by ring.
  split; [lia |]. split; [lia |].
  apply rangeWithDots_In, range_spec. rewrite Htp. lia.
Qed.

(** * The callers of the mutations *)

(** X26. The task form never sends a blank task: when the title or the
    description is empty after trimming, [handleSubmit] leaves the hook
    untouched (no request is sent), keeps what was typed and flags the
    field.  Otherwise it sends exactly one insert request carrying the
    typed task and ends with its loading flag down; the form is emptied
    when the service accepts the task and keeps the typed task, for a
    retry, when the service fails (the failure being surfaced by the hook);
    the cache is not touched either way. *)
Theorem task_form_submit (o : Options.t) (svc : DataService)
    (s : TaskForm.State) (w : World) :
  let typed := TaskForm.task s in
  let r := TaskForm.handleSubmit (addTask o svc) s w in
  (blank (ins_title typed) = true \/ blank (ins_description typed) = true ->
   snd r = w
   /\ TaskForm.task (fst r) = typed
   /\ TaskForm.no_error (TaskForm.errors (fst r)) = false)
  /\ (blank (ins_title typed) = false -> blank (ins_description typed) = false ->
      sent (snd r) = sent w ++ [InsertRow typed (Options.userId o)]
      /\ tasks (hook (snd r)) = tasks (hook w)
      /\ TaskForm.isLoading (fst r) = false
      /\ (on_mutation svc (InsertRow typed (Options.userId o)) = None ->
          TaskForm.task (fst r) = TaskForm.empty_task
          /\ error (hook (snd r)) = None)
      /\ (forall e, on_mutation svc (InsertRow typed (Options.userId o)) = Some e ->
          TaskForm.task (fst r) = typed
          /\ error (hook (snd r)) = Some (errorMessage e "Failed to add task"))).
Proof.
  intros typed r. unfold r, typed, TaskForm.handleSubmit, TaskForm.newErrors,
    TaskForm.no_error. simpl. split.
  - intros [Hb | Hb]; rewrite Hb; simpl.
    + repeat split.
    + destruct (blank (ins_title (TaskForm.task s))); repeat split.
  - intros Ht Hd. rewrite Ht, Hd. simpl.
    unfold addTask. run_hook.
    destruct (on_mutation svc (InsertRow (TaskForm.task s) (Options.userId o)))
      as [e |]; simpl.
    + split; [reflexivity |]. split; [reflexivity |]. split; [reflexivity |].
      split; [discriminate |]. intros e' [= <-]. split; reflexivity.
    + split; [reflexivity |]. split; [reflexivity |]. split; [reflexivity |].
      split; [intros _; split; reflexivity | discriminate].
Qed.

Lemma find_present (n : Z) (l : list TaskWithUser) (t : TaskWithUser) :
  In t l -> id t = Some n -> exists first, find (has_id n) l = Some first.
Proof.
  intros Hin Hid. destruct (find (has_id n) l) as [first |] eqn:E.
  - exists first. reflexivity.
  - exfalso. exact (proj1 (find_has_id_none n l) E t Hin Hid).
Qed.

Lemma unique_by_id (l : list TaskWithUser) (t t' : TaskWithUser) :
  NoDup (map id l) -> In t l -> In t' l -> id t = id t' -> t = t'.
Proof.
  induction l as [| a l IH]; simpl; intros Hnd Ht Ht' Hid.
  - contradiction.
  - inversion Hnd as [| x xs Hnotin Hnd']; subst.
    destruct Ht as [<- | Ht], Ht' as [<- | Ht'].
    + reflexivity.
    + exfalso. apply Hnotin. rewrite Hid. apply in_map. exact Ht'.
    + exfalso. apply Hnotin. rewrite <- Hid. apply in_map. exact Ht.
    + apply IH; assumption.
Qed.

(** X27. Saving the edit of a displayed task never meets "Task not
    found".  With a blank title or description [handleSave] does nothing
    at all.  Otherwise, for a task of the cache with a non-null id, it sends
    exactly the update request for that id with the edited fields and ends
    with its loading flag down; the item leaves editing mode when the
    service accepts, and stays as it was, with the failure surfaced by the
    hook and the ids of the cache unchanged, when the service fails. *)
Theorem item_save_reaches_update (svc : DataService) (task : TaskWithUser) (n : Z)
    (s : TaskItem.State) (w : World) :
  In task (tasks (hook w)) ->
  id task = Some n ->
  let form := TaskItem.editForm s in
  let r := TaskItem.handleSave (updateTask svc (tasks (hook w))) task s w in
  (blank_opt (upd_title form) = true \/ blank_opt (upd_description form) = true ->
   r = (s, w))
  /\ (blank_opt (upd_title form) = false -> blank_opt (upd_description form) = false ->
      sent (snd r) = sent w ++ [UpdateRow n form]
      /\ TaskItem.isLoading (fst r) = false
      /\ (on_mutation svc (UpdateRow n form) = None ->
          TaskItem.isEditing (fst r) = false /\ error (hook (snd r)) = None)
      /\ (forall e, on_mutation svc (UpdateRow n form) = Some e ->
          TaskItem.isEditing (fst r) = TaskItem.isEditing s
          /\ error (hook (snd r)) = Some (errorMessage e "Failed to update task"))).
Proof.
  intros Hin Hid form r. unfold r, form, TaskItem.handleSave. split.
  - intros [Hb | Hb]; rewrite Hb; [reflexivity | rewrite orb_true_r; reflexivity].
  - intros Ht Hd. rewrite Ht, Hd, Hid. simpl.
    destruct (find_present n (tasks (hook w)) task Hin Hid) as (first & Hfind).
    unfold updateTask. run_hook. rewrite Hfind. simpl.
    destruct (on_mutation svc (UpdateRow n (TaskItem.editForm s))) as [e |]; simpl.
    + split; [reflexivity |]. split; [reflexivity |].
      split; [discriminate |]. intros e' [= <-]. split; reflexivity.
    + split; [reflexivity |]. split; [reflexivity |].
      split; [intros _; split; reflexivity | discriminate].
Qed.

(** X28. Clicking the check box of a displayed task (distinct ids, a
    boolean [isCompleted]) sends the update that flips the value the cache
    holds; when the service accepts, the entry of the cache is the task
    with the flipped value, and when it fails the cache is exactly what it
    was before the click. *)
Theorem item_toggle_click (svc : DataService) (task : TaskWithUser) (n : Z)
    (b : bool) (w : World) :
  NoDup (map id (tasks (hook w))) ->
  In task (tasks (hook w)) ->
  id task = Some n ->
  isCompleted task = Some b ->
  let w' := TaskItem.clickToggle (toggleTask svc) task w in
  sent w' = sent w ++ [UpdateRow n (only_isCompleted (negb b))]
  /\ (on_mutation svc (UpdateRow n (only_isCompleted (negb b))) = None ->
      find (has_id n) (tasks (hook w')) = Some (with_isCompleted task (negb b)))
  /\ (forall e, on_mutation svc (UpdateRow n (only_isCompleted (negb b))) = Some e ->
      tasks (hook w') = tasks (hook w)).
Proof.
  intros Hnd Hin Hid Hb w'. unfold w', TaskItem.clickToggle. rewrite Hid, Hb.
  replace (is_true (Some b)) with b by (destruct b; reflexivity).
  assert (Hfind : find (has_id n) (tasks (hook w)) = Some task).
  { destruct (find_present n _ task Hin Hid) as (first & Hf). rewrite Hf. f_equal.
    destruct (find_has_id _ _ _ Hf) as [Hfin Hfid].
    apply (unique_by_id (tasks (hook w))); [assumption .. | congruence]. }
  unfold toggleTask. run_hook.
  destruct (on_mutation svc (UpdateRow n (only_isCompleted (negb b)))) as [e |]; simpl.
  - split; [reflexivity |]. split; [discriminate |]. intros e' _.
    rewrite toggle_back_after_flip. apply restore_isCompleted.
    intros t Ht Htid. rewrite <- Hb. f_equal.
    apply (unique_by_id (tasks (hook w))); [assumption .. | congruence].
  - split; [reflexivity |]. split; [| discriminate]. intros _.
    apply (find_patched n (fun t => with_isCompleted t (negb b)));
      [intros t; apply has_id_with_isCompleted | exact Hfind].
Qed.

(** X29. Deleting from the item of a displayed task (distinct ids): when
    the confirmation is refused nothing happens; when it is given, exactly
    the delete request for the id is sent; if the service accepts, the task
    is gone from the cache and the item stays marked as being deleted; if
    it fails, the mark is taken back and the task is in the cache again. *)
Theorem item_delete_click (svc : DataService) (task : TaskWithUser) (n : Z)
    (s : TaskItem.State) (w : World) :
  NoDup (map id (tasks (hook w))) ->
  In task (tasks (hook w)) ->
  id task = Some n ->
  let r := TaskItem.handleDelete (deleteTask svc (tasks (hook w))) task in
  r false s w = (s, w)
  /\ sent (snd (r true s w)) = sent w ++ [DeleteRow n]
  /\ (on_mutation svc (DeleteRow n) = None ->
      TaskItem.isDeleting (fst (r true s w)) = true
      /\ ~ In task (tasks (hook (snd (r true s w)))))
  /\ (forall e, on_mutation svc (DeleteRow n) = Some e ->
      TaskItem.isDeleting (fst (r true s w)) = false
      /\ In task (tasks (hook (snd (r true s w))))).
Proof.
  intros Hnd Hin Hid r. unfold r, TaskItem.handleDelete. simpl. rewrite Hid.
  assert (Hfind : find (has_id n) (tasks (hook w)) = Some task).
  { destruct (find_present n _ task Hin Hid) as (first & Hf). rewrite Hf. f_equal.
    destruct (find_has_id _ _ _ Hf) as [Hfin Hfid].
    apply (unique_by_id (tasks (hook w))); [assumption .. | congruence]. }
  split; [reflexivity |].
  unfold deleteTask. run_hook. rewrite Hfind. simpl.
  destruct (on_mutation svc (DeleteRow n)) as [e |]; simpl.
  - split; [reflexivity |]. split; [discriminate |]. intros e' _.
    split; [reflexivity |]. apply in_or_app. right. left. reflexivity.
  - split; [reflexivity |]. split; [| discriminate]. intros _.
    split; [reflexivity |]. intros Hstill. apply filter_out_id_spec in Hstill.
    destruct Hstill as [_ Hne]. contradiction.
Qed.

(** * Distinct ids *)

Lemma filter_ids_distinct (f : TaskWithUser -> bool) (l : list TaskWithUser) :
  NoDup (map id l) -> NoDup (map id (filter f l)).
Proof.
  induction l as [| a l IH]; simpl; intros Hnd.
  - constructor.
  - inversion Hnd as [| x xs Hnotin Hnd']; subst.
    destruct (f a); [| apply IH; exact Hnd'].
    simpl. constructor; [| apply IH; exact Hnd'].
    intros Hin. apply Hnotin. apply in_map_iff in Hin.
    destruct Hin as (t & Hid & Ht). apply filter_In in Ht.
    rewrite <- Hid. apply in_map. apply Ht.
Qed.

Lemma slice_distinct (A : Type) (l : list A) (start end_ : Z) :
  NoDup l -> NoDup (slice l start end_).
Proof.
  intros Hnd. unfold slice.
  set (k := Z.to_nat _). set (j := Z.to_nat _).
  assert (Hskip : NoDup (skipn j l)).
  { rewrite <- (firstn_skipn j l) in Hnd. exact (NoDup_app_remove_l _ _ Hnd). }
  rewrite <- (firstn_skipn k (skipn j l)) in Hskip.
  exact (NoDup_app_remove_r _ _ Hskip).
Qed.

Lemma slice_ids_distinct (l : list TaskWithUser) (start end_ : Z) :
  NoDup (map id l) -> NoDup (map id (slice l start end_)).
Proof.
  intros Hnd. unfold slice. rewrite <- firstn_map, <- skipn_map.
  pose proof (slice_distinct _ (map id l) start end_ Hnd) as H.
  unfold slice in H. rewrite length_map in H. exact H.
Qed.

Lemma insert_into_ids_distinct (o : Options.t) (newTask : TaskWithUser)
    (prevTasks : list TaskWithUser) :
  id_truthy (id newTask) = true ->
  NoDup (map id prevTasks) ->
  NoDup (map id (insert_into o newTask prevTasks)).
Proof.
  intros Htruthy Hnd. unfold insert_into. rewrite Htruthy. simpl.
  destruct (existsb (fun task => id_eq (id task) (id newTask)) prevTasks) eqn:E;
    [exact Hnd |].
  apply existsb_same_id_false in E. apply slice_ids_distinct.
  destruct (is_newest (Options.sortOrder o)).
  - simpl. constructor; assumption.
  - rewrite map_app. simpl. apply NoDup_app.
    + exact Hnd.
    + constructor; [intros [] | constructor].
    + intros i Hi [<- | []]. contradiction.
Qed.

(** X30. The operations of the hook keep the ids of the cache distinct.
    From a cache without two entries of the same id, the cache after
    [updateTask], [toggleTask], [deleteTask] (accepted, or failed and rolled
    back) and after a delete notification has distinct ids again; so has the
    cache after an update or insert notification, provided the row the
    service returns for the notified id carries that id (non-zero for the
    insert, whose presence test skips a zero id). *)
Theorem ids_stay_distinct (o : Options.t) (svc : DataService) (w : World) (n : Z)
    (updates : TaskUpdate) (c : bool) :
  NoDup (map id (tasks (hook w))) ->
  NoDup (map id (tasks (after (updateTask svc (tasks (hook w)) n updates) w)))
  /\ NoDup (map id (tasks (after (toggleTask svc n c) w)))
  /\ NoDup (map id (tasks (after (deleteTask svc (tasks (hook w)) n) w)))
  /\ NoDup (map id (tasks (after (handleRealtimeDelete n) w)))
  /\ ((forall row, on_single svc (SelectById n) = Some row -> id row = Some n) ->
      NoDup (map id (tasks (after (handleRealtimeUpdate o svc n) w))))
  /\ ((forall row, on_single svc (SelectById n) = Some row -> id row = Some n) ->
      n <> 0 ->
      NoDup (map id (tasks (after (handleRealtimeInsert o svc n) w)))).
Proof.
  intros Hnd. split; [| split; [| split; [| split; [| split]]]].
  - unfold updateTask. run_hook.
    destruct (find (has_id n) (tasks (hook w))) as [orig |] eqn:Hfind; simpl;
      [| exact Hnd].
    destruct (find_has_id _ _ _ Hfind) as [_ Hid].
    destruct (on_mutation svc (UpdateRow n updates)); simpl.
    + rewrite rollback_after_patch, map_id_replace; [exact Hnd |].
      intros t _ Ht. apply has_id_true in Ht. congruence.
    + rewrite map_id_replace; [exact Hnd | intros t _ _; reflexivity].
  - unfold toggleTask. run_hook.
    destruct (on_mutation svc _); simpl.
    + rewrite toggle_back_after_flip, map_id_replace;
        [exact Hnd | intros t _ _; reflexivity].
    + rewrite map_id_replace; [exact Hnd | intros t _ _; reflexivity].
  - unfold deleteTask. run_hook.
    destruct (find (has_id n) (tasks (hook w))) as [victim |] eqn:Hfind; simpl;
      [| exact Hnd].
    destruct (find_has_id _ _ _ Hfind) as [_ Hid].
    destruct (on_mutation svc (DeleteRow n)); simpl.
    + rewrite map_app. simpl. apply NoDup_app.
      * apply filter_ids_distinct. exact Hnd.
      * constructor; [intros [] | constructor].
      * intros i Hi [<- | []]. apply in_map_iff in Hi.
        destruct Hi as (t & Ht & Hin). apply filter_out_id_spec in Hin.
        destruct Hin as [_ Hne]. congruence.
    + apply filter_ids_distinct. exact Hnd.
  - unfold handleRealtimeDelete. run_hook. apply filter_ids_distinct. exact Hnd.
  - intros Hrow. unfold handleRealtimeUpdate. run_hook.
    destruct (on_single svc (SelectById n)) as [row |] eqn:Hs; [| exact Hnd].
    specialize (Hrow row eq_refl).
    match goal with
    | |- context [if ?b then _ else _] => destruct b
    end; simpl.
    + apply filter_ids_distinct. exact Hnd.
    + rewrite map_id_replace; [exact Hnd |].
      intros t _ Ht. apply has_id_true in Ht. congruence.
  - intros Hrow Hnz.
    destruct (handleRealtimeInsert_tasks o svc w n) as [-> | (row & Hs & ->)];
      [exact Hnd |].
    apply insert_into_ids_distinct; [| exact Hnd].
    rewrite (Hrow row Hs). simpl. apply negb_true_iff, Z.eqb_neq. exact Hnz.
Qed.

End Properties.

(** * Examples, witnesses and counterexamples *)

#[local] Existing Instance sample_runtime.

Example trim_strips_both_ends : JsString.trim "  fix bug  " = "fix bug".
Proof. reflexivity. Qed.

Example blank_term_is_falsy : JsString.truthy (JsString.trim "   ") = false.
Proof. reflexivity. Qed.

Example search_ignores_case : matchesSearch "BUG" T4 = true.
Proof. reflexivity. Qed.

Example search_misses : matchesSearch "bug" T6 = false.
Proof. reflexivity. Qed.

(** Text outside ASCII: a no-break space (U+00A0) and an em space (U+2003)
    are trimmed, and the title "CAFÉ" contains the term "é". *)
Example trim_strips_no_break_space : JsString.trim " bug " = "bug".
Proof. reflexivity. Qed.

Example no_break_spaces_are_blank : blank "  " = true.
Proof. reflexivity. Qed.

Example search_folds_accented_letters :
  matchesSearch "é" (sample_task 7 "CAFÉ" false) = true.
Proof. reflexivity. Qed.

(** Under the "active" filter the update handler removes a completed row
    and replaces a row whose [isCompleted] is null. *)
Example update_removes_completed_under_active :
  shouldRemove active_options (sample_task 4 "Fix login bug" true) = true.
Proof. reflexivity. Qed.

Example update_keeps_null_under_active : shouldRemove active_options N6 = false.
Proof. reflexivity. Qed.


(** A failing count query leaves the sample cache as it was. *)
Lemma fetch_failure_keeps_cache_witness :
  tasks (after (fetchTasks (sample_options "bug" 1) (failing_service plain_failure))
               sample_world) = [T5; T4; T3]
  /\ pagination (after (fetchTasks (sample_options "bug" 1) (failing_service plain_failure))
                       sample_world) = sample_pagination
  /\ error (after (fetchTasks (sample_options "bug" 1) (failing_service plain_failure))
                  sample_world) = Some "Failed to fetch tasks".
Proof.
  destruct (@fetch_failure_keeps_cache (sample_options "bug" 1)
              (failing_service plain_failure) sample_world plain_failure)
    as (Ht & Hp & He & _ & _).
  - left. reflexivity.
  - rewrite Ht, Hp, He. repeat split.
Defined.

(** [update (4, {title: "X"})] against a failing service restores the cache. *)
Lemma update_rollback_restores_snapshot_witness :
  tasks (after (updateTask (sample_service [] None (Some plain_failure))
                  [T5; T4; T3] 4
                  {| upd_title := Some "X"; upd_description := None;
                     upd_isCompleted := None; upd_createdBy := None |})
               sample_world)
  = [T5; T4; T3].
Proof.
  destruct (@update_rollback_restores_snapshot
              (sample_service [] None (Some plain_failure)) sample_world 4
              {| upd_title := Some "X"; upd_description := None;
                 upd_isCompleted := None; upd_createdBy := None |}
              T4 plain_failure)
    as (_ & _ & _ & _ & _ & Hall).
  - reflexivity.
  - reflexivity.
  - apply Hall. simpl.
    repeat (constructor; [simpl; intuition discriminate |]). constructor.
Defined.

(** C5, as stated, fails for [toggleTask]: for the id 9, absent from the
    sample cache, the toggle sends its update request and returns normally. *)
Lemma toggle_absent_id_reaches_service :
  find (has_id 9) (tasks (hook sample_world)) = None
  /\ requests (toggleTask (sample_service [] None None) 9 false) sample_world
     = [UpdateRow 9 (only_isCompleted true)]
  /\ outcome (toggleTask (sample_service [] None None) 9 false) sample_world
     = Returned tt
  /\ ~ rejected_locally (toggleTask (sample_service [] None None) 9 false) sample_world.
Proof.
  repeat split.
  intros (H & _). discriminate H.
Qed.

(** Update and delete of the absent id 9 are rejected locally. *)
Lemma absent_id_update_delete_rejected_witness :
  rejected_locally
    (updateTask (sample_service [] None None) [T5; T4; T3] 9 (only_isCompleted true))
    sample_world
  /\ rejected_locally (deleteTask (sample_service [] None None) [T5; T4; T3] 9)
       sample_world.
Proof.
  destruct (@absent_id_update_delete_rejected (sample_service [] None None)
              sample_world 9 (only_isCompleted true) false)
    as (Hu & Hd & _).
  - reflexivity.
  - split; assumption.
Defined.

(** C7, as stated, fails on the message: when the service's failure is an
    [Error], the surfaced text is that error's message. *)
Lemma delete_failure_surfaces_Error_message :
  find (has_id 4) (tasks (hook sample_world)) = Some T4
  /\ on_mutation (sample_service [] None (Some (new_Error "network down"))) (DeleteRow 4)
     = Some (new_Error "network down")
  /\ error (after (deleteTask (sample_service [] None (Some (new_Error "network down")))
                     [T5; T4; T3] 4) sample_world)
     = Some "network down"
  /\ error (after (deleteTask (sample_service [] None (Some (new_Error "network down")))
                     [T5; T4; T3] 4) sample_world)
     <> Some "Failed to delete task".
Proof.
  repeat split. discriminate.
Qed.

(** The scenario of the specification: [delete (4)] fails with a plain
    error object; task 4 is back, at the tail, and the count is still 5. *)
Lemma delete_rollback_reinserts_witness :
  tasks (after (deleteTask (sample_service [] None (Some plain_failure)) [T5; T4; T3] 4)
               sample_world) = [T5; T3; T4]
  /\ PaginationInfo.totalCount
       (pagination (after (deleteTask (sample_service [] None (Some plain_failure))
                             [T5; T4; T3] 4) sample_world)) = 5
  /\ error (after (deleteTask (sample_service [] None (Some plain_failure)) [T5; T4; T3] 4)
                  sample_world) = Some "Failed to delete task".
Proof.
  destruct (@delete_rollback_reinserts (sample_service [] None (Some plain_failure))
              sample_world 4 T4 plain_failure)
    as (Ht & _ & Hp & _ & He & _).
  - reflexivity.
  - reflexivity.
  - split; [| split].
    + exact (eq_trans Ht eq_refl).
    + exact (f_equal PaginationInfo.totalCount Hp).
    + apply He. reflexivity.
Defined.

(** Task 4 is not completed in the cache.  Toggling it from [false] with
    success completes it; toggling it from [true] against a failing service
    rolls it back to [true], the value passed in. *)
Lemma toggle_flips_and_rolls_back_witness :
  tasks (after (toggleTask (sample_service [] None None) 4 false) sample_world)
  = [T5; sample_task 4 "Fix login bug" true; T3]
  /\ tasks (after (toggleTask (sample_service [] None (Some plain_failure)) 4 true)
                  sample_world)
     = [T5; sample_task 4 "Fix login bug" true; T3].
Proof.
  split.
  - destruct (@toggle_flips_and_rolls_back (sample_service [] None None)
                sample_world 4 false) as (_ & Hok & _).
    destruct Hok as (Ht & _); [reflexivity |]. rewrite Ht. reflexivity.
  - destruct (@toggle_flips_and_rolls_back (sample_service [] None (Some plain_failure))
                sample_world 4 true) as (_ & _ & Hfail).
    destruct (Hfail plain_failure) as (_ & Ht & _); [reflexivity |].
    rewrite Ht. reflexivity.
Defined.

(** The two scenarios of the specification: the notification for T6 on
    the cache [T5, T4, T3], and the row "Release notes" under the search
    term "bug". *)
Lemma insert_notification_scenarios :
  (tasks (after (handleRealtimeInsert (sample_options "" 1)
                   (sample_service [] (Some T6) None) 6) sample_world)
   = [T6; T5; T4]
   /\ PaginationInfo.totalCount
        (pagination (after (handleRealtimeInsert (sample_options "" 1)
                              (sample_service [] (Some T6) None) 6) sample_world)) = 6
   /\ PaginationInfo.totalPages
        (pagination (after (handleRealtimeInsert (sample_options "" 1)
                              (sample_service [] (Some T6) None) 6) sample_world)) = 2)
  /\ after (handleRealtimeInsert (sample_options "bug" 1)
              (sample_service [] (Some T6) None) 6) sample_world
     = sample_state.
Proof.
  split.
  - destruct (insert_notification_merges (sample_options "" 1)
                (sample_service [] (Some T6) None) sample_world 6 T6)
      as (_ & Hpass).
    + reflexivity.
    + destruct Hpass as (Ht & Hc & Hp).
      * split; [exact I | left; reflexivity].
      * simpl. intuition discriminate.
      * reflexivity.
      * split; [exact (eq_trans Ht eq_refl) | split].
        -- exact (eq_trans Hc eq_refl).
        -- exact (eq_trans Hp eq_refl).
  - destruct (insert_notification_merges (sample_options "bug" 1)
                (sample_service [] (Some T6) None) sample_world 6 T6)
      as (Hfail & _).
    + reflexivity.
    + apply Hfail.
      * intros [_ Hs]. apply search_holds_spec in Hs. vm_compute in Hs.
        discriminate Hs.
      * intros [Hf _]. discriminate Hf.
Qed.


(** A second notification for task 4 leaves it once in the cache. *)
Lemma insert_present_id_not_duplicated_example :
  occurrences (Some 4)
    (tasks (after (handleRealtimeInsert (sample_options "" 1)
                     (sample_service [] (Some T4) None) 4) sample_world))
  = 1%nat.
Proof.
  destruct (insert_present_id_not_duplicated (sample_options "" 1)
              (sample_service [] (Some T4) None) sample_world 4 T4)
    as (_ & _ & Honce).
  - reflexivity.
  - reflexivity.
  - simpl. right. left. reflexivity.
  - apply Honce. simpl.
    repeat (constructor; [simpl; intuition discriminate |]). constructor.
Qed.

(** A notification for task 3, already cached: same list, count 6. *)
Lemma insert_duplicate_inflates_count_example :
  tasks (after (handleRealtimeInsert (sample_options "" 1)
                  (sample_service [] (Some T3) None) 3) sample_world)
  = [T5; T4; T3]
  /\ PaginationInfo.totalCount
       (pagination (after (handleRealtimeInsert (sample_options "" 1)
                             (sample_service [] (Some T3) None) 3) sample_world)) = 6
  /\ PaginationInfo.totalPages
       (pagination (after (handleRealtimeInsert (sample_options "" 1)
                             (sample_service [] (Some T3) None) 3) sample_world)) = 2.
Proof.
  destruct (insert_duplicate_inflates_count (sample_options "" 1)
              (sample_service [] (Some T3) None) sample_world 3 T3)
    as (Ht & Hc & Hp).
  - reflexivity.
  - split; [exact I | left; reflexivity].
  - reflexivity.
  - simpl. right. right. left. reflexivity.
  - reflexivity.
  - split; [exact (eq_trans Ht eq_refl) | split].
    + exact (eq_trans Hc eq_refl).
    + exact (eq_trans Hp eq_refl).
Qed.

(** The task 0 is alone in the cache, on a page of three; the notification
    for the id 0 brings its row again: the list becomes [T0, T0]. *)
Lemma insert_falsy_id_adds_duplicate_witness :
  occurrences (Some 0) (tasks (hook zero_world)) = 1%nat
  /\ tasks (after (handleRealtimeInsert (sample_options "" 1)
                     (sample_service [] (Some T0) None) 0) zero_world)
     = [T0; T0]
  /\ occurrences (Some 0)
       (tasks (after (handleRealtimeInsert (sample_options "" 1)
                        (sample_service [] (Some T0) None) 0) zero_world))
     = 2%nat.
Proof.
  destruct (insert_falsy_id_adds_duplicate (sample_options "" 1)
              (sample_service [] (Some T0) None) zero_world 0 T0)
    as (Ht & Hocc & _).
  - reflexivity.
  - reflexivity.
  - split; [exact I | left; reflexivity].
  - left. reflexivity.
  - reflexivity.
  - simpl. lia.
  - split; [reflexivity | split].
    + exact (eq_trans Ht eq_refl).
    + exact (eq_trans Hocc eq_refl).
Defined.

(** The same notification: the list is not the list before, and the count
    goes from 1 to 2. *)
Lemma insert_falsy_id_changes_list_witness :
  tasks (after (handleRealtimeInsert (sample_options "" 1)
                  (sample_service [] (Some T0) None) 0) zero_world)
  <> [T0]
  /\ List.length
       (tasks (after (handleRealtimeInsert (sample_options "" 1)
                        (sample_service [] (Some T0) None) 0) zero_world)) = 2%nat
  /\ PaginationInfo.totalCount
       (pagination (after (handleRealtimeInsert (sample_options "" 1)
                             (sample_service [] (Some T0) None) 0) zero_world)) = 2.
Proof.
  destruct (insert_falsy_id_changes_list (sample_options "" 1)
              (sample_service [] (Some T0) None) zero_world 0 T0)
    as (Hne & Hlen & Hc & _).
  - reflexivity.
  - reflexivity.
  - split; [exact I | left; reflexivity].
  - left. reflexivity.
  - reflexivity.
  - simpl. lia.
  - reflexivity.
  - split; [exact Hne | split].
    + exact (eq_trans Hlen eq_refl).
    + exact (eq_trans Hc eq_refl).
Defined.

(** The last task is deleted elsewhere: the page count drops to 0. *)
Lemma delete_notification_zero_pages_witness :
  PaginationInfo.totalPages
    (pagination (after (handleRealtimeDelete 3) last_task_world)) = 0
  /\ tasks (after (handleRealtimeDelete 3) last_task_world) = [].
Proof.
  destruct (delete_notification_zero_pages last_task_world 3) as (_ & Hp & _).
  - reflexivity.
  - simpl. lia.
  - split; [exact Hp | reflexivity].
Defined.

(** The scenario of the specification for the update notification: under
    the filter [active], task 3 has been completed elsewhere; the
    notification removes it from the cache and decrements the count. *)
Example update_notification_removes_completed :
  let o := {| Options.userId := None; Options.searchTerm := "";
              Options.sortOrder := newest; Options.completionFilter := active;
              Options.page := 1; Options.pageSize := 3 |} in
  let run := handleRealtimeUpdate o
               (sample_service [] (Some (sample_task 3 "Write tests" true)) None) 3 in
  tasks (after run sample_world) = [T5; T4]
  /\ PaginationInfo.totalCount (pagination (after run sample_world)) = 4
  /\ PaginationInfo.totalPages (pagination (after run sample_world)) = 2.
Proof. repeat split. Qed.

(** Page 7 of five tasks: page 2 of 2 is current, with a previous page and
    no next one. *)
Lemma fetch_success_page_in_range_witness :
  PaginationInfo.currentPage
    (pagination (after (fetchTasks (sample_options "" 7)
                          (sample_service [T4; T3] None None)) sample_world)) <= 7
  /\ (PaginationInfo.hasPrevPage
        (pagination (after (fetchTasks (sample_options "" 7)
                              (sample_service [T4; T3] None None)) sample_world)) = true
      <-> 1 < PaginationInfo.currentPage
                (pagination (after (fetchTasks (sample_options "" 7)
                                      (sample_service [T4; T3] None None)) sample_world))).
Proof.
  destruct (fetch_success_page_in_range (sample_options "" 7)
              (sample_service [T4; T3] None None) sample_world [T4; T3])
    as (_ & Hle & Hprev & _).
  - reflexivity.
  - reflexivity.
  - discriminate.
  - reflexivity.
  - reflexivity.
  - split; [apply Hle; discriminate | exact Hprev].
Defined.

(** Page 7 of five tasks, three a page: the window starts at row 3. *)
Lemma fetch_window_starts_inside_witness :
  0 <= (served_page (sample_options "" 7) (sample_service [] None None) - 1) * 3 < 5.
Proof.
  destruct (fetch_window_starts_inside (sample_options "" 7)
              (sample_service [] None None) sample_world) as (_ & Hin & _).
  - reflexivity.
  - reflexivity.
  - discriminate.
  - apply Hin. reflexivity.
Defined.

(** A failing count query is the only request of its fetch. *)
Lemma fetch_never_throws_witness :
  requests (fetchTasks (sample_options "bug" 1) (failing_service plain_failure))
           sample_world
  = [CountQuery None (Some "title.ilike.%bug%,description.ilike.%bug%")].
Proof.
  destruct (fetch_never_throws (sample_options "bug" 1)
              (failing_service plain_failure) sample_world) as (_ & _ & Hone & _).
  apply Hone. discriminate.
Defined.

Lemma fetch_null_data_keeps_cache_witness :
  tasks (after (fetchTasks (sample_options "" 1) null_data_service) sample_world)
  = [T5; T4; T3].
Proof.
  destruct (fetch_null_data_keeps_cache (sample_options "" 1) null_data_service
              sample_world) as (Ht & _).
  - reflexivity.
  - reflexivity.
  - reflexivity.
  - exact Ht.
Defined.

(** A rejected insert leaves the sample cache alone and is surfaced. *)
Lemma addTask_leaves_cache_witness :
  error (after (addTask (sample_options "" 1)
                  (sample_service [] None (Some plain_failure))
                  {| ins_title := "New"; ins_description := "d";
                     ins_isCompleted := Some false |}) sample_world)
  = Some "Failed to add task".
Proof.
  destruct (addTask_leaves_cache (sample_options "" 1)
              (sample_service [] None (Some plain_failure)) sample_world
              {| ins_title := "New"; ins_description := "d";
                 ins_isCompleted := Some false |}) as (_ & _ & _ & _ & _ & Hfail).
  destruct (Hfail plain_failure eq_refl) as (_ & He). exact He.
Defined.

(** Retitling task 4 with success. *)
Lemma update_success_applies_patch_witness :
  find (has_id 4)
    (tasks (after (updateTask (sample_service [] None None) [T5; T4; T3] 4
                     {| upd_title := Some "X"; upd_description := None;
                        upd_isCompleted := None; upd_createdBy := None |})
                  sample_world))
  = Some (sample_task 4 "X" false).
Proof.
  destruct (update_success_applies_patch (sample_service [] None None) sample_world 4
              {| upd_title := Some "X"; upd_description := None;
                 upd_isCompleted := None; upd_createdBy := None |} T4)
    as (_ & _ & Hfound & _).
  - reflexivity.
  - reflexivity.
  - exact (eq_trans Hfound eq_refl).
Defined.

(** Deleting task 4 from the sample cache, then its notification. *)
Lemma delete_success_then_notification_witness :
  tasks (after (deleteTask (sample_service [] None None) [T5; T4; T3] 4 ;;
                handleRealtimeDelete 4) sample_world) = [T5; T3]
  /\ PaginationInfo.totalCount
       (pagination (after (deleteTask (sample_service [] None None) [T5; T4; T3] 4 ;;
                           handleRealtimeDelete 4) sample_world)) = 4.
Proof.
  destruct (delete_success_then_notification (sample_service [] None None)
              sample_world 4 T4) as (_ & Hrun & _ & _ & Hboth & Hcount).
  - reflexivity.
  - reflexivity.
  - split.
    + exact (eq_trans Hboth (eq_trans Hrun eq_refl)).
    + exact (eq_trans Hcount eq_refl).
Defined.

Lemma delete_rollback_permutes_witness :
  Permutation [T5; T4; T3]
    (tasks (after (deleteTask (sample_service [] None (Some plain_failure))
                     [T5; T4; T3] 4) sample_world)).
Proof.
  destruct (delete_rollback_permutes (sample_service [] None (Some plain_failure))
              sample_world 4 T4 plain_failure) as (_ & Hperm & _).
  - simpl. repeat (constructor; [simpl; intuition discriminate |]). constructor.
  - reflexivity.
  - reflexivity.
  - exact Hperm.
Defined.

Lemma toggle_round_trips_witness :
  tasks (after (toggleTask (sample_service [] None None) 4 false ;;
                toggleTask (sample_service [] None None) 4 true) sample_world)
  = [T5; T4; T3].
Proof.
  destruct (toggle_round_trips (sample_service [] None None) sample_world 4 false)
    as (_ & Htwice).
  - intros t [<- | [<- | [<- | []]]]; try discriminate. reflexivity.
  - destruct Htwice as (Ht & _); [reflexivity | reflexivity |]. exact Ht.
Defined.

(** Task 4 was retitled elsewhere. *)
Lemma update_notification_replaces_in_place_witness :
  tasks (after (handleRealtimeUpdate (sample_options "" 1)
                  (sample_service [] (Some (sample_task 4 "Fixed" false)) None) 4)
               sample_world)
  = [T5; sample_task 4 "Fixed" false; T3].
Proof.
  destruct (update_notification_replaces_in_place (sample_options "" 1)
              (sample_service [] (Some (sample_task 4 "Fixed" false)) None)
              sample_world 4 (sample_task 4 "Fixed" false)) as (Ht & _).
  - reflexivity.
  - discriminate.
  - reflexivity.
  - exact (eq_trans Ht eq_refl).
Defined.

(** Under the search term "bug", task 9 (not displayed) was retitled
    "Release notes": the list stays, the count drops from 5 to 4. *)
Lemma update_notification_removes_filtered_out_witness :
  tasks (after (handleRealtimeUpdate (sample_options "bug" 1)
                  (sample_service [] (Some (sample_task 9 "Release notes" false)) None) 9)
               sample_world) = [T5; T4; T3]
  /\ PaginationInfo.totalCount
       (pagination (after (handleRealtimeUpdate (sample_options "bug" 1)
                             (sample_service [] (Some (sample_task 9 "Release notes" false))
                                None) 9) sample_world)) = 4.
Proof.
  destruct (update_notification_removes_filtered_out (sample_options "bug" 1)
              (sample_service [] (Some (sample_task 9 "Release notes" false)) None)
              sample_world 9 (sample_task 9 "Release notes" false))
    as (_ & _ & _ & Hone & _ & Habs).
  - reflexivity.
  - right; right. split.
    + vm_compute. discriminate.
    + intros Hhit. apply matchesSearch_spec in Hhit. vm_compute in Hhit.
      discriminate Hhit.
  - split; [apply Habs; reflexivity | exact (eq_trans (Hone eq_refl) eq_refl)].
Defined.

Lemma notification_without_row_is_dropped_witness :
  after (handleRealtimeInsert (sample_options "" 1) (sample_service [] None None) 6)
        sample_world = sample_state.
Proof.
  destruct (notification_without_row_is_dropped (sample_options "" 1)
              (sample_service [] None None) sample_world 6) as (Hi & _).
  - reflexivity.
  - exact Hi.
Defined.

(** The sample page is full (three of three): after the notification for
    T6 it still holds three entries. *)
Lemma insert_notification_keeps_page_bound_witness :
  Z.of_nat (List.length
              (tasks (after (handleRealtimeInsert (sample_options "" 1)
                               (sample_service [] (Some T6) None) 6) sample_world)))
  <= 3.
Proof.
  apply (insert_notification_keeps_page_bound (sample_options "" 1)
           (sample_service [] (Some T6) None) sample_world 6).
  - discriminate.
  - discriminate.
Defined.

Lemma insert_newest_first_page_witness :
  tasks (after (handleRealtimeInsert (sample_options "" 1)
                  (sample_service [] (Some T6) None) 6) sample_world)
  = T6 :: firstn 2 [T5; T4; T3].
Proof.
  destruct (insert_newest_first_page (sample_options "" 1)
              (sample_service [] (Some T6) None) sample_world 6 T6) as (Ht & _).
  - reflexivity.
  - discriminate.
  - reflexivity.
  - simpl. intuition discriminate.
  - reflexivity.
  - reflexivity.
  - discriminate.
  - exact (eq_trans Ht eq_refl).
Defined.

Lemma insert_oldest_first_page_witness :
  tasks (after (handleRealtimeInsert oldest_options
                  (sample_service [] (Some T6) None) 6) sample_world)
  = [T5; T4; T3].
Proof.
  destruct (insert_oldest_first_page oldest_options
              (sample_service [] (Some T6) None) sample_world 6 T6) as (_ & Hfull & _).
  - reflexivity.
  - discriminate.
  - reflexivity.
  - simpl. intuition discriminate.
  - reflexivity.
  - reflexivity.
  - discriminate.
  - apply Hfull. reflexivity.
Defined.

(** Page 2 of the sample list: after the notification for T6 only T3 is
    left in the cache. *)
Lemma insert_off_first_page_collapses_witness :
  (List.length
     (tasks (after (handleRealtimeInsert (sample_options "" 2)
                      (sample_service [] (Some T6) None) 6) sample_world)) <= 1)%nat.
Proof.
  destruct (insert_off_first_page_collapses (sample_options "" 2)
              (sample_service [] (Some T6) None) sample_world 6 T6) as (Hlen & _).
  - reflexivity.
  - discriminate.
  - reflexivity.
  - simpl. intuition discriminate.
  - discriminate.
  - reflexivity.
  - discriminate.
  - exact Hlen.
Defined.



(** A delete notification for task 9, which is not displayed. *)
Lemma delete_notification_removes_id_witness :
  tasks (after (handleRealtimeDelete 9) sample_world) = [T5; T4; T3]
  /\ PaginationInfo.totalCount (pagination (after (handleRealtimeDelete 9) sample_world))
     = 4.
Proof.
  destruct (delete_notification_removes_id sample_world 9)
    as (_ & Hc & _ & Habs & _).
  split; [apply Habs; reflexivity | exact (eq_trans Hc eq_refl)].
Defined.

(** Page 2 of five tasks, three a page: "Showing 4 to 5 of 5". *)
Lemma showing_range_within_count_witness :
  1 <= Pagination.startItem 2 5 3 <= Pagination.endItem 2 5 3
  /\ Pagination.endItem 2 5 3 <= 5.
Proof.
  destruct (showing_range_within_count 2 5 3) as (H1 & H2 & _).
  - reflexivity.
  - reflexivity.
  - split; discriminate.
  - split; assumption.
Defined.

(** Page 5 of 10. *)
Lemma page_numbers_cover_witness :
  In (Pagination.Page 5) (Pagination.getPageNumbers 5 10)
  /\ Pagination.getPageNumbers 1 0 = [].
Proof.
  destruct (page_numbers_cover 5 10) as (Hpos & _ & _).
  destruct (page_numbers_cover 1 0) as (_ & _ & Hnone).
  split.
  - destruct Hpos as (_ & _ & Hnear); [discriminate |].
    apply Hnear; split; discriminate.
  - apply Hnone. discriminate.
Defined.

Lemma fetch_then_pagination_line_witness :
  In (Pagination.Page 2)
     (Pagination.getPageNumbers 2
        (PaginationInfo.totalPages
           (pagination (after (fetchTasks (sample_options "" 7)
                                 (sample_service [T4; T3] None None)) sample_world)))).
Proof.
  destruct (fetch_then_pagination_line (sample_options "" 7)
              (sample_service [T4; T3] None None) sample_world [T4; T3])
    as (_ & _ & Hin).
  - reflexivity.
  - reflexivity.
  - reflexivity.
  - reflexivity.
  - reflexivity.
  - exact Hin.
Defined.

(** A form with a title of spaces only sends nothing. *)
Lemma task_form_submit_witness :
  snd (TaskForm.handleSubmit (addTask (sample_options "" 1) (sample_service [] None None))
         {| TaskForm.task := {| ins_title := "   "; ins_description := "d";
                                ins_isCompleted := Some false |};
            TaskForm.isLoading := false;
            TaskForm.errors := {| TaskForm.title_error := None;
                                  TaskForm.description_error := None |} |}
         sample_world)
  = sample_world.
Proof.
  destruct (task_form_submit (sample_options "" 1) (sample_service [] None None)
              {| TaskForm.task := {| ins_title := "   "; ins_description := "d";
                                     ins_isCompleted := Some false |};
                 TaskForm.isLoading := false;
                 TaskForm.errors := {| TaskForm.title_error := None;
                                       TaskForm.description_error := None |} |}
              sample_world) as (Hblank & _).
  destruct Hblank as (Hw & _); [left; reflexivity |]. exact Hw.
Defined.

(** Retitling task 4 from its item. *)
Lemma item_save_reaches_update_witness :
  sent (snd (TaskItem.handleSave
               (updateTask (sample_service [] None None) [T5; T4; T3]) T4
               {| TaskItem.isEditing := true;
                  TaskItem.editForm :=
                    {| upd_title := Some "X"; upd_description := Some "details";
                       upd_isCompleted := None; upd_createdBy := None |};
                  TaskItem.isLoading := false; TaskItem.isDeleting := false |}
               sample_world))
  = [UpdateRow 4 {| upd_title := Some "X"; upd_description := Some "details";
                    upd_isCompleted := None; upd_createdBy := None |}].
Proof.
  destruct (item_save_reaches_update (sample_service [] None None) T4 4
              {| TaskItem.isEditing := true;
                 TaskItem.editForm :=
                   {| upd_title := Some "X"; upd_description := Some "details";
                      upd_isCompleted := None; upd_createdBy := None |};
                 TaskItem.isLoading := false; TaskItem.isDeleting := false |}
              sample_world) as (_ & Hsend).
  - simpl. right. left. reflexivity.
  - reflexivity.
  - destruct Hsend as (Hreq & _); [reflexivity | reflexivity |]. exact Hreq.
Defined.

Lemma item_toggle_click_witness :
  tasks (hook (TaskItem.clickToggle (toggleTask (sample_service [] None (Some plain_failure)))
                 T4 sample_world))
  = [T5; T4; T3].
Proof.
  destruct (item_toggle_click (sample_service [] None (Some plain_failure)) T4 4 false
              sample_world) as (_ & _ & Hfail).
  - simpl. repeat (constructor; [simpl; intuition discriminate |]). constructor.
  - simpl. right. left. reflexivity.
  - reflexivity.
  - reflexivity.
  - exact (Hfail plain_failure eq_refl).
Defined.

Lemma item_delete_click_witness :
  tasks (hook (snd (TaskItem.handleDelete
                      (deleteTask (sample_service [] None None) [T5; T4; T3]) T4 true
                      (TaskItem.initial T4) sample_world)))
  = [T5; T3]
  /\ ~ In T4 (tasks (hook (snd (TaskItem.handleDelete
                      (deleteTask (sample_service [] None None) [T5; T4; T3]) T4 true
                      (TaskItem.initial T4) sample_world)))).
Proof.
  destruct (item_delete_click (sample_service [] None None) T4 4 (TaskItem.initial T4)
              sample_world) as (_ & _ & Hok & _).
  - simpl. repeat (constructor; [simpl; intuition discriminate |]). constructor.
  - simpl. right. left. reflexivity.
  - reflexivity.
  - split; [reflexivity |]. apply Hok. reflexivity.
Defined.

Lemma ids_stay_distinct_witness :
  NoDup (map id (tasks (after (handleRealtimeInsert (sample_options "" 1)
                                 (sample_service [] (Some T6) None) 6) sample_world))).
Proof.
  destruct (ids_stay_distinct (sample_options "" 1) (sample_service [] (Some T6) None)
              sample_world 6 (only_isCompleted true) false)
    as (_ & _ & _ & _ & _ & Hins).
  - simpl. repeat (constructor; [simpl; intuition discriminate |]). constructor.
  - apply Hins; [| discriminate]. intros row [= <-]. reflexivity.
Defined.
